(** * Task lifecycle and history engine (services/task/taskRules)

    A shallow embedding of the task service: the in-memory task store and
    history log, the CRUD operations, the overdue sweep, the query pipeline
    and the status handler of the controller, followed by the properties
    the specification states about them.

    Conventions of the embedding.
    - A JavaScript string is a [string] holding its UTF-8 bytes; [jsLength]
      recovers the number of UTF-16 code units that [.length] reports.
    - A JavaScript number met by the date arithmetic is an [option Z]:
      [None] is NaN (and an invalid [Date]).
    - Local time is taken to be UTC: the service treats its dates as naive
      calendar dates, and no time-zone offset enters the arithmetic.
    - [new Date()] and [uuidv4()] are read from two oracles, indexed by the
      number of reads made so far, so that nothing is assumed about the
      values they return. *)

From Stdlib Require Import ZArith Lia Permutation Ascii String Sorted.
From stdpp Require Import base list strings.

(** ** JavaScript strings *)

Module Js.

(** A byte that continues a UTF-8 sequence: 10xxxxxx. *)
Definition isContinuation (c : ascii) : bool :=
  let n := nat_of_ascii c in (128 <=? n)%nat && (n <? 192)%nat.

(** A byte that opens a four-byte sequence (a supplementary code point,
    two UTF-16 code units): 11110xxx. *)
Definition isAstralLead (c : ascii) : bool :=
  (240 <=? nat_of_ascii c)%nat.

(** [s.length]: UTF-16 code units of the string encoded by [s]. *)
Fixpoint jsLength (s : string) : nat :=
  match s with
  | EmptyString => 0
  | String c r =>
      (if isContinuation c then 0 else if isAstralLead c then 2 else 1)
      + jsLength r
  end.

(** One WhiteSpace or LineTerminator code point at the head of [s], as
    [String.prototype.trim] strips it; the rest of the string when there
    is one. *)
Definition stripSpace (s : string) : option string :=
  match s with
  | String c r =>
      let n := nat_of_ascii c in
      if ((9 <=? n) && (n <=? 13) || (n =? 32))%nat then Some r
      else match r with
      | String d r' =>
          let m := nat_of_ascii d in
          if ((n =? 194) && (m =? 160))%nat then Some r'          (* U+00A0 *)
          else match r' with
          | String e r'' =>
              let k := nat_of_ascii e in
              if ((n =? 225) && (m =? 154) && (k =? 128)            (* U+1680 *)
                  || (n =? 226) && (m =? 128) && (128 <=? k) && (k <=? 138) (* U+2000..200A *)
                  || (n =? 226) && (m =? 128) && ((k =? 168) || (k =? 169) || (k =? 175))
                  || (n =? 226) && (m =? 129) && (k =? 159)         (* U+205F *)
                  || (n =? 227) && (m =? 128) && (k =? 128)         (* U+3000 *)
                  || (n =? 239) && (m =? 187) && (k =? 191))%nat    (* U+FEFF *)
              then Some r'' else None
          | EmptyString => None
          end
      | EmptyString => None
      end
  | EmptyString => None
  end.

(** [s.trim().length === 0]: the string is made of white space only.
    The fuel is the byte length, an upper bound on the code points. *)
Fixpoint blankWithin (fuel : nat) (s : string) : bool :=
  match s with
  | EmptyString => true
  | _ =>
      match fuel with
      | O => false
      | S fuel' =>
          match stripSpace s with
          | Some r => blankWithin fuel' r
          | None => false
          end
      end
  end.

Definition trimIsEmpty (s : string) : bool := blankWithin (String.length s) s.

(** Truthiness of a [string | null]: neither null nor empty. *)
Definition truthy (v : option string) : bool :=
  match v with
  | Some (String _ _) => true
  | _ => false
  end.

(** [String(v)] for a [string | null]. *)
Definition String_ (v : option string) : string :=
  match v with
  | Some s => s
  | None => "null"
  end.

(** [a !== b] on [string | null]. *)
Definition strictNe (a b : option string) : bool :=
  negb (bool_decide (a = b)).

(** [s.split(sep)] for a one-character separator. *)
Fixpoint split (sep : ascii) (s : string) : list string :=
  match s with
  | EmptyString => [EmptyString]
  | String c r =>
      if Ascii.eqb c sep then EmptyString :: split sep r
      else match split sep r with
           | h :: t => String c h :: t
           | [] => [String c EmptyString]
           end
  end.

Definition isDigit (c : ascii) : bool :=
  let n := nat_of_ascii c in (48 <=? n)%nat && (n <=? 57)%nat.

Fixpoint digitsValue (acc : Z) (s : string) : option Z :=
  match s with
  | EmptyString => Some acc
  | String c r =>
      if isDigit c
      then digitsValue (10 * acc + Z.of_nat (nat_of_ascii c - 48)) r
      else None
  end.

(** [Number(s)] on the strings the request schema lets through: a run
    of decimal digits is its value and the empty string is 0. Every
    other string is NaN here; signs, fractions, exponents, radix
    prefixes and padding are outside this model. *)
Definition Number_ (s : string) : option Z := digitsValue 0 s.

(** [const [a, b, c] = parts.map(Number)]: a missing element is
    [undefined], which every later use turns into NaN. *)
Definition element (i : nat) (parts : list (option Z)) : option Z :=
  match parts !! i with
  | Some v => v
  | None => None
  end.

(** [hay.includes(needle)]. *)
Fixpoint includes (needle hay : string) : bool :=
  String.prefix needle hay ||
  match hay with
  | EmptyString => false
  | String _ r => includes needle r
  end.

End Js.

(** ** JavaScript dates, as ECMA-262 defines them, with local time = UTC *)

Module JsDate.
Local Open Scope Z_scope.

Definition msPerSecond : Z := 1000.
Definition msPerMinute : Z := 60000.
Definition msPerHour : Z := 3600000.
Definition msPerDay : Z := 86400000.

Definition Day (t : Z) : Z := t / msPerDay.
Definition TimeWithinDay (t : Z) : Z := t mod msPerDay.
Definition SecFromTime (t : Z) : Z := (t / msPerSecond) mod 60.
Definition msFromTime (t : Z) : Z := t mod msPerSecond.

Definition InLeapYear (y : Z) : bool :=
  ((y mod 4 =? 0) && negb (y mod 100 =? 0)) || (y mod 400 =? 0).

Definition DayFromYear (y : Z) : Z :=
  365 * (y - 1970) + (y - 1969) / 4 - (y - 1901) / 100 + (y - 1601) / 400.

(** Day of the year on which month [m] (0 = January) starts. *)
Definition monthStart (leap : bool) (m : Z) : Z :=
  let l := if leap then 1 else 0 in
  match m with
  | 0 => 0
  | 1 => 31
  | 2 => 59 + l
  | 3 => 90 + l
  | 4 => 120 + l
  | 5 => 151 + l
  | 6 => 181 + l
  | 7 => 212 + l
  | 8 => 243 + l
  | 9 => 273 + l
  | 10 => 304 + l
  | _ => 334 + l
  end.

Definition MakeDay (year month date : Z) : Z :=
  let ym := year + month / 12 in
  let mn := month mod 12 in
  DayFromYear ym + monthStart (InLeapYear ym) mn + date - 1.

Definition MakeTime (hour min sec ms : Z) : Z :=
  hour * msPerHour + min * msPerMinute + sec * msPerSecond + ms.

Definition MakeDate (day time : Z) : Z := day * msPerDay + time.

Definition TimeClip (t : Z) : option Z :=
  if Z.abs t <=? 8640000000000000 then Some t else None.

(** Year, month (0 = January) and day of the month of a day number. *)
Definition civil (day : Z) : Z * Z * Z :=
  let z := day + 719468 in
  let era := z / 146097 in
  let doe := z - era * 146097 in
  let yoe := (doe - doe / 1460 + doe / 36524 - doe / 146096) / 365 in
  let doy := doe - (365 * yoe + yoe / 4 - yoe / 100) in
  let mp := (5 * doy + 2) / 153 in
  let d := doy - (153 * mp + 2) / 5 + 1 in
  let m := if mp <? 10 then mp + 3 else mp - 9 in
  let y := yoe + era * 400 + (if m <=? 2 then 1 else 0) in
  (y, m - 1, d).

Definition getFullYear (t : Z) : Z := (civil (Day t)).1.1.
Definition getMonth (t : Z) : Z := (civil (Day t)).1.2.
Definition getDate (t : Z) : Z := (civil (Day t)).2.

(** [new Date(year, month, date)]; a year from 0 to 99 means 1900 + year. *)
Definition ofYMD (year month date : option Z) : option Z :=
  match year, month, date with
  | Some y, Some m, Some d =>
      let yr := if (0 <=? y) && (y <=? 99) then 1900 + y else y in
      TimeClip (MakeDate (MakeDay yr m d) (MakeTime 0 0 0 0))
  | _, _, _ => None
  end.

(** [d.setHours(hour, min, sec, ms)] with all four arguments. *)
Definition setHours4 (d : option Z) (hour min sec ms : option Z) : option Z :=
  match d, hour, min, sec, ms with
  | Some t, Some h, Some m, Some s, Some milli =>
      TimeClip (MakeDate (Day t) (MakeTime h m s milli))
  | _, _, _, _, _ => None
  end.

(** [const d = new Date(); d.setHours(0, 0, 0, 0)] when the clock reads [t]. *)
Definition startOfDay (t : Z) : option Z :=
  setHours4 (Some t) (Some 0) (Some 0) (Some 0) (Some 0).

(** [d.setHours(hour, min, sec)]: the milliseconds are kept. *)
Definition setHours3 (d : option Z) (hour min sec : option Z) : option Z :=
  setHours4 d hour min sec (msFromTime <$> d).

(** [d.setHours(hour, min)]: seconds and milliseconds are kept. *)
Definition setHours2 (d : option Z) (hour min : option Z) : option Z :=
  setHours4 d hour min (SecFromTime <$> d) (msFromTime <$> d).

(** [d.setDate(date)]. *)
Definition setDate (d : option Z) (date : option Z) : option Z :=
  match d, date with
  | Some t, Some dt =>
      TimeClip (MakeDate (MakeDay (getFullYear t) (getMonth t) dt)
                         (TimeWithinDay t))
  | _, _ => None
  end.

(** Relational operators on time values; any comparison with NaN is false. *)
Definition lt (a b : option Z) : bool :=
  match a, b with Some x, Some y => x <? y | _, _ => false end.
Definition le (a b : option Z) : bool :=
  match a, b with Some x, Some y => x <=? y | _, _ => false end.
Definition ge (a b : option Z) : bool := le b a.
Definition eq (a b : option Z) : bool :=
  match a, b with Some x, Some y => x =? y | _, _ => false end.

(** [a - b] on numbers. *)
Definition minus (a b : option Z) : option Z :=
  match a, b with Some x, Some y => Some (x - y) | _, _ => None end.

(** [-a]. *)
Definition neg (a : option Z) : option Z := Z.opp <$> a.

End JsDate.

Open Scope Z_scope.

(** [Array.prototype.sort(comparefn)]: a stable sort; a comparator result
    of NaN counts as 0. It is written as a stable insertion sort, which
    is the order every conforming engine produces whenever the comparator
    is consistent. *)
Section ArraySort.
Context {A : Type} (comparefn : A -> A -> option Z).

(** [comparefn(x, y) > 0]: [x] is to come after [y]. *)
Definition comesAfter (x y : A) : bool :=
  match comparefn x y with
  | Some v => 0 <? v
  | None => false
  end.

Fixpoint insertSorted (x : A) (l : list A) : list A :=
  match l with
  | [] => [x]
  | y :: l' => if comesAfter x y then y :: insertSorted x l' else x :: l
  end.

Fixpoint sort (l : list A) : list A :=
  match l with
  | [] => []
  | x :: l' => insertSorted x (sort l')
  end.
End ArraySort.

(** ** Domain types (services/task/taskTypes) *)

Inductive TaskStatus := Pendente | Concluída | Vencida.
Inductive TaskImportance := Alta | Média | Baixa.

#[global] Instance TaskStatus_eq_dec : EqDecision TaskStatus.
Proof. solve_decision. Defined.
#[global] Instance TaskImportance_eq_dec : EqDecision TaskImportance.
Proof. solve_decision. Defined.

(** The string value of each enum member. *)
Definition statusText (s : TaskStatus) : string :=
  match s with
  | Pendente => "Pendente"
  | Concluída => "Concluída"
  | Vencida => "Vencida"
  end.

Definition importanceText (i : TaskImportance) : string :=
  match i with
  | Alta => "Alta"
  | Média => "Média"
  | Baixa => "Baixa"
  end.

Module TaskEntity.
Record t := mk {
  id : string;
  titulo : string;
  descricao : option string;
  dataVencimento : option string;
  horaVencimento : option string;
  importancia : TaskImportance;
  status : TaskStatus;
  dataCriacao : Z;
  dataAtualizacao : Z;
}.

Definition withStatus (s : TaskStatus) (x : t) : t :=
  mk (id x) (titulo x) (descricao x) (dataVencimento x) (horaVencimento x)
     (importancia x) s (dataCriacao x) (dataAtualizacao x).

Definition withDataAtualizacao (d : Z) (x : t) : t :=
  mk (id x) (titulo x) (descricao x) (dataVencimento x) (horaVencimento x)
     (importancia x) (status x) (dataCriacao x) d.
End TaskEntity.

Module TaskCreateRequest.
Record t := mk {
  titulo : string;
  descricao : option string;
  dataVencimento : option string;
  horaVencimento : option string;
  importancia : TaskImportance;
}.
End TaskCreateRequest.

Module TaskUpdateRequest.
Record t := mk {
  titulo : string;
  descricao : option string;
  dataVencimento : option string;
  horaVencimento : option string;
  importancia : TaskImportance;
}.
End TaskUpdateRequest.

Module TaskListFilters.
Record t := mk {
  filterStatus : string;
  filterImportance : string;
  filterPeriod : string;
  orderBy : string;
  orderDirection : string;
  searchTerm : option string;
}.
End TaskListFilters.

Module HistoryEntry.
Record t := mk {
  id : string;
  idTarefa : string;
  dataAlteracao : Z;
  tipoAlteracao : string;
  campoAlterado : option string;
  valorAnterior : option string;
  valorNovo : option string;
  origemAlteracao : string;
}.
End HistoryEntry.

(** ** The store and the effects of the service *)

(** The two module-level arrays, and how many times the clock and the
    identifier generator have been read. *)
Record World := mkWorld {
  tasks : list TaskEntity.t;
  history : list HistoryEntry.t;
  dateReads : nat;
  uuidReads : nat;
}.

(** How an async function settles: it returns, or it throws [Error(e)]. *)
Inductive Completion (A : Type) :=
| Returned (a : A)
| Thrown (e : string).
Arguments Returned {A} a.
Arguments Thrown {A} e.

Definition Promise (A : Type) : Type := World -> Completion A * World.

Definition ret {A} (a : A) : Promise A := fun w => (Returned a, w).

Definition throw {A} (e : string) : Promise A := fun w => (Thrown e, w).

Definition bind {A B} (c : Promise A) (k : A -> Promise B) : Promise B :=
  fun w =>
    match c w with
    | (Returned a, w') => k a w'
    | (Thrown e, w') => (Thrown e, w')
    end.

Notation "'let!' x ':=' c 'in' k" := (bind c (fun x => k))
  (at level 10, x name, c at level 100, k at level 200).
Notation "'do!' c 'in' k" := (bind c (fun _ => k))
  (at level 10, c at level 100, k at level 200).

Definition getTasks : Promise (list TaskEntity.t) :=
  fun w => (Returned (tasks w), w).

Definition setTasks (ts : list TaskEntity.t) : Promise unit :=
  fun w => (Returned tt, mkWorld ts (history w) (dateReads w) (uuidReads w)).

Definition getHistory : Promise (list HistoryEntry.t) :=
  fun w => (Returned (history w), w).

(** [history.push(entry)]. *)
Definition pushHistory (entry : HistoryEntry.t) : Promise unit :=
  fun w =>
    (Returned tt,
     mkWorld (tasks w) (history w ++ [entry]) (dateReads w) (uuidReads w)).

(** [for (const x of xs) await body(x)]. *)
Fixpoint forEach {A} (body : A -> Promise unit) (xs : list A) : Promise unit :=
  match xs with
  | [] => ret tt
  | x :: xs' => do! body x in forEach body xs'
  end.

(** The text of a due-date and of a due-time, as the service reads them. *)

(** [const [day, month, year] = s.split('/').map(Number)]. *)
Definition dayMonthYear (s : string) : option Z * option Z * option Z :=
  let parts := Js.Number_ <$> Js.split "/" s in
  (Js.element 0 parts, Js.element 1 parts, Js.element 2 parts).

(** [new Date(year, month - 1, day)] of the above. *)
Definition dueDateOf (s : string) : option Z :=
  let '(day, month, year) := dayMonthYear s in
  JsDate.ofYMD year (JsDate.minus month (Some 1)) day.

(** [const [hours, minutes] = s.split(':').map(Number)]. *)
Definition hoursMinutes (s : string) : option Z * option Z :=
  let parts := Js.Number_ <$> Js.split ":" s in
  (Js.element 0 parts, Js.element 1 parts).

(** [v] when it is truthy: a string that is neither null nor empty. *)
Definition present (v : option string) : option string :=
  if Js.truthy v then v else None.

(** ** The service (services/task/taskRules) *)

Section Service.

(** The [n]-th value that [new Date()] yields (milliseconds since the
    epoch), the [n]-th identifier that [uuidv4()] yields, and the
    host's [String.prototype.toLowerCase]. *)
Variable clock : nat -> Z.
Variable uuid : nat -> string.
Variable toLowerCase : string -> string.

(** [new Date()]. *)
Definition newDate : Promise Z :=
  fun w =>
    (Returned (clock (dateReads w)),
     mkWorld (tasks w) (history w) (S (dateReads w)) (uuidReads w)).

(** [uuidv4()]. *)
Definition uuidv4 : Promise string :=
  fun w =>
    (Returned (uuid (uuidReads w)),
     mkWorld (tasks w) (history w) (dateReads w) (S (uuidReads w))).

(** [tasks[i] = task]. *)
Definition assignTask (i : nat) (task : TaskEntity.t) : Promise unit :=
  let! ts := getTasks in setTasks (<[i := task]> ts).

(** [tasks[i].field = value], through the setter [f]. *)
Definition alterTask (i : nat) (f : TaskEntity.t -> TaskEntity.t) : Promise unit :=
  let! ts := getTasks in setTasks (alter f i ts).

(** [return tasks[i]]. *)
Definition taskAt (i : nat) : Promise (option TaskEntity.t) :=
  let! ts := getTasks in ret (ts !! i).

Definition recordHistory (idTarefa tipoAlteracao : string)
    (campoAlterado valorAnterior valorNovo : option string)
    (origemAlteracao : string) : Promise unit :=
  let! entryId := uuidv4 in
  let! dataAlteracao := newDate in
  pushHistory (HistoryEntry.mk entryId idTarefa dataAlteracao tipoAlteracao
                 campoAlterado valorAnterior valorNovo origemAlteracao).

(** The three checks that open both [taskCreate] and [taskUpdate]:
    the message of the error thrown, if any. *)
Definition validationError (titulo : string) (descricao : option string)
    : option string :=
  if negb (Js.truthy (Some titulo)) || Js.trimIsEmpty titulo
  then Some "tituloObrigatorio"
  else if (100 <? Js.jsLength titulo)%nat
  then Some "tituloMuitoLongo"
  else match present descricao with
       | Some d =>
           if (500 <? Js.jsLength d)%nat then Some "descricaoMuitoLonga"
           else None
       | None => None
       end.

Definition taskCreate (data : TaskCreateRequest.t) : Promise TaskEntity.t :=
  match validationError (TaskCreateRequest.titulo data)
                        (TaskCreateRequest.descricao data) with
  | Some e => throw e
  | None =>
      let! newId := uuidv4 in
      let! created := newDate in
      let! updated := newDate in
      let newTask :=
        TaskEntity.mk newId
          (TaskCreateRequest.titulo data)
          (TaskCreateRequest.descricao data)
          (TaskCreateRequest.dataVencimento data)
          (TaskCreateRequest.horaVencimento data)
          (TaskCreateRequest.importancia data)
          Pendente created updated in
      let! ts := getTasks in
      do! setTasks (ts ++ [newTask]) in
      do! recordHistory newId "Criação" None None None "Manual" in
      ret newTask
  end.

(** *** taskList *)

(** The period stage, for a period other than 'Todas'. *)
Definition periodFilter (now : Z) (filterPeriod : string)
    (ts : list TaskEntity.t) : list TaskEntity.t :=
  let today :=
    JsDate.ofYMD (Some (JsDate.getFullYear now)) (Some (JsDate.getMonth now))
                 (Some (JsDate.getDate now)) in
  if String.eqb filterPeriod "Hoje" then
    List.filter (fun task =>
      match present (TaskEntity.dataVencimento task) with
      | None => false
      | Some s => JsDate.eq (dueDateOf s) today
      end) ts
  else if String.eqb filterPeriod "Esta semana" then
    let weekEnd :=
      JsDate.setDate today ((fun t => JsDate.getDate t + 7) <$> today) in
    List.filter (fun task =>
      match present (TaskEntity.dataVencimento task) with
      | None => false
      | Some s =>
          let dueDate := dueDateOf s in
          JsDate.ge dueDate today && JsDate.le dueDate weekEnd
      end) ts
  else if String.eqb filterPeriod "Este mês" then
    List.filter (fun task =>
      match present (TaskEntity.dataVencimento task) with
      | None => false
      | Some s =>
          let '(_, month, year) := dayMonthYear s in
          JsDate.eq month (Some (JsDate.getMonth now + 1))
          && JsDate.eq year (Some (JsDate.getFullYear now))
      end) ts
  else if String.eqb filterPeriod "Próximas ao vencimento" then
    let fortyEightHours := JsDate.TimeClip (now + 48 * 60 * 60 * 1000) in
    List.filter (fun task =>
      match present (TaskEntity.dataVencimento task) with
      | None => false
      | Some s =>
          let dueDate :=
            match present (TaskEntity.horaVencimento task) with
            | Some h =>
                let '(hours, minutes) := hoursMinutes h in
                JsDate.setHours2 (dueDateOf s) hours minutes
            | None => dueDateOf s
            end in
          JsDate.ge dueDate (Some now)
          && JsDate.le dueDate fortyEightHours
          && bool_decide (TaskEntity.status task = Pendente)
      end) ts
  else if String.eqb filterPeriod "Vencidas" then
    List.filter (fun task => bool_decide (TaskEntity.status task = Vencida)) ts
  else if String.eqb filterPeriod "Sem data" then
    List.filter (fun task => negb (Js.truthy (TaskEntity.dataVencimento task))) ts
  else ts.

Definition importanceOrder (i : TaskImportance) : Z :=
  match i with
  | Alta => 1
  | Média => 2
  | Baixa => 3
  end.

(** The comparator handed to [filteredTasks.sort]. *)
Definition compareTasks (filters : TaskListFilters.t) (a b : TaskEntity.t)
    : option Z :=
  let comparison :=
    if String.eqb (TaskListFilters.orderBy filters) "Data de vencimento" then
      match present (TaskEntity.dataVencimento a),
            present (TaskEntity.dataVencimento b) with
      | None, None => Some 0
      | None, Some _ => Some 1
      | Some _, None => Some (-1)
      | Some sa, Some sb => JsDate.minus (dueDateOf sa) (dueDateOf sb)
      end
    else if String.eqb (TaskListFilters.orderBy filters) "Importância" then
      Some (importanceOrder (TaskEntity.importancia a)
            - importanceOrder (TaskEntity.importancia b))
    else if String.eqb (TaskListFilters.orderBy filters) "Data de criação" then
      Some (TaskEntity.dataCriacao a - TaskEntity.dataCriacao b)
    else Some 0 in
  if String.eqb (TaskListFilters.orderDirection filters) "Crescente"
  then comparison
  else JsDate.neg comparison.

Definition taskList (filters : TaskListFilters.t) : Promise (list TaskEntity.t) :=
  let! ts := getTasks in
  let byStatus :=
    if negb (String.eqb (TaskListFilters.filterStatus filters) "Todas") then
      List.filter (fun task =>
        String.eqb (statusText (TaskEntity.status task))
                   (TaskListFilters.filterStatus filters)) ts
    else ts in
  let byImportance :=
    if negb (String.eqb (TaskListFilters.filterImportance filters) "Todas") then
      List.filter (fun task =>
        String.eqb (importanceText (TaskEntity.importancia task))
                   (TaskListFilters.filterImportance filters)) byStatus
    else byStatus in
  let! byPeriod :=
    if negb (String.eqb (TaskListFilters.filterPeriod filters) "Todas") then
      let! now := newDate in
      ret (periodFilter now (TaskListFilters.filterPeriod filters) byImportance)
    else ret byImportance in
  let bySearch :=
    match present (TaskListFilters.searchTerm filters) with
    | Some term =>
        let searchLower := toLowerCase term in
        List.filter (fun task =>
          Js.includes searchLower (toLowerCase (TaskEntity.titulo task))
          || match present (TaskEntity.descricao task) with
             | Some d => Js.includes searchLower (toLowerCase d)
             | None => false
             end) byPeriod
    | None => byPeriod
    end in
  ret (sort (compareTasks filters) bySearch).

Definition taskGet (id : string) : Promise (option TaskEntity.t) :=
  let! ts := getTasks in
  ret (snd <$> list_find (fun t => TaskEntity.id t = id) ts).

(** *** taskUpdate *)

(** The [changedFields] array: field name, old value, new value. *)
Definition changedFields (oldTask : TaskEntity.t) (data : TaskUpdateRequest.t)
    : list (string * option string * option string) :=
  let titulo :=
    (Some (TaskEntity.titulo oldTask), Some (TaskUpdateRequest.titulo data)) in
  let descricao :=
    (TaskEntity.descricao oldTask, TaskUpdateRequest.descricao data) in
  let dataVencimento :=
    (TaskEntity.dataVencimento oldTask, TaskUpdateRequest.dataVencimento data) in
  let horaVencimento :=
    (TaskEntity.horaVencimento oldTask, TaskUpdateRequest.horaVencimento data) in
  let importancia :=
    (Some (importanceText (TaskEntity.importancia oldTask)),
     Some (importanceText (TaskUpdateRequest.importancia data))) in
  (if Js.strictNe titulo.1 titulo.2
   then [("titulo", titulo.1, titulo.2)] else [])
  ++ (if Js.strictNe descricao.1 descricao.2
      then [("descricao", descricao.1, descricao.2)] else [])
  ++ (if Js.strictNe dataVencimento.1 dataVencimento.2
      then [("dataVencimento", dataVencimento.1, dataVencimento.2)] else [])
  ++ (if Js.strictNe horaVencimento.1 horaVencimento.2
      then [("horaVencimento", horaVencimento.1, horaVencimento.2)] else [])
  ++ (if Js.strictNe importancia.1 importancia.2
      then [("importancia", importancia.1, importancia.2)] else []).

Definition taskUpdate (id : string) (data : TaskUpdateRequest.t)
    : Promise (option TaskEntity.t) :=
  let! ts := getTasks in
  match list_find (fun t => TaskEntity.id t = id) ts with
  | None => ret None
  | Some (taskIndex, oldTask) =>
      match validationError (TaskUpdateRequest.titulo data)
                            (TaskUpdateRequest.descricao data) with
      | Some e => throw e
      | None =>
          let! updatedAt := newDate in
          do! assignTask taskIndex
                (TaskEntity.mk (TaskEntity.id oldTask)
                   (TaskUpdateRequest.titulo data)
                   (TaskUpdateRequest.descricao data)
                   (TaskUpdateRequest.dataVencimento data)
                   (TaskUpdateRequest.horaVencimento data)
                   (TaskUpdateRequest.importancia data)
                   (TaskEntity.status oldTask)
                   (TaskEntity.dataCriacao oldTask)
                   updatedAt) in
          do! match TaskEntity.status oldTask,
                    present (TaskUpdateRequest.dataVencimento data) with
              | Vencida, Some s =>
                  let dueDate := dueDateOf s in
                  let! today := newDate in
                  let today := JsDate.startOfDay today in
                  if JsDate.ge dueDate today then
                    do! alterTask taskIndex (TaskEntity.withStatus Pendente) in
                    recordHistory id "Alteração de Status" (Some "status")
                      (Some (statusText Vencida)) (Some (statusText Pendente))
                      "Automática"
                  else ret tt
              | _, _ => ret tt
              end in
          do! forEach (fun change : string * option string * option string =>
                let '(field, oldValue, newValue) := change in
                recordHistory id "Edição" (Some field)
                  (Some (Js.String_ oldValue)) (Some (Js.String_ newValue))
                  "Manual")
                (changedFields oldTask data) in
          taskAt taskIndex
      end
  end.

Definition taskDelete (id : string) : Promise bool :=
  let! ts := getTasks in
  match list_find (fun t => TaskEntity.id t = id) ts with
  | None => ret false
  | Some (taskIndex, _) =>
      do! recordHistory id "Exclusão" None None None "Manual" in
      let! ts := getTasks in
      do! setTasks (delete taskIndex ts) in
      ret true
  end.

Definition taskUpdateStatus (id : string) (status : TaskStatus)
    : Promise (option TaskEntity.t) :=
  let! ts := getTasks in
  match list_find (fun t => TaskEntity.id t = id) ts with
  | None => ret None
  | Some (taskIndex, found) =>
      let oldStatus := TaskEntity.status found in
      if bool_decide (oldStatus = Vencida) && bool_decide (status = Pendente)
      then throw "alteracaoNaoPermitida"
      else
        do! alterTask taskIndex (TaskEntity.withStatus status) in
        let! updatedAt := newDate in
        do! alterTask taskIndex (TaskEntity.withDataAtualizacao updatedAt) in
        do! recordHistory id "Alteração de Status" (Some "status")
              (Some (statusText oldStatus)) (Some (statusText status))
              "Manual" in
        taskAt taskIndex
  end.

(** *** taskCheckOverdue *)

(** The moment against which the sweep compares the clock: the due-date
    at the due-time, or at 23:59:59 when there is no due-time. *)
Definition sweepDueDate (task : TaskEntity.t) (dataVencimento : string)
    : option Z :=
  match present (TaskEntity.horaVencimento task) with
  | Some h =>
      let '(hours, minutes) := hoursMinutes h in
      JsDate.setHours2 (dueDateOf dataVencimento) hours minutes
  | None =>
      JsDate.setHours3 (dueDateOf dataVencimento) (Some 23) (Some 59) (Some 59)
  end.

(** The body of the loop, for one task object; the task is mutated in
    place, which is rendered as the task returned. *)
Definition checkOne (now : Z) (task : TaskEntity.t) : Promise TaskEntity.t :=
  match TaskEntity.status task, present (TaskEntity.dataVencimento task) with
  | Pendente, Some s =>
      if JsDate.lt (sweepDueDate task s) (Some now) then
        let! updatedAt := newDate in
        do! recordHistory (TaskEntity.id task) "Alteração de Status"
              (Some "status") (Some (statusText Pendente))
              (Some (statusText Vencida)) "Automática" in
        ret (TaskEntity.withDataAtualizacao updatedAt
               (TaskEntity.withStatus Vencida task))
      else ret task
  | _, _ => ret task
  end.

(** [for (const task of tasks) ...], over the task objects in order. *)
Fixpoint checkEach (now : Z) (ts : list TaskEntity.t)
    : Promise (list TaskEntity.t) :=
  match ts with
  | [] => ret []
  | task :: rest =>
      let! task' := checkOne now task in
      let! rest' := checkEach now rest in
      ret (task' :: rest')
  end.

Definition taskCheckOverdue : Promise unit :=
  let! now := newDate in
  let! ts := getTasks in
  let! ts' := checkEach now ts in
  setTasks ts'.

(** *** taskGetHistory *)

Definition taskGetHistory (idTarefa : string)
    (filterTipo filterOrigem : option string) : Promise (list HistoryEntry.t) :=
  let! h := getHistory in
  let entries :=
    List.filter (fun e => String.eqb (HistoryEntry.idTarefa e) idTarefa) h in
  let entries :=
    match present filterTipo with
    | Some tipo =>
        if negb (String.eqb tipo "Todas")
        then List.filter (fun e => String.eqb (HistoryEntry.tipoAlteracao e) tipo)
               entries
        else entries
    | None => entries
    end in
  let entries :=
    match present filterOrigem with
    | Some origem =>
        if negb (String.eqb origem "Todas")
        then List.filter
               (fun e => String.eqb (HistoryEntry.origemAlteracao e) origem)
               entries
        else entries
    | None => entries
    end in
  ret (sort (fun a b => Some (HistoryEntry.dataAlteracao b
                              - HistoryEntry.dataAlteracao a)) entries).

(** ** The status handler (api/v1/internal/task/controller) *)

(** What the handler does with the response: it answers with the task,
    or hands an error object or a thrown error to [next]. *)
Inductive HandlerOutcome :=
| Responded (task : TaskEntity.t)
| NextError (statusCode : Z) (code message : string)
| NextThrown (e : string).

(** zod's [z.string().uuid()] check on the path parameter. *)
Variable isUuid : string -> bool.

(** [z.enum(['Pendente', 'Concluída'])] on [req.body.status]; [None] is
    a body without a string there. *)
Definition parseStatusBody (body : option string) : option TaskStatus :=
  match body with
  | Some s =>
      if String.eqb s "Pendente" then Some Pendente
      else if String.eqb s "Concluída" then Some Concluída
      else None
  | None => None
  end.

Definition updateStatusHandler (paramId : string) (bodyStatus : option string)
    : World -> HandlerOutcome * World :=
  fun w =>
    if negb (isUuid paramId)
    then (NextError 400 "VALIDATION_ERROR" "idTarefaInvalido", w)
    else match parseStatusBody bodyStatus with
         | None => (NextError 400 "VALIDATION_ERROR" "statusInvalido", w)
         | Some status =>
             match taskUpdateStatus paramId status w with
             | (Returned (Some task), w') => (Responded task, w')
             | (Returned None, w') =>
                 (NextError 404 "tarefaNaoEncontrada"
                    "A tarefa solicitada não foi encontrada", w')
             | (Thrown e, w') => (NextThrown e, w')
             end
         end.

(** ** Calls of the service, one after another *)

Inductive Call :=
| CallCreate (data : TaskCreateRequest.t)
| CallList (filters : TaskListFilters.t)
| CallGet (id : string)
| CallUpdate (id : string) (data : TaskUpdateRequest.t)
| CallDelete (id : string)
| CallUpdateStatus (id : string) (status : TaskStatus)
| CallCheckOverdue
| CallGetHistory (idTarefa : string) (filterTipo filterOrigem : option string).

(** The world a call leaves behind, whether it returns or throws. *)
Definition after (c : Call) (w : World) : World :=
  match c with
  | CallCreate data => (taskCreate data w).2
  | CallList filters => (taskList filters w).2
  | CallGet id => (taskGet id w).2
  | CallUpdate id data => (taskUpdate id data w).2
  | CallDelete id => (taskDelete id w).2
  | CallUpdateStatus id status => (taskUpdateStatus id status w).2
  | CallCheckOverdue => (taskCheckOverdue w).2
  | CallGetHistory i ft fo => (taskGetHistory i ft fo w).2
  end.

Definition afterAll (cs : list Call) (w : World) : World :=
  fold_left (fun w c => after c w) cs w.

End Service.

(** The world at start-up: both arrays empty, nothing read yet. *)
Definition emptyWorld : World := mkWorld [] [] 0 0.

(** ** The other handlers of the controller, and the history handler *)

(** The query string of [GET /task]: each parameter is absent or a string. *)
Module ListQuery.
Record t := mk {
  filterStatus : option string;
  filterImportance : option string;
  filterPeriod : option string;
  orderBy : option string;
  orderDirection : option string;
  searchTerm : option string;
}.
End ListQuery.

(** The body of [POST /task] and [PUT /task/:id], for bodies whose
    fields are strings or absent. *)
Module TaskBody.
Record t := mk {
  titulo : option string;
  descricao : option string;
  dataVencimento : option string;
  horaVencimento : option string;
  importancia : option string;
}.
End TaskBody.

(** What [bodySchema.parse] returns. *)
Module ParsedBody.
Record t := mk {
  titulo : string;
  descricao : option string;
  dataVencimento : option string;
  horaVencimento : option string;
  importancia : TaskImportance;
}.
End ParsedBody.

(** The query string of [GET /task/:id/history]. *)
Module HistoryQuery.
Record t := mk {
  filterTipo : option string;
  filterOrigem : option string;
}.
End HistoryQuery.

(** What a handler does with the request: it sends [data] with a status
    code, hands [next] an error object (its message is not kept here), or
    forwards to [next] what was thrown, an [Error(e)] of the service or,
    in [listHandler], the [ZodError] itself. *)
Inductive Reply (A : Type) :=
| Sent (statusCode : Z) (data : A)
| Refused (statusCode : Z) (code : string)
| Forwarded (e : string)
| ForwardedZodError.
Arguments Sent {A} statusCode data.
Arguments Refused {A} statusCode code.
Arguments Forwarded {A} e.
Arguments ForwardedZodError {A}.

(** [z.enum(allowed).optional().default(fallback)]; [None] is a ZodError. *)
Definition enumOrDefault (allowed : list string) (fallback : string)
    (v : option string) : option string :=
  match v with
  | None => Some fallback
  | Some s => if existsb (String.eqb s) allowed then Some s else None
  end.

(** [/^\d{2}\/\d{2}\/\d{4}$/.test(s)]. *)
Definition matchesDate (s : string) : bool :=
  match s with
  | String d1 (String d2 (String sep1 (String m1 (String m2 (String sep2
      (String y1 (String y2 (String y3 (String y4 EmptyString))))))))) =>
      Js.isDigit d1 && Js.isDigit d2 && Ascii.eqb sep1 "/"
      && Js.isDigit m1 && Js.isDigit m2 && Ascii.eqb sep2 "/"
      && Js.isDigit y1 && Js.isDigit y2 && Js.isDigit y3 && Js.isDigit y4
  | _ => false
  end.

(** [/^\d{2}:\d{2}$/.test(s)]. *)
Definition matchesTime (s : string) : bool :=
  match s with
  | String h1 (String h2 (String sep (String m1 (String m2 EmptyString)))) =>
      Js.isDigit h1 && Js.isDigit h2 && Ascii.eqb sep ":"
      && Js.isDigit m1 && Js.isDigit m2
  | _ => false
  end.

(** An optional string field under a check: absent passes. *)
Definition optionalField (check : string -> bool) (v : option string) : bool :=
  match v with
  | None => true
  | Some s => check s
  end.

(** [z.enum(['Alta', 'Média', 'Baixa'])]. *)
Definition parseImportance (v : option string) : option TaskImportance :=
  match v with
  | Some s =>
      if String.eqb s "Alta" then Some Alta
      else if String.eqb s "Média" then Some Média
      else if String.eqb s "Baixa" then Some Baixa
      else None
  | None => None
  end.

(** [bodySchema.parse(req.body)] of [createHandler] and [updateHandler];
    [None] is a ZodError. *)
Definition parseTaskBody (body : TaskBody.t) : option ParsedBody.t :=
  match TaskBody.titulo body, parseImportance (TaskBody.importancia body) with
  | Some titulo, Some importancia =>
      if (1 <=? Js.jsLength titulo)%nat && (Js.jsLength titulo <=? 100)%nat
         && optionalField (fun d => (Js.jsLength d <=? 500)%nat)
              (TaskBody.descricao body)
         && optionalField matchesDate (TaskBody.dataVencimento body)
         && optionalField matchesTime (TaskBody.horaVencimento body)
      then Some (ParsedBody.mk titulo (TaskBody.descricao body)
                   (TaskBody.dataVencimento body) (TaskBody.horaVencimento body)
                   importancia)
      else None
  | _, _ => None
  end.

(** [querySchema.parse(req.query)] of [listHandler]. *)
Definition parseListQuery (q : ListQuery.t) : option TaskListFilters.t :=
  match enumOrDefault ["Todas"; "Pendentes"; "Concluídas"; "Vencidas"] "Todas"
          (ListQuery.filterStatus q),
        enumOrDefault ["Todas"; "Alta"; "Média"; "Baixa"] "Todas"
          (ListQuery.filterImportance q),
        enumOrDefault ["Todas"; "Hoje"; "Esta semana"; "Este mês";
                       "Próximas ao vencimento"; "Vencidas"; "Sem data"] "Todas"
          (ListQuery.filterPeriod q),
        enumOrDefault ["Data de vencimento"; "Importância"; "Data de criação"]
          "Data de vencimento" (ListQuery.orderBy q),
        enumOrDefault ["Crescente"; "Decrescente"] "Crescente"
          (ListQuery.orderDirection q) with
  | Some filterStatus, Some filterImportance, Some filterPeriod,
    Some orderBy, Some orderDirection =>
      Some (TaskListFilters.mk filterStatus filterImportance filterPeriod
              orderBy orderDirection (ListQuery.searchTerm q))
  | _, _, _, _, _ => None
  end.

(** [querySchema.parse(req.query)] of [getHistoryHandler]. *)
Definition parseHistoryQuery (q : HistoryQuery.t) : option (string * string) :=
  match enumOrDefault ["Todas"; "Criação"; "Edição"; "Alteração de Status";
                       "Exclusão"] "Todas" (HistoryQuery.filterTipo q),
        enumOrDefault ["Todas"; "Manual"; "Automática"] "Todas"
          (HistoryQuery.filterOrigem q) with
  | Some filterTipo, Some filterOrigem => Some (filterTipo, filterOrigem)
  | _, _ => None
  end.

(** [handleToggleStatus] of the tasks page: the status it asks for. *)
Definition toggledStatus (current : TaskStatus) : TaskStatus :=
  if bool_decide (current = Concluída) then Pendente else Concluída.

Section Controller.

Variable clock : nat -> Z.
Variable uuid : nat -> string.
Variable toLowerCase : string -> string.
Variable isUuid : string -> bool.

(** How a handler ends once the service call has settled. *)
Definition settle {A B} (reply : A -> Reply B)
    (r : Completion A * World) : Reply B * World :=
  match r with
  | (Returned a, w') => (reply a, w')
  | (Thrown e, w') => (Forwarded e, w')
  end.

Definition notFound {A} : Reply A := Refused 404 "tarefaNaoEncontrada".

Definition listHandler (query : ListQuery.t)
    : World -> Reply (list TaskEntity.t) * World :=
  fun w =>
    match parseListQuery query with
    | None => (ForwardedZodError, w)
    | Some filters =>
        settle (Sent 200)
          ((do! taskCheckOverdue clock uuid in
            taskList clock toLowerCase filters) w)
    end.

(** The check that [createHandler] and [updateHandler] make between the
    parse and the service call: [true] when the due-date is in the past.
    The clock is read only when there is a due-date. *)
Definition dueDateInPast (dataVencimento : option string) : Promise bool :=
  match present dataVencimento with
  | Some s =>
      let! today := newDate clock in
      ret (JsDate.lt (dueDateOf s) (JsDate.startOfDay today))
  | None => ret false
  end.

Definition createHandler (body : TaskBody.t)
    : World -> Reply TaskEntity.t * World :=
  fun w =>
    match parseTaskBody body with
    | None => (Refused 400 "VALIDATION_ERROR", w)
    | Some data =>
        match dueDateInPast (ParsedBody.dataVencimento data) w with
        | (Returned true, w1) => (Refused 400 "dataVencimentoPassado", w1)
        | (Returned false, w1) =>
            settle (Sent 201)
              (taskCreate clock uuid
                 (TaskCreateRequest.mk (ParsedBody.titulo data)
                    (present (ParsedBody.descricao data))
                    (present (ParsedBody.dataVencimento data))
                    (present (ParsedBody.horaVencimento data))
                    (ParsedBody.importancia data)) w1)
        | (Thrown e, w1) => (Forwarded e, w1)
        end
    end.

Definition getHandler (paramId : string)
    : World -> Reply TaskEntity.t * World :=
  fun w =>
    if negb (isUuid paramId) then (Refused 400 "VALIDATION_ERROR", w)
    else settle (fun task => match task with
                             | Some t => Sent 200 t
                             | None => notFound
                             end)
           (taskGet paramId w).

Definition updateHandler (paramId : string) (body : TaskBody.t)
    : World -> Reply TaskEntity.t * World :=
  fun w =>
    if negb (isUuid paramId) then (Refused 400 "VALIDATION_ERROR", w)
    else
      match parseTaskBody body with
      | None => (Refused 400 "VALIDATION_ERROR", w)
      | Some data =>
          match dueDateInPast (ParsedBody.dataVencimento data) w with
          | (Returned true, w1) => (Refused 400 "dataVencimentoPassado", w1)
          | (Returned false, w1) =>
              settle (fun task => match task with
                                  | Some t => Sent 200 t
                                  | None => notFound
                                  end)
                (taskUpdate clock uuid paramId
                   (TaskUpdateRequest.mk (ParsedBody.titulo data)
                      (present (ParsedBody.descricao data))
                      (present (ParsedBody.dataVencimento data))
                      (present (ParsedBody.horaVencimento data))
                      (ParsedBody.importancia data)) w1)
          | (Thrown e, w1) => (Forwarded e, w1)
          end
      end.

(** [deleteHandler]; the data sent is the [deleted] flag. *)
Definition deleteHandler (paramId : string) : World -> Reply bool * World :=
  fun w =>
    if negb (isUuid paramId) then (Refused 400 "VALIDATION_ERROR", w)
    else settle (fun deleted : bool =>
                   if deleted then Sent 200 true else notFound)
           (taskDelete clock uuid paramId w).

Definition getHistoryHandler (paramId : string) (query : HistoryQuery.t)
    : World -> Reply (list HistoryEntry.t) * World :=
  fun w =>
    if negb (isUuid paramId) then (Refused 400 "VALIDATION_ERROR", w)
    else
      match parseHistoryQuery query with
      | None => (Refused 400 "VALIDATION_ERROR", w)
      | Some (filterTipo, filterOrigem) =>
          match taskGet paramId w with
          | (Returned None, w1) => (notFound, w1)
          | (Returned (Some _), w1) =>
              settle (Sent 200)
                (taskGetHistory paramId (Some filterTipo) (Some filterOrigem) w1)
          | (Thrown e, w1) => (Forwarded e, w1)
          end
      end.

End Controller.

(** ** Sample hosts and stores, used to instantiate the results below *)

(** A clock that starts on 2 November 2026 at 15:04:00 and advances by
    one millisecond per reading. *)
Definition sampleClock (n : nat) : Z := 1793631840000 + Z.of_nat n.


(** Identifiers "A", "B", "C", ... in the order they are drawn. *)
Definition sampleUuid (n : nat) : string :=
  String (ascii_of_nat (65 + n)) EmptyString.

Definition sampleTask (id : string) (dataVencimento horaVencimento : option string)
    (status : TaskStatus) : TaskEntity.t :=
  TaskEntity.mk id "Pagar contas" None dataVencimento horaVencimento Alta status
    1793000000000 1793000000000.

Definition sampleRequest (titulo : string)
    (dataVencimento horaVencimento : option string) : TaskUpdateRequest.t :=
  TaskUpdateRequest.mk titulo None dataVencimento horaVencimento Alta.

Definition storeOf (ts : list TaskEntity.t) : World := mkWorld ts [] 0 0.

(** [civil] and [MakeDay] agree on the [n] days from [day] on. *)
Fixpoint civilAgrees (day : Z) (n : nat) : bool :=
  match n with
  | O => true
  | S n' =>
      (let '(y, m, d) := JsDate.civil day in
       (JsDate.MakeDay y m d =? day)
       && (0 <=? m) && (m <=? 11) && (1 <=? d) && (d <=? 31))
      && civilAgrees (day + 1) n'
  end.

(** ** Vocabulary for the statements about updates *)

(** The five fields that an update compares. *)
Inductive TrackedField :=
| FieldTitulo
| FieldDescricao
| FieldDataVencimento
| FieldHoraVencimento
| FieldImportancia.

Definition fieldName (f : TrackedField) : string :=
  match f with
  | FieldTitulo => "titulo"
  | FieldDescricao => "descricao"
  | FieldDataVencimento => "dataVencimento"
  | FieldHoraVencimento => "horaVencimento"
  | FieldImportancia => "importancia"
  end.

(** The value of a tracked field in the stored task, as a [string | null]. *)
Definition storedValue (f : TrackedField) (t : TaskEntity.t) : option string :=
  match f with
  | FieldTitulo => Some (TaskEntity.titulo t)
  | FieldDescricao => TaskEntity.descricao t
  | FieldDataVencimento => TaskEntity.dataVencimento t
  | FieldHoraVencimento => TaskEntity.horaVencimento t
  | FieldImportancia => Some (importanceText (TaskEntity.importancia t))
  end.

(** The value of a tracked field in the payload. *)
Definition submittedValue (f : TrackedField) (data : TaskUpdateRequest.t)
    : option string :=
  match f with
  | FieldTitulo => Some (TaskUpdateRequest.titulo data)
  | FieldDescricao => TaskUpdateRequest.descricao data
  | FieldDataVencimento => TaskUpdateRequest.dataVencimento data
  | FieldHoraVencimento => TaskUpdateRequest.horaVencimento data
  | FieldImportancia => Some (importanceText (TaskUpdateRequest.importancia data))
  end.

(** A history entry of kind 'Edição'. *)
Definition isEdit (e : HistoryEntry.t) : bool :=
  String.eqb (HistoryEntry.tipoAlteracao e) "Edição".

(** A history entry of kind 'Edição' for the field [f]. *)
Definition isEditOf (f : TrackedField) (e : HistoryEntry.t) : bool :=
  isEdit e && bool_decide (HistoryEntry.campoAlterado e = Some (fieldName f)).

(** The entries that the recording loop of [taskUpdate] pushes for the
    changes [cs], when the clock and the generator have been read [d] and
    [u] times before it. *)
Fixpoint editEntries (clock : nat -> Z) (uuid : nat -> string) (id : string)
    (d u : nat) (cs : list (string * option string * option string))
    : list HistoryEntry.t :=
  match cs with
  | [] => []
  | (field, oldValue, newValue) :: cs' =>
      HistoryEntry.mk (uuid u) id (clock d) "Edição" (Some field)
        (Some (Js.String_ oldValue)) (Some (Js.String_ newValue)) "Manual"
      :: editEntries clock uuid id (S d) (S u) cs'
  end.

(** The entry that records the reset of an overdue task by an update. *)
Definition resetEntry (entryId id : string) (at_ : Z) : HistoryEntry.t :=
  HistoryEntry.mk entryId id at_ "Alteração de Status" (Some "status")
    (Some "Vencida") (Some "Pendente") "Automática".

(** The task that an update writes over [t], before any reset. *)
Definition overwritten (t : TaskEntity.t) (data : TaskUpdateRequest.t) (at_ : Z)
    : TaskEntity.t :=
  TaskEntity.mk (TaskEntity.id t)
    (TaskUpdateRequest.titulo data) (TaskUpdateRequest.descricao data)
    (TaskUpdateRequest.dataVencimento data) (TaskUpdateRequest.horaVencimento data)
    (TaskUpdateRequest.importancia data)
    (TaskEntity.status t) (TaskEntity.dataCriacao t) at_.


(** The payload carries a due-date that is today or later, when the
    clock reads [now]: the date is there, it denotes a day, and that day
    does not precede the day of [now]. *)
Definition dueTodayOrLater (data : TaskUpdateRequest.t) (now : Z) : Prop :=
  exists (s : string) (due today : Z),
    TaskUpdateRequest.dataVencimento data = Some s
    /\ s <> EmptyString
    /\ dueDateOf s = Some due
    /\ JsDate.startOfDay now = Some today
    /\ today <= due.

(** A history entry of kind 'Alteração de Status'. *)
Definition isStatusChange (e : HistoryEntry.t) : bool :=
  String.eqb (HistoryEntry.tipoAlteracao e) "Alteração de Status".

(** ** Vocabulary for the statements about the sweep *)

(** The task is overdue at [now]: it is Pendente, it has a due-date, and
    the moment the sweep computes for it lies strictly before [now]. *)
Definition overdueAt (now : Z) (t : TaskEntity.t) : Prop :=
  TaskEntity.status t = Pendente
  /\ exists (s : string) (due : Z),
       TaskEntity.dataVencimento t = Some s
       /\ s <> EmptyString
       /\ sweepDueDate t s = Some due
       /\ due < now.

(** The same, as the test that the loop makes. *)
Definition overdueAtb (now : Z) (t : TaskEntity.t) : bool :=
  match TaskEntity.status t, present (TaskEntity.dataVencimento t) with
  | Pendente, Some s => JsDate.lt (sweepDueDate t s) (Some now)
  | _, _ => false
  end.

(** The entry that records a flip made by the sweep. *)
Definition isSweepEntry (e : HistoryEntry.t) : Prop :=
  HistoryEntry.tipoAlteracao e = "Alteração de Status"
  /\ HistoryEntry.campoAlterado e = Some "status"
  /\ HistoryEntry.valorAnterior e = Some "Pendente"
  /\ HistoryEntry.valorNovo e = Some "Vencida"
  /\ HistoryEntry.origemAlteracao e = "Automática".

(** How the sweep at [now], started after [d0] clock readings, relates a
    task to what it leaves in its slot. *)
Definition sweptTo (clock : nat -> Z) (now : Z) (d0 : nat)
    (t t' : TaskEntity.t) : Prop :=
  if overdueAtb now t
  then exists k : nat,
         (d0 <= k)%nat
         /\ t' = TaskEntity.withDataAtualizacao (clock k)
                   (TaskEntity.withStatus Vencida t)
  else t' = t.

(** ** Vocabulary for the statements about listing *)

(** The task has a due-date, as the service tests it. *)
Definition hasDueDate (t : TaskEntity.t) : bool :=
  Js.truthy (TaskEntity.dataVencimento t).

(** Filters that let every task through and sort by due-date. *)
Definition byDueDate (filterPeriod orderDirection : string) : TaskListFilters.t :=
  TaskListFilters.mk "Todas" "Todas" filterPeriod "Data de vencimento"
    orderDirection None.

(** ** Vocabulary for the statements about the history query *)

(** An optional filter lets a value through: the filter is absent, empty
    or 'Todas', or it is the value. *)
Definition filterPasses (filter : option string) (value : string) : bool :=
  match present filter with
  | Some f => String.eqb f "Todas" || String.eqb value f
  | None => true
  end.

(** The entry belongs to the task and passes both filters. *)
Definition historyMatches (idTarefa : string)
    (filterTipo filterOrigem : option string) (e : HistoryEntry.t) : bool :=
  String.eqb (HistoryEntry.idTarefa e) idTarefa
  && filterPasses filterTipo (HistoryEntry.tipoAlteracao e)
  && filterPasses filterOrigem (HistoryEntry.origemAlteracao e).

(** The number by which [taskList] orders tasks under the sort keys
    'Importância' and 'Data de criação'. *)
Definition sortNumber (orderBy : string) (t : TaskEntity.t) : Z :=
  if String.eqb orderBy "Importância"
  then importanceOrder (TaskEntity.importancia t)
  else TaskEntity.dataCriacao t.

(** The number by which [taskList] orders tasks under the sort key
    'Data de vencimento': the midnight of the due-date, and for a task
    without a due-date a number beyond every time value. *)
Definition dueRank (t : TaskEntity.t) : Z :=
  match present (TaskEntity.dataVencimento t) with
  | Some s => default 0 (dueDateOf s)
  | None => 8640000000000001
  end.

(** An ASCII white-space character: tab, line feed, vertical tab, form
    feed, carriage return or space. *)
Definition asciiSpace (c : ascii) : bool :=
  let n := nat_of_ascii c in ((9 <=? n) && (n <=? 13) || (n =? 32))%nat.

(** An ASCII character that is not white space. *)
Definition asciiVisible (c : ascii) : bool :=
  (nat_of_ascii c <? 128)%nat && negb (asciiSpace c).

(** Every character of the string is ASCII. *)
Definition isAscii (s : string) : Prop :=
  Forall (fun c => (nat_of_ascii c < 128)%nat) (list_ascii_of_string s).

(** A task whose due-date, when it has one, denotes a day. *)
Definition datedOrUndated (t : TaskEntity.t) : Prop :=
  forall s, present (TaskEntity.dataVencimento t) = Some s ->
            exists d, dueDateOf s = Some d.

(** A history entry as the service writes them: a creation or a deletion
    with null field and values, an edit of a tracked field, or a status
    change, manual or automatic. *)
Definition wellFormedEntry (e : HistoryEntry.t) : Prop :=
  (HistoryEntry.tipoAlteracao e = "Criação"
   \/ HistoryEntry.tipoAlteracao e = "Exclusão")
  /\ HistoryEntry.campoAlterado e = None
  /\ HistoryEntry.valorAnterior e = None
  /\ HistoryEntry.valorNovo e = None
  /\ HistoryEntry.origemAlteracao e = "Manual"
  \/ HistoryEntry.tipoAlteracao e = "Edição"
     /\ (exists f, HistoryEntry.campoAlterado e = Some (fieldName f))
     /\ HistoryEntry.valorAnterior e <> None
     /\ HistoryEntry.valorNovo e <> None
     /\ HistoryEntry.origemAlteracao e = "Manual"
  \/ HistoryEntry.tipoAlteracao e = "Alteração de Status"
     /\ HistoryEntry.campoAlterado e = Some "status"
     /\ (exists old new,
           HistoryEntry.valorAnterior e = Some (statusText old)
           /\ HistoryEntry.valorNovo e = Some (statusText new))
     /\ (HistoryEntry.origemAlteracao e = "Manual"
         \/ HistoryEntry.origemAlteracao e = "Automática").

(** Sanity checks of the calendar arithmetic against known dates. *)
Example epoch_day : JsDate.ofYMD (Some 1970) (Some 0) (Some 1) = Some 0%Z.
Proof. reflexivity. Qed.

Example leap_day_2024 :
  JsDate.civil (JsDate.MakeDay 2024 1 29) = (2024, 1, 29)%Z
  /\ JsDate.civil (JsDate.MakeDay 2023 1 29) = (2023, 2, 1)%Z
  /\ JsDate.civil (JsDate.MakeDay 2024 12 1) = (2025, 0, 1)%Z
  /\ JsDate.civil (JsDate.MakeDay 2026 (-1) 0) = (2025, 10, 30)%Z.
Proof. repeat split; reflexivity. Qed.

(** From 1 January 1900 on, for two centuries, [civil] inverts [MakeDay]
    and yields a month from 0 to 11 and a day from 1 to 31. *)
Example civil_inverts_MakeDay :
  civilAgrees (-25567) (Z.to_nat 73050) = true.
Proof. vm_compute. reflexivity. Qed.

Example known_timestamp :
  JsDate.setHours2 (JsDate.ofYMD (Some 2026) (Some 10) (Some 2)) (Some 15) (Some 4)
  = Some 1793631840000%Z.
Proof. reflexivity. Qed.

(** ** Basic facts about the store primitives *)

Lemma alter_at {A} (f : A -> A) (l : list A) (i : nat) (x : A) :
  l !! i = Some x -> alter f i l = <[i := f x]> l.
Proof.
  revert i. induction l as [|y l IH]; intros [|i] H; simpl in *; try discriminate.
  - injection H as ->. reflexivity.
  - f_equal. apply IH, H.
Qed.

Lemma alter_twice_at {A} (f g : A -> A) (l : list A) (i : nat) (x : A) :
  l !! i = Some x -> alter g i (alter f i l) = <[i := g (f x)]> l.
Proof.
  intros H. rewrite (alter_at f l i x H).
  rewrite (alter_at g _ i (f x)).
  - apply list_insert_insert_eq.
  - apply list_lookup_insert_eq. eapply lookup_lt_Some, H.
Qed.

Lemma taskGet_found (id : string) (w : World) (t : TaskEntity.t) :
  (taskGet id w).1 = Returned (Some t) <->
  exists i, list_find (fun x => TaskEntity.id x = id) (tasks w) = Some (i, t).
Proof.
  unfold taskGet, bind, getTasks, ret; simpl. split.
  - intros H. injection H as H.
    destruct (list_find _ (tasks w)) as [[i x]|]; simpl in H; [|discriminate].
    injection H as ->. eauto.
  - intros [i ->]. reflexivity.
Qed.

Lemma taskGet_world (id : string) (w : World) : (taskGet id w).2 = w.
Proof. reflexivity. Qed.

(** ** Unknown identifiers *)

(** C9. When no stored task has the identifier, [taskUpdate] returns the
    absent result for every payload, valid or not, and leaves the world
    (store, history, and the oracles' read counts) as it was. *)
Theorem taskUpdate_unknown_id_is_absent
    (clock : nat -> Z) (uuid : nat -> string)
    (id : string) (data : TaskUpdateRequest.t) (w : World) :
  (forall t, t ∈ tasks w -> TaskEntity.id t <> id) ->
  taskUpdate clock uuid id data w = (Returned None, w).
Proof.
  intros Hnew. unfold taskUpdate, bind, getTasks; simpl.
  assert (Hnone : list_find (fun x => TaskEntity.id x = id) (tasks w) = None).
  { apply list_find_None, Forall_forall. exact Hnew. }
  rewrite Hnone. reflexivity.
Qed.

(** An unknown identifier with an empty title, a title of 101 characters
    and a description of 501 characters. *)
Lemma taskUpdate_unknown_id_is_absent_witness :
  let w := storeOf [sampleTask "A" None None Pendente] in
  taskUpdate sampleClock sampleUuid "Z"
    (TaskUpdateRequest.mk "" None None None Alta) w = (Returned None, w)
  /\ taskUpdate sampleClock sampleUuid "Z"
       (TaskUpdateRequest.mk (String.concat "" (replicate 101 "a"))
          (Some (String.concat "" (replicate 501 "b"))) None None Alta) w
     = (Returned None, w).
Proof.
  split; apply taskUpdate_unknown_id_is_absent;
    intros t Ht; apply list_elem_of_singleton in Ht; subst t; discriminate.
Defined.

(** ** The explicit status change *)

(** C3. For the task that the identifier designates: when it is Vencida,
    asking for Pendente throws 'alteracaoNaoPermitida' and the world is
    untouched; when it is Pendente and Concluída is asked, or Concluída
    and Pendente is asked, the call returns the task with the new status
    and a fresh last-update time, stores it in place, and appends exactly
    one 'Alteração de Status' entry of origin 'Manual' with the old and
    the new status. *)
Theorem taskUpdateStatus_transitions
    (clock : nat -> Z) (uuid : nat -> string)
    (id : string) (w : World) (t : TaskEntity.t) :
  (taskGet id w).1 = Returned (Some t) ->
  (TaskEntity.status t = Vencida ->
     taskUpdateStatus clock uuid id Pendente w
     = (Thrown "alteracaoNaoPermitida", w))
  /\ (forall new : TaskStatus,
        (TaskEntity.status t = Pendente /\ new = Concluída)
        \/ (TaskEntity.status t = Concluída /\ new = Pendente) ->
        exists i : nat,
          tasks w !! i = Some t
          /\ let t' := TaskEntity.withDataAtualizacao (clock (dateReads w))
                         (TaskEntity.withStatus new t) in
             let entry :=
               HistoryEntry.mk (uuid (uuidReads w)) id (clock (S (dateReads w)))
                 "Alteração de Status" (Some "status")
                 (Some (statusText (TaskEntity.status t)))
                 (Some (statusText new)) "Manual" in
             taskUpdateStatus clock uuid id new w
             = (Returned (Some t'),
                mkWorld (<[i := t']> (tasks w)) (history w ++ [entry])
                  (S (S (dateReads w))) (S (uuidReads w)))).
Proof.
  intros Hget. apply taskGet_found in Hget as [i Hfind].
  pose proof Hfind as Hi. apply list_find_Some in Hi as (Hi & _ & _).
  split.
  - intros Hst. unfold taskUpdateStatus, bind, getTasks; simpl.
    rewrite Hfind, Hst. reflexivity.
  - intros new Hcase. exists i. split; [exact Hi|].
    unfold taskUpdateStatus, bind, getTasks; simpl. rewrite Hfind.
    assert (Hguard : bool_decide (TaskEntity.status t = Vencida)
                     && bool_decide (new = Pendente) = false).
    { destruct Hcase as [[-> ->]|[-> ->]]; reflexivity. }
    rewrite Hguard.
    unfold alterTask, taskAt, recordHistory, bind, getTasks, setTasks,
      newDate, uuidv4, pushHistory, ret; simpl.
    rewrite (alter_twice_at _ _ _ _ _ Hi).
    rewrite list_lookup_insert_eq by (eapply lookup_lt_Some, Hi).
    reflexivity.
Qed.

Lemma taskUpdateStatus_transitions_witness :
  let w := storeOf [sampleTask "A" None None Vencida] in
  taskUpdateStatus sampleClock sampleUuid "A" Pendente w
  = (Thrown "alteracaoNaoPermitida", w).
Proof.
  intros w.
  apply (taskUpdateStatus_transitions sampleClock sampleUuid "A" w
           (sampleTask "A" None None Vencida)); reflexivity.
Defined.

(** What [taskUpdateStatus] does to the store: nothing, or one slot
    rewritten with the requested status. *)
Lemma taskUpdateStatus_store
    (clock : nat -> Z) (uuid : nat -> string)
    (id : string) (status : TaskStatus) (w : World) :
  tasks (taskUpdateStatus clock uuid id status w).2 = tasks w
  \/ exists i found d,
       tasks w !! i = Some found
       /\ tasks (taskUpdateStatus clock uuid id status w).2
          = <[i := TaskEntity.withDataAtualizacao d
                     (TaskEntity.withStatus status found)]> (tasks w).
Proof.
  unfold taskUpdateStatus, bind, getTasks; simpl.
  destruct (list_find _ (tasks w)) as [[i found]|] eqn:Hfind; [|left; reflexivity].
  apply list_find_Some in Hfind as (Hi & _ & _).
  destruct (bool_decide (TaskEntity.status found = Vencida)
            && bool_decide (status = Pendente)); [left; reflexivity|].
  right. exists i, found, (clock (dateReads w)). split; [exact Hi|].
  unfold alterTask, taskAt, recordHistory, bind, getTasks, setTasks,
    newDate, uuidv4, pushHistory, ret; simpl.
  apply alter_twice_at, Hi.
Qed.

Lemma parseStatusBody_range (body : option string) (status : TaskStatus) :
  parseStatusBody body = Some status -> status = Pendente \/ status = Concluída.
Proof.
  unfold parseStatusBody. destruct body as [s|]; [|discriminate].
  destruct (String.eqb s "Pendente"); [intros [= <-]; auto|].
  destruct (String.eqb s "Concluída"); [intros [= <-]; auto|discriminate].
Qed.

(** C8, as stated, fails on the service function: [taskUpdateStatus]
    accepts 'Vencida' as the new status and applies it to a Pendente
    task. *)
Lemma taskUpdateStatus_sets_Vencida_on_Pendente :
  let w := storeOf [sampleTask "A" None None Pendente] in
  let r := taskUpdateStatus sampleClock sampleUuid "A" Vencida w in
  (taskGet "A" w).1 = Returned (Some (sampleTask "A" None None Pendente))
  /\ TaskEntity.status (sampleTask "A" None None Pendente) = Pendente
  /\ exists t', r.1 = Returned (Some t')
       /\ (taskGet "A" r.2).1 = Returned (Some t')
       /\ TaskEntity.status t' = Vencida.
Proof.
  simpl. repeat split. eexists. repeat split.
Qed.

(** C8, amended. A request that goes through [updateStatusHandler] never
    turns a Pendente task into a Vencida one: the body schema admits only
    'Pendente' and 'Concluída', so whatever the path parameter and the
    body are, every task that was Pendente is still in its slot, with the
    same identifier and a status other than Vencida. *)
Theorem updateStatusHandler_never_sets_Vencida
    (clock : nat -> Z) (uuid : nat -> string) (isUuid : string -> bool)
    (paramId : string) (bodyStatus : option string)
    (w : World) (j : nat) (t : TaskEntity.t) :
  tasks w !! j = Some t ->
  TaskEntity.status t = Pendente ->
  exists t',
    tasks (updateStatusHandler clock uuid isUuid paramId bodyStatus w).2 !! j
    = Some t'
    /\ TaskEntity.id t' = TaskEntity.id t
    /\ TaskEntity.status t' <> Vencida.
Proof.
  intros Hj Hst.
  assert (Hsame : exists t', tasks w !! j = Some t'
                    /\ TaskEntity.id t' = TaskEntity.id t
                    /\ TaskEntity.status t' <> Vencida).
  { exists t. rewrite Hst. repeat split; [exact Hj|discriminate]. }
  unfold updateStatusHandler.
  destruct (negb (isUuid paramId)); [exact Hsame|].
  destruct (parseStatusBody bodyStatus) as [status|] eqn:Hbody; [|exact Hsame].
  apply parseStatusBody_range in Hbody.
  pose proof (taskUpdateStatus_store clock uuid paramId status w) as Hstore.
  destruct (taskUpdateStatus clock uuid paramId status w) as [[[task|]|e] w'];
    simpl in *.
  all: destruct Hstore as [-> | (i & found & d & Hi & ->)]; [exact Hsame|].
  all: destruct (decide (i = j)) as [->|Hne];
    [ rewrite list_lookup_insert_eq by (eapply lookup_lt_Some, Hj);
      rewrite Hj in Hi; injection Hi as <-;
      eexists; split; [reflexivity|]; split; [reflexivity|];
      destruct Hbody as [-> | ->]; discriminate
    | rewrite list_lookup_insert_ne by exact Hne; exact Hsame ].
Qed.

Lemma updateStatusHandler_never_sets_Vencida_witness :
  exists t',
    tasks (updateStatusHandler sampleClock sampleUuid (fun _ => true)
             "A" (Some "Vencida")
             (storeOf [sampleTask "A" None None Pendente])).2 !! 0%nat
    = Some t'
    /\ TaskEntity.id t' = "A"
    /\ TaskEntity.status t' <> Vencida.
Proof.
  apply (updateStatusHandler_never_sets_Vencida sampleClock sampleUuid
           (fun _ => true) "A" (Some "Vencida")
           (storeOf [sampleTask "A" None None Pendente]) 0
           (sampleTask "A" None None Pendente)); reflexivity.
Defined.

(** ** Updates *)

Lemma present_Some (v : option string) (s : string) :
  present v = Some s <-> v = Some s /\ s <> EmptyString.
Proof.
  unfold present. destruct v as [[|c r]|]; simpl; split.
  all: try (intros H; discriminate H).
  all: try (intros [H1 H2]; first [discriminate H1 | injection H1 as <-; congruence]).
  intros [= <-]. split; [reflexivity|discriminate].
Qed.

Lemma recordHistory_runs (clock : nat -> Z) (uuid : nat -> string)
    (idTarefa tipo : string) (campo anterior novo : option string)
    (origem : string) (w : World) :
  recordHistory clock uuid idTarefa tipo campo anterior novo origem w
  = (Returned tt,
     mkWorld (tasks w)
       (history w ++ [HistoryEntry.mk (uuid (uuidReads w)) idTarefa
                        (clock (dateReads w)) tipo campo anterior novo origem])
       (S (dateReads w)) (S (uuidReads w))).
Proof. reflexivity. Qed.

Lemma forEach_edits (clock : nat -> Z) (uuid : nat -> string) (id : string)
    (cs : list (string * option string * option string)) (w : World) :
  forEach (fun change : string * option string * option string =>
             let '(field, oldValue, newValue) := change in
             recordHistory clock uuid id "Edição" (Some field)
               (Some (Js.String_ oldValue)) (Some (Js.String_ newValue))
               "Manual") cs w
  = (Returned tt,
     mkWorld (tasks w)
       (history w ++ editEntries clock uuid id (dateReads w) (uuidReads w) cs)
       (dateReads w + length cs) (uuidReads w + length cs)).
Proof.
  revert w. induction cs as [|[[f o] n] cs IH]; intros w; simpl.
  - unfold ret. destruct w; simpl. rewrite app_nil_r, !Nat.add_0_r. reflexivity.
  - unfold bind. rewrite recordHistory_runs, IH; simpl.
    rewrite <- app_assoc, !Nat.add_succ_r. reflexivity.
Qed.

(** A successful update, step by step: the slot is overwritten, the
    status is reset when the task was overdue and the payload's due-date
    is today or later, and the history grows by the reset entry, if any,
    followed by the edit entries. *)
Lemma taskUpdate_runs (clock : nat -> Z) (uuid : nat -> string)
    (id : string) (data : TaskUpdateRequest.t) (w : World)
    (i : nat) (t : TaskEntity.t) :
  list_find (fun x => TaskEntity.id x = id) (tasks w) = Some (i, t) ->
  validationError (TaskUpdateRequest.titulo data)
                  (TaskUpdateRequest.descricao data) = None ->
  exists (fires : bool) (d u d' u' : nat),
    (fires = true <->
       TaskEntity.status t = Vencida
       /\ dueTodayOrLater data (clock (S (dateReads w))))
    /\ let final :=
         (if fires then TaskEntity.withStatus Pendente else fun x => x)
           (overwritten t data (clock (dateReads w))) in
       taskUpdate clock uuid id data w
       = (Returned (Some final),
          mkWorld (<[i := final]> (tasks w))
            (history w
             ++ (if fires
                 then [resetEntry (uuid (uuidReads w)) id
                         (clock (S (S (dateReads w))))]
                 else [])
             ++ editEntries clock uuid id d u (changedFields t data))
            d' u').
Proof.
  intros Hfind Hvalid.
  pose proof Hfind as Hi. apply list_find_Some in Hi as (Hi & _ & _).
  assert (Hlt : (i < length (tasks w))%nat) by (eapply lookup_lt_Some, Hi).
  unfold taskUpdate, bind at 1, getTasks; simpl. rewrite Hfind, Hvalid.
  remember (changedFields t data) as cs eqn:Hcs.
  unfold bind at 1, newDate; simpl.
  unfold bind at 1, assignTask, bind at 1, getTasks, setTasks; simpl.
  fold (overwritten t data (clock (dateReads w))).
  remember (overwritten t data (clock (dateReads w))) as upd eqn:Hupd.
  assert (Hplain :
    forall d0 u0 : nat,
      (let! _ := forEach (fun change : string * option string * option string =>
                   let '(field, oldValue, newValue) := change in
                   recordHistory clock uuid id "Edição" (Some field)
                     (Some (Js.String_ oldValue)) (Some (Js.String_ newValue))
                     "Manual") cs in taskAt i)
        (mkWorld (<[i := upd]> (tasks w)) (history w) d0 u0)
      = (Returned (Some upd),
         mkWorld (<[i := upd]> (tasks w))
           (history w ++ [] ++ editEntries clock uuid id d0 u0 cs)
           (d0 + length cs) (u0 + length cs))).
  { intros d0 u0. unfold bind at 1. rewrite forEach_edits; simpl.
    unfold taskAt, bind, getTasks, ret; simpl.
    rewrite list_lookup_insert_eq by exact Hlt. reflexivity. }
  destruct (TaskEntity.status t) eqn:Hst.
  - exists false. do 4 eexists. split.
    + split; [discriminate|]. intros [Hv _]; discriminate Hv.
    + unfold bind at 1, ret at 1; simpl. apply Hplain.
  - exists false. do 4 eexists. split.
    + split; [discriminate|]. intros [Hv _]; discriminate Hv.
    + unfold bind at 1, ret at 1; simpl. apply Hplain.
  - destruct (present (TaskUpdateRequest.dataVencimento data)) as [s|] eqn:Hdv.
    + destruct (JsDate.ge (dueDateOf s)
                  (JsDate.startOfDay (clock (S (dateReads w))))) eqn:Hge.
      * (* the reset fires *)
        exists true. do 4 eexists. split.
        -- split; [intros _|reflexivity]. split; [reflexivity|].
           apply present_Some in Hdv as [Hdv Hne].
           unfold JsDate.ge, JsDate.le in Hge.
           destruct (JsDate.startOfDay _) as [today|] eqn:Htoday; [|discriminate].
           destruct (dueDateOf s) as [due|] eqn:Hdue; [|discriminate].
           exists s, due, today. repeat split; try assumption. lia.
        -- unfold bind at 1. unfold bind at 1, newDate; simpl. rewrite Hge.
           unfold bind at 1, alterTask, bind at 1, getTasks, setTasks; simpl.
           unfold bind at 1. rewrite forEach_edits; simpl.
           unfold taskAt, bind, getTasks, ret; simpl.
           rewrite (alter_at _ _ i upd) by (apply list_lookup_insert_eq, Hlt).
           rewrite list_insert_insert_eq.
           rewrite list_lookup_insert_eq by exact Hlt.
           rewrite <- app_assoc. reflexivity.
      * (* the due-date precedes today, or does not denote a day *)
        exists false. do 4 eexists. split.
        -- split; [discriminate|].
           intros [_ (s' & due & today & Hs & Hne & Hdue & Htoday & Hle)].
           apply present_Some in Hdv as [Hdv _].
           rewrite Hs in Hdv. injection Hdv as ->.
           unfold JsDate.ge, JsDate.le in Hge. rewrite Htoday, Hdue in Hge.
           apply Z.leb_gt in Hge. lia.
        -- unfold bind at 1. unfold bind at 1, newDate; simpl. rewrite Hge.
           unfold ret at 1; simpl. apply Hplain.
    + (* the payload carries no due-date *)
      exists false. do 4 eexists. split.
      * split; [discriminate|].
        intros [_ (s' & due & today & Hs & Hne & _)].
        assert (present (TaskUpdateRequest.dataVencimento data) = Some s')
          by (apply present_Some; auto).
        congruence.
      * unfold bind at 1, ret at 1; simpl. apply Hplain.
Qed.

Lemma strictNe_true (a b : option string) : Js.strictNe a b = true <-> a <> b.
Proof.
  unfold Js.strictNe. rewrite negb_true_iff, bool_decide_eq_false. reflexivity.
Qed.


(** Every element of [changedFields] is a tracked field whose stored and
    submitted values differ, with these two values. *)
Lemma changedFields_elem (t : TaskEntity.t) (data : TaskUpdateRequest.t)
    (c : string * option string * option string) :
  c ∈ changedFields t data ->
  exists f : TrackedField,
    c = (fieldName f, storedValue f t, submittedValue f data)
    /\ storedValue f t <> submittedValue f data.
Proof.
  unfold changedFields; simpl. rewrite !elem_of_app. intros H.
  destruct H as [H|[H|[H|[H|H]]]].
  - destruct (Js.strictNe (Some (TaskEntity.titulo t)) _) eqn:E;
      [|apply elem_of_nil in H; contradiction].
    apply list_elem_of_singleton in H. exists FieldTitulo.
    split; [exact H|]. apply strictNe_true, E.
  - destruct (Js.strictNe (TaskEntity.descricao t) _) eqn:E;
      [|apply elem_of_nil in H; contradiction].
    apply list_elem_of_singleton in H. exists FieldDescricao.
    split; [exact H|]. apply strictNe_true, E.
  - destruct (Js.strictNe (TaskEntity.dataVencimento t) _) eqn:E;
      [|apply elem_of_nil in H; contradiction].
    apply list_elem_of_singleton in H. exists FieldDataVencimento.
    split; [exact H|]. apply strictNe_true, E.
  - destruct (Js.strictNe (TaskEntity.horaVencimento t) _) eqn:E;
      [|apply elem_of_nil in H; contradiction].
    apply list_elem_of_singleton in H. exists FieldHoraVencimento.
    split; [exact H|]. apply strictNe_true, E.
  - destruct (Js.strictNe (Some (importanceText _)) _) eqn:E;
      [|apply elem_of_nil in H; contradiction].
    apply list_elem_of_singleton in H. exists FieldImportancia.
    split; [exact H|]. apply strictNe_true, E.
Qed.

(** Each tracked field occurs once in [changedFields] when its value
    differs and not at all otherwise. *)
Lemma changedFields_count (t : TaskEntity.t) (data : TaskUpdateRequest.t)
    (f : TrackedField) :
  length (List.filter
            (fun c : string * option string * option string =>
               bool_decide (c.1.1 = fieldName f))
            (changedFields t data))
  = if Js.strictNe (storedValue f t) (submittedValue f data) then 1%nat else 0%nat.
Proof.
  unfold changedFields; destruct f; simpl;
    destruct (Js.strictNe (Some (TaskEntity.titulo t)) _);
    destruct (Js.strictNe (TaskEntity.descricao t) _);
    destruct (Js.strictNe (TaskEntity.dataVencimento t) _);
    destruct (Js.strictNe (TaskEntity.horaVencimento t) _);
    destruct (Js.strictNe (Some (importanceText _)) _);
    reflexivity.
Qed.


Lemma editEntries_elem (clock : nat -> Z) (uuid : nat -> string) (id : string)
    (cs : list (string * option string * option string)) (d u : nat)
    (e : HistoryEntry.t) :
  e ∈ editEntries clock uuid id d u cs ->
  isEdit e = true
  /\ HistoryEntry.idTarefa e = id
  /\ HistoryEntry.origemAlteracao e = "Manual"
  /\ exists c, c ∈ cs
       /\ HistoryEntry.campoAlterado e = Some c.1.1
       /\ HistoryEntry.valorAnterior e = Some (Js.String_ c.1.2)
       /\ HistoryEntry.valorNovo e = Some (Js.String_ c.2).
Proof.
  revert d u. induction cs as [|[[f o] n] cs IH]; intros d u H; simpl in H.
  - apply elem_of_nil in H. contradiction.
  - apply elem_of_cons in H as [-> | H].
    + repeat split. exists (f, o, n). repeat split. apply elem_of_cons; auto.
    + destruct (IH _ _ H) as (H1 & H2 & H3 & c & Hc & H4).
      repeat split; try assumption. exists c. split; [|exact H4].
      apply elem_of_cons; auto.
Qed.

Lemma editEntries_count (clock : nat -> Z) (uuid : nat -> string) (id : string)
    (cs : list (string * option string * option string)) (d u : nat)
    (f : TrackedField) :
  length (List.filter (isEditOf f) (editEntries clock uuid id d u cs))
  = length (List.filter
              (fun c : string * option string * option string =>
                 bool_decide (c.1.1 = fieldName f)) cs).
Proof.
  revert d u. induction cs as [|[[g o] n] cs IH]; intros d u; simpl; [reflexivity|].
  unfold isEditOf at 1, isEdit; simpl.
  rewrite (bool_decide_ext (Some g = Some (fieldName f)) (g = fieldName f))
    by (split; [intros [= ->]; reflexivity | intros ->; reflexivity]).
  destruct (bool_decide (g = fieldName f)); simpl; rewrite IH; reflexivity.
Qed.



(** ** The reset of an overdue task by an update *)

Lemma list_find_overwrite {A} (P : A -> Prop) `{forall x, Decision (P x)}
    (l : list A) (i : nat) (x y : A) :
  list_find P l = Some (i, x) -> P y -> list_find P (<[i := y]> l) = Some (i, y).
Proof.
  intros Hfind Hy. apply list_find_Some in Hfind as (Hi & _ & Hbefore).
  apply list_find_Some. split; [|split].
  - apply list_lookup_insert_eq. eapply lookup_lt_Some, Hi.
  - exact Hy.
  - intros j z Hj Hlt. rewrite list_lookup_insert_ne in Hj by lia.
    eapply Hbefore; eauto.
Qed.

Lemma editEntries_all_edits (clock : nat -> Z) (uuid : nat -> string)
    (id : string) (cs : list (string * option string * option string))
    (d u : nat) :
  Forall (fun e => isEdit e = true) (editEntries clock uuid id d u cs).
Proof.
  revert d u. induction cs as [|[[f o] n] cs IH]; intros d u; simpl;
    constructor; [reflexivity | apply IH].
Qed.


(** C4. When the identifier designates a task that is Vencida and the
    payload, which passes validation, carries a due-date that is today or
    later (tomorrow, for one), the update returns the task with status
    Pendente, leaves it so in the store, and appends to the history first
    one 'Alteração de Status' entry of origin 'Automática' from 'Vencida'
    to 'Pendente', and then the 'Edição' entries, one per changed field
    and nothing else. *)
Theorem taskUpdate_resets_overdue_task
    (clock : nat -> Z) (uuid : nat -> string)
    (id : string) (data : TaskUpdateRequest.t) (w : World) (t : TaskEntity.t) :
  (taskGet id w).1 = Returned (Some t) ->
  validationError (TaskUpdateRequest.titulo data)
                  (TaskUpdateRequest.descricao data) = None ->
  TaskEntity.status t = Vencida ->
  dueTodayOrLater data (clock (S (dateReads w))) ->
  exists (t' : TaskEntity.t) (w' : World) (edits : list HistoryEntry.t),
    taskUpdate clock uuid id data w = (Returned (Some t'), w')
    /\ TaskEntity.status t' = Pendente
    /\ (taskGet id w').1 = Returned (Some t')
    /\ history w'
       = history w
         ++ [HistoryEntry.mk (uuid (uuidReads w)) id
               (clock (S (S (dateReads w)))) "Alteração de Status"
               (Some "status") (Some "Vencida") (Some "Pendente") "Automática"]
         ++ edits
    /\ Forall (fun e => isEdit e = true /\ isStatusChange e = false) edits
    /\ (forall f : TrackedField,
          length (List.filter (isEditOf f) edits)
          = if Js.strictNe (storedValue f t) (submittedValue f data)
            then 1%nat else 0%nat).
Proof.
  intros Hget Hvalid Hst Hdue. apply taskGet_found in Hget as [i Hfind].
  destruct (taskUpdate_runs clock uuid id data w i t Hfind Hvalid)
    as (fires & d & u & d' & u' & Hfires & Hrun).
  assert (fires = true) as -> by (apply Hfires; auto).
  simpl in Hrun. do 3 eexists. split; [exact Hrun|].
  split; [reflexivity|]. split; [|split; [reflexivity|split]].
  - apply taskGet_found. exists i. simpl.
    eapply list_find_overwrite; [exact Hfind|]. simpl.
    apply list_find_Some in Hfind as (_ & Hid & _). exact Hid.
  - eapply Forall_impl; [apply editEntries_all_edits|].
    intros e He. split; [exact He|].
    unfold isEdit in He. unfold isStatusChange.
    apply String.eqb_eq in He. rewrite He. reflexivity.
  - intros f. rewrite editEntries_count. apply changedFields_count.
Qed.

(** An overdue task, due on 1 November, is given 3 November as its
    due-date on 2 November. *)
Lemma taskUpdate_resets_overdue_task_witness :
  exists (t' : TaskEntity.t) (w' : World) (edits : list HistoryEntry.t),
    taskUpdate sampleClock sampleUuid "A"
      (sampleRequest "Pagar contas" (Some "03/11/2026") None)
      (storeOf [sampleTask "A" (Some "01/11/2026") None Vencida])
    = (Returned (Some t'), w')
    /\ TaskEntity.status t' = Pendente
    /\ history w'
       = [HistoryEntry.mk "A" "A" 1793631840002 "Alteração de Status"
            (Some "status") (Some "Vencida") (Some "Pendente") "Automática"]
         ++ edits
    /\ length (List.filter (isEditOf FieldDataVencimento) edits) = 1%nat.
Proof.
  destruct (taskUpdate_resets_overdue_task sampleClock sampleUuid "A"
              (sampleRequest "Pagar contas" (Some "03/11/2026") None)
              (storeOf [sampleTask "A" (Some "01/11/2026") None Vencida])
              (sampleTask "A" (Some "01/11/2026") None Vencida)
              eq_refl eq_refl eq_refl)
    as (t' & w' & edits & Hrun & Hst & _ & Hhist & _ & Hcount).
  - exists "03/11/2026", 1793664000000, 1793577600000.
    repeat split; [discriminate | discriminate].
  - exists t', w', edits. repeat split; try assumption.
    apply (Hcount FieldDataVencimento).
Defined.



(** ** The overdue sweep *)

Lemma overdueAtb_spec (now : Z) (t : TaskEntity.t) :
  overdueAtb now t = true <-> overdueAt now t.
Proof.
  unfold overdueAtb, overdueAt. split.
  - destruct (TaskEntity.status t); try discriminate.
    destruct (present (TaskEntity.dataVencimento t)) as [s|] eqn:Hdv;
      [|discriminate].
    apply present_Some in Hdv as [Hdv Hne]. unfold JsDate.lt.
    destruct (sweepDueDate t s) as [due|] eqn:Hdue; [|discriminate].
    intros Hlt. apply Z.ltb_lt in Hlt. split; [reflexivity|].
    exists s, due. auto.
  - intros [-> (s & due & Hs & Hne & Hdue & Hlt)].
    assert (Hp : present (TaskEntity.dataVencimento t) = Some s)
      by (apply present_Some; auto).
    rewrite Hp, Hdue. apply Z.ltb_lt, Hlt.
Qed.

(** A due-date that denotes a day denotes its midnight. *)
Lemma dueDateOf_midnight (s : string) (d : Z) :
  dueDateOf s = Some d ->
  JsDate.Day d * JsDate.msPerDay = d
  /\ JsDate.SecFromTime d = 0 /\ JsDate.msFromTime d = 0.
Proof.
  unfold dueDateOf. destruct (dayMonthYear s) as [[day month] year].
  unfold JsDate.ofYMD.
  destruct year as [y|]; [|discriminate].
  destruct (JsDate.minus month (Some 1)) as [m|]; [|discriminate].
  destruct day as [dd|]; [|discriminate].
  unfold JsDate.TimeClip, JsDate.MakeDate, JsDate.MakeTime.
  match goal with |- context [JsDate.MakeDay ?a ?b ?c] =>
    generalize (JsDate.MakeDay a b c) end.
  intros n. destruct (_ <=? _); [|discriminate]. intros [= <-].
  unfold JsDate.Day, JsDate.SecFromTime, JsDate.msFromTime,
    JsDate.msPerDay, JsDate.msPerHour, JsDate.msPerMinute, JsDate.msPerSecond.
  replace (n * 86400000 + (0 * 3600000 + 0 * 60000 + 0 * 1000 + 0))
    with (n * 86400000) by lia.
  rewrite Z.div_mul by lia. split; [reflexivity|]. split.
  - replace (n * 86400000) with (n * 86400 * 1000) by lia.
    rewrite Z.div_mul by lia.
    replace (n * 86400) with (n * 1440 * 60) by lia. apply Z.mod_mul. lia.
  - replace (n * 86400000) with (n * 86400 * 1000) by lia. apply Z.mod_mul. lia.
Qed.

(** The moment the sweep computes: the day's midnight plus the due-time,
    or plus 23:59:59 when there is no due-time. *)
Lemma sweepDueDate_moment (t : TaskEntity.t) (s : string) (d : Z) :
  dueDateOf s = Some d ->
  match present (TaskEntity.horaVencimento t) with
  | None => sweepDueDate t s = JsDate.TimeClip (d + 86399000)
  | Some h =>
      forall hours minutes : Z,
        hoursMinutes h = (Some hours, Some minutes) ->
        sweepDueDate t s
        = JsDate.TimeClip (d + hours * 3600000 + minutes * 60000)
  end.
Proof.
  intros Hd. destruct (dueDateOf_midnight s d Hd) as (Hday & Hsec & Hms).
  unfold sweepDueDate. rewrite Hd.
  destruct (present (TaskEntity.horaVencimento t)) as [h|].
  - intros hours minutes ->.
    unfold JsDate.setHours2, JsDate.setHours4; simpl.
    rewrite Hsec, Hms. unfold JsDate.MakeDate, JsDate.MakeTime.
    rewrite Hday. f_equal.
    unfold JsDate.msPerHour, JsDate.msPerMinute, JsDate.msPerSecond. lia.
  - unfold JsDate.setHours3, JsDate.setHours4; simpl.
    rewrite Hms. unfold JsDate.MakeDate, JsDate.MakeTime.
    rewrite Hday. f_equal.
Qed.

Lemma checkOne_runs (clock : nat -> Z) (uuid : nat -> string)
    (now : Z) (t : TaskEntity.t) (w : World) :
  checkOne clock uuid now t w
  = if overdueAtb now t
    then (Returned (TaskEntity.withDataAtualizacao (clock (dateReads w))
                      (TaskEntity.withStatus Vencida t)),
          mkWorld (tasks w)
            (history w
             ++ [HistoryEntry.mk (uuid (uuidReads w)) (TaskEntity.id t)
                   (clock (S (dateReads w))) "Alteração de Status"
                   (Some "status") (Some "Pendente") (Some "Vencida")
                   "Automática"])
            (S (S (dateReads w))) (S (uuidReads w)))
    else (Returned t, w).
Proof.
  unfold checkOne, overdueAtb.
  destruct (TaskEntity.status t); try reflexivity.
  destruct (present (TaskEntity.dataVencimento t)) as [s|]; [|reflexivity].
  destruct (JsDate.lt _ _); reflexivity.
Qed.

Lemma sweptTo_earlier (clock : nat -> Z) (now : Z) (d0 d1 : nat)
    (t t' : TaskEntity.t) :
  (d0 <= d1)%nat -> sweptTo clock now d1 t t' -> sweptTo clock now d0 t t'.
Proof.
  unfold sweptTo. destruct (overdueAtb now t); [|auto].
  intros Hle (k & Hk & ->). exists k. split; [lia|reflexivity].
Qed.

(** The loop of the sweep: the store is not touched while it runs, each
    task is flipped or kept, and the history grows by one entry per
    flipped task, in the order of the tasks. *)
Lemma checkEach_runs (clock : nat -> Z) (uuid : nat -> string)
    (now : Z) (ts : list TaskEntity.t) (w : World) :
  exists (ts' : list TaskEntity.t) (added : list HistoryEntry.t) (d' u' : nat),
    checkEach clock uuid now ts w
    = (Returned ts', mkWorld (tasks w) (history w ++ added) d' u')
    /\ (dateReads w <= d')%nat
    /\ Forall2 (sweptTo clock now (dateReads w)) ts ts'
    /\ HistoryEntry.idTarefa <$> added
       = TaskEntity.id <$> List.filter (overdueAtb now) ts
    /\ Forall isSweepEntry added.
Proof.
  revert w. induction ts as [|t ts IH]; intros w; simpl.
  - exists [], [], (dateReads w), (uuidReads w). unfold ret.
    rewrite app_nil_r. destruct w; simpl. repeat split; constructor.
  - unfold bind at 1. rewrite checkOne_runs.
    destruct (overdueAtb now t) eqn:Hov.
    + match goal with |- context [bind _ _ ?w1] =>
        destruct (IH w1) as (ts' & added & d' & u' & Hrun & Hle & Hrel & Hids & Hall)
      end.
      simpl in *. unfold bind at 1. rewrite Hrun. unfold ret.
      eexists _, (_ :: added), d', u'. split; [|split; [|split; [|split]]].
      * rewrite <- app_assoc. reflexivity.
      * lia.
      * constructor.
        -- unfold sweptTo. rewrite Hov. exists (dateReads w). split; [lia|reflexivity].
        -- eapply Forall2_impl; [exact Hrel|].
           intros x y. apply sweptTo_earlier. lia.
      * simpl. f_equal. exact Hids.
      * constructor; [|exact Hall]. repeat split.
    + destruct (IH w) as (ts' & added & d' & u' & Hrun & Hle & Hrel & Hids & Hall).
      unfold bind at 1. rewrite Hrun. unfold ret.
      exists (t :: ts'), added, d', u'. split; [reflexivity|].
      split; [exact Hle|]. split; [|split; [exact Hids|exact Hall]].
      constructor; [|exact Hrel]. unfold sweptTo. rewrite Hov. reflexivity.
Qed.



(** ** Sorting *)

Section SortFacts.
Context {A : Type} (comparefn : A -> A -> option Z).

Lemma insertSorted_Permutation (x : A) (l : list A) :
  Permutation (insertSorted comparefn x l) (x :: l).
Proof.
  induction l as [|y l IH]; simpl; [reflexivity|].
  destruct (comesAfter comparefn x y); [|reflexivity].
  rewrite IH. apply perm_swap.
Qed.

Lemma sort_Permutation (l : list A) : Permutation (sort comparefn l) l.
Proof.
  induction l as [|x l IH]; simpl; [reflexivity|].
  rewrite insertSorted_Permutation, IH. reflexivity.
Qed.

(** Two classes of elements, every element of the upper class coming
    after every element of the lower one under the comparator. *)
Variable upper : A -> bool.
Hypothesis upper_after_lower :
  forall x y, upper x = true -> upper y = false -> comesAfter comparefn x y = true.
Hypothesis lower_not_after_upper :
  forall x y, upper x = false -> upper y = true -> comesAfter comparefn x y = false.

Lemma insertSorted_upper (x : A) (lo hi : list A) :
  upper x = true ->
  Forall (fun y => upper y = false) lo ->
  insertSorted comparefn x (lo ++ hi) = lo ++ insertSorted comparefn x hi.
Proof.
  intros Hx Hlo. induction Hlo as [|y lo Hy Hlo IH]; simpl; [reflexivity|].
  rewrite (upper_after_lower x y Hx Hy), IH. reflexivity.
Qed.

Lemma insertSorted_lower (x : A) (lo hi : list A) :
  upper x = false ->
  Forall (fun y => upper y = true) hi ->
  insertSorted comparefn x (lo ++ hi) = insertSorted comparefn x lo ++ hi.
Proof.
  intros Hx Hhi. induction lo as [|y lo IH]; simpl.
  - destruct Hhi as [|z hi Hz Hhi]; simpl; [reflexivity|].
    rewrite (lower_not_after_upper x z Hx Hz). reflexivity.
  - destruct (comesAfter comparefn x y); [|reflexivity].
    rewrite IH. reflexivity.
Qed.

(** The sorted array is the lower class followed by the upper class. *)
Lemma sort_splits (l : list A) :
  exists lo hi : list A,
    sort comparefn l = lo ++ hi
    /\ Forall (fun y => upper y = false) lo
    /\ Forall (fun y => upper y = true) hi.
Proof.
  induction l as [|x l (lo & hi & Heq & Hlo & Hhi)]; simpl.
  - exists [], []. repeat split; constructor.
  - rewrite Heq. destruct (upper x) eqn:Hx.
    + exists lo, (insertSorted comparefn x hi).
      split; [apply insertSorted_upper; assumption|]. split; [exact Hlo|].
      eapply Permutation_Forall;
        [symmetry; apply insertSorted_Permutation|].
      constructor; assumption.
    + exists (insertSorted comparefn x lo), hi.
      split; [apply insertSorted_lower; assumption|]. split; [|exact Hhi].
      eapply Permutation_Forall;
        [symmetry; apply insertSorted_Permutation|].
      constructor; assumption.
Qed.

(** Hence every element of the upper class has a larger index than
    every element of the lower class. *)
Lemma sort_lower_before_upper (l : list A) (i j : nat) (a b : A) :
  sort comparefn l !! i = Some a -> upper a = true ->
  sort comparefn l !! j = Some b -> upper b = false ->
  (j < i)%nat.
Proof.
  destruct (sort_splits l) as (lo & hi & -> & Hlo & Hhi).
  intros Hi Ha Hj Hb.
  destruct (decide (i < length lo)%nat) as [Hlt|Hge].
  - rewrite lookup_app_l in Hi by exact Hlt.
    rewrite Forall_lookup in Hlo. specialize (Hlo _ _ Hi). congruence.
  - destruct (decide (j < length lo)%nat) as [Hlt|Hge']; [lia|].
    rewrite lookup_app_r in Hj by lia.
    rewrite Forall_lookup in Hhi. specialize (Hhi _ _ Hj). congruence.
Qed.
End SortFacts.

(** ** Listing *)

Lemma present_hasDueDate (t : TaskEntity.t) :
  if hasDueDate t
  then exists s, present (TaskEntity.dataVencimento t) = Some s
  else present (TaskEntity.dataVencimento t) = None.
Proof.
  unfold hasDueDate, present.
  destruct (Js.truthy (TaskEntity.dataVencimento t)) eqn:H; [|reflexivity].
  destruct (TaskEntity.dataVencimento t) as [s|]; [eauto|discriminate].
Qed.

Lemma periodFilter_subset (now : Z) (filterPeriod : string)
    (ts : list TaskEntity.t) (x : TaskEntity.t) :
  In x (periodFilter now filterPeriod ts) -> In x ts.
Proof.
  unfold periodFilter.
  repeat (destruct (String.eqb filterPeriod _);
          [intros H; apply List.filter_In in H; tauto|]).
  auto.
Qed.

(** [taskList] returns a sorted selection of the stored tasks and leaves
    both arrays alone. *)
Lemma taskList_runs (clock : nat -> Z) (toLowerCase : string -> string)
    (filters : TaskListFilters.t) (w : World) :
  exists (selected : list TaskEntity.t) (w' : World),
    taskList clock toLowerCase filters w
    = (Returned (sort (compareTasks filters) selected), w')
    /\ (forall x, In x selected -> In x (tasks w))
    /\ tasks w' = tasks w
    /\ history w' = history w.
Proof.
  unfold taskList, bind at 1, getTasks; simpl.
  set (byStatus := if negb (String.eqb (TaskListFilters.filterStatus filters) "Todas")
                   then _ else _).
  set (byImportance := if negb (String.eqb (TaskListFilters.filterImportance filters) "Todas")
                       then _ else _).
  assert (H1 : forall x, In x byStatus -> In x (tasks w)).
  { subst byStatus.
    destruct (String.eqb (TaskListFilters.filterStatus filters) "Todas");
      simpl; [auto|].
    intros x H; apply List.filter_In in H; tauto. }
  assert (H2 : forall x, In x byImportance -> In x (tasks w)).
  { subst byImportance.
    destruct (String.eqb (TaskListFilters.filterImportance filters) "Todas");
      simpl; [auto|].
    intros x H; apply List.filter_In in H; destruct H; auto. }
  clearbody byImportance. clear byStatus H1.
  unfold bind, ret, newDate.
  destruct (negb (String.eqb (TaskListFilters.filterPeriod filters) "Todas"));
    simpl; eexists _, _; (split; [reflexivity|]); simpl;
    (split; [|split; reflexivity]).
  - intros x Hx.
    destruct (present (TaskListFilters.searchTerm filters));
      [apply List.filter_In in Hx as [Hx _]|];
      apply periodFilter_subset in Hx; auto.
  - intros x Hx.
    destruct (present (TaskListFilters.searchTerm filters));
      [apply List.filter_In in Hx as [Hx _]|]; auto.
Qed.

Lemma compareTasks_by_due_date (filters : TaskListFilters.t)
    (a b : TaskEntity.t) :
  TaskListFilters.orderBy filters = "Data de vencimento" ->
  hasDueDate a = false -> hasDueDate b = true ->
  compareTasks filters a b
  = (if String.eqb (TaskListFilters.orderDirection filters) "Crescente"
     then Some 1 else Some (-1))
  /\ compareTasks filters b a
     = (if String.eqb (TaskListFilters.orderDirection filters) "Crescente"
        then Some (-1) else Some 1).
Proof.
  intros Hby Ha Hb. unfold compareTasks. rewrite Hby; simpl.
  pose proof (present_hasDueDate a) as Pa. rewrite Ha in Pa.
  pose proof (present_hasDueDate b) as Pb. rewrite Hb in Pb.
  destruct Pb as [s Pb]. rewrite Pa, Pb.
  destruct (String.eqb _ "Crescente"); split; reflexivity.
Qed.

(** C6, as stated, fails for 'Decrescente': the task without a due-date
    comes first. *)
Lemma taskList_descending_puts_undated_first :
  let dated := sampleTask "A" (Some "03/11/2026") None Pendente in
  let undated := sampleTask "B" None None Pendente in
  (taskList sampleClock (fun s => s) (byDueDate "Todas" "Decrescente")
     (storeOf [dated; undated])).1
  = Returned [undated; dated]
  /\ hasDueDate undated = false /\ hasDueDate dated = true.
Proof. repeat split. Qed.

(** C6, amended. When [taskList] sorts by due-date, the direction
    applies to the whole comparison: with 'Crescente' every task without
    a due-date comes after every task that has one, and with any other
    direction ('Decrescente') every task without a due-date comes before
    every task that has one. *)
Theorem taskList_due_date_order_follows_direction
    (clock : nat -> Z) (toLowerCase : string -> string)
    (filters : TaskListFilters.t) (w : World) (out : list TaskEntity.t)
    (i j : nat) (undated dated : TaskEntity.t) :
  TaskListFilters.orderBy filters = "Data de vencimento" ->
  (taskList clock toLowerCase filters w).1 = Returned out ->
  out !! i = Some undated -> hasDueDate undated = false ->
  out !! j = Some dated -> hasDueDate dated = true ->
  if String.eqb (TaskListFilters.orderDirection filters) "Crescente"
  then (j < i)%nat else (i < j)%nat.
Proof.
  intros Hby Hrun Hi Hu Hj Hd.
  destruct (taskList_runs clock toLowerCase filters w)
    as (selected & w' & Heq & _).
  rewrite Heq in Hrun. simpl in Hrun. injection Hrun as <-.
  destruct (String.eqb (TaskListFilters.orderDirection filters) "Crescente")
    eqn:Hdir.
  - apply (sort_lower_before_upper (compareTasks filters)
             (fun t => negb (hasDueDate t))) with (l := selected)
             (a := undated) (b := dated); try assumption.
    + intros x y Hx Hy. apply negb_true_iff in Hx. apply negb_false_iff in Hy.
      unfold comesAfter.
      destruct (compareTasks_by_due_date filters x y Hby Hx Hy) as [-> _].
      rewrite Hdir. reflexivity.
    + intros x y Hx Hy. apply negb_false_iff in Hx. apply negb_true_iff in Hy.
      unfold comesAfter.
      destruct (compareTasks_by_due_date filters y x Hby Hy Hx) as [_ ->].
      rewrite Hdir. reflexivity.
    + rewrite Hu. reflexivity.
    + rewrite Hd. reflexivity.
  - apply (sort_lower_before_upper (compareTasks filters) hasDueDate)
      with (l := selected) (a := dated) (b := undated); try assumption.
    + intros x y Hx Hy. unfold comesAfter.
      destruct (compareTasks_by_due_date filters y x Hby Hy Hx) as [_ ->].
      rewrite Hdir. reflexivity.
    + intros x y Hx Hy. unfold comesAfter.
      destruct (compareTasks_by_due_date filters x y Hby Hx Hy) as [-> _].
      rewrite Hdir. reflexivity.
Qed.

Lemma taskList_due_date_order_follows_direction_witness :
  if String.eqb (TaskListFilters.orderDirection (byDueDate "Todas" "Crescente"))
       "Crescente"
  then (0 < 1)%nat else (1 < 0)%nat.
Proof.
  apply (taskList_due_date_order_follows_direction sampleClock (fun s => s)
           (byDueDate "Todas" "Crescente")
           (storeOf [sampleTask "B" None None Pendente;
                     sampleTask "A" (Some "03/11/2026") None Pendente])
           [sampleTask "A" (Some "03/11/2026") None Pendente;
            sampleTask "B" None None Pendente]
           1 0
           (sampleTask "B" None None Pendente)
           (sampleTask "A" (Some "03/11/2026") None Pendente));
    reflexivity.
Defined.

(** What the 'Próximas ao vencimento' stage compares when the task has no
    due-time: the midnight that opens the due-date. *)
Lemma periodFilter_due_soon_without_time (now : Z) (ts : list TaskEntity.t)
    (t : TaskEntity.t) (s : string) (d : Z) :
  present (TaskEntity.dataVencimento t) = Some s ->
  present (TaskEntity.horaVencimento t) = None ->
  dueDateOf s = Some d ->
  In t (periodFilter now "Próximas ao vencimento" ts)
  <-> In t ts
      /\ now <= d
      /\ JsDate.le (Some d) (JsDate.TimeClip (now + 48 * 60 * 60 * 1000)) = true
      /\ TaskEntity.status t = Pendente.
Proof.
  intros Hdv Hhora Hd. unfold periodFilter; simpl.
  rewrite List.filter_In, Hdv, Hhora, Hd.
  rewrite !andb_true_iff, bool_decide_eq_true.
  unfold JsDate.le. rewrite Z.leb_le. tauto.
Qed.

(** C7. The 'Próximas ao vencimento' stage does not use 23:59:59 when a
    task has no due-time. On 2 November 2026 at 15:04 a Pendente task due
    on 2 November, without a due-time, has its end-of-day due-moment (the
    one the sweep computes) inside the window from now to now + 48 h, yet
    the stage drops it: it compares the midnight that opens the day. *)
Theorem taskList_due_soon_drops_task_due_today :
  let task := sampleTask "A" (Some "02/11/2026") None Pendente in
  let now := sampleClock 0 in
  TaskEntity.status task = Pendente
  /\ hasDueDate task = true
  /\ sweepDueDate task "02/11/2026" = Some 1793663999000
  /\ now <= 1793663999000 <= now + 48 * 60 * 60 * 1000
  /\ dueDateOf "02/11/2026" = Some 1793577600000
  /\ 1793577600000 < now
  /\ (taskList sampleClock (fun s => s)
        (byDueDate "Próximas ao vencimento" "Crescente") (storeOf [task])).1
     = Returned [].
Proof.
  simpl. repeat split; try reflexivity; discriminate.
Qed.

(** ** The history log *)

Section AppendOnly.
Variable clock : nat -> Z.
Variable uuid : nat -> string.
Variable toLowerCase : string -> string.



Lemma taskDelete_runs (id : string) (w : World) (i : nat) (t : TaskEntity.t) :
  list_find (fun x => TaskEntity.id x = id) (tasks w) = Some (i, t) ->
  taskDelete clock uuid id w
  = (Returned true,
     mkWorld (delete i (tasks w))
       (history w
        ++ [HistoryEntry.mk (uuid (uuidReads w)) id (clock (dateReads w))
              "Exclusão" None None None "Manual"])
       (S (dateReads w)) (S (uuidReads w))).
Proof.
  intros Hfind. unfold taskDelete, bind at 1, getTasks; simpl.
  rewrite Hfind. reflexivity.
Qed.

(** With distinct identifiers, deleting the slot found for an
    identifier leaves no task with that identifier. *)
Lemma delete_found_removes_id (id : string) (ts : list TaskEntity.t)
    (i : nat) (t x : TaskEntity.t) :
  NoDup (TaskEntity.id <$> ts) ->
  list_find (fun y => TaskEntity.id y = id) ts = Some (i, t) ->
  x ∈ delete i ts -> TaskEntity.id x <> id.
Proof.
  intros Hnd Hfind Hx Hid.
  apply list_find_Some in Hfind as (Hi & Ht & _).
  apply list_elem_of_lookup in Hx as [j Hj].
  assert (Hk : exists k, k <> i /\ ts !! k = Some x).
  { destruct (decide (j < i)%nat).
    - rewrite list_lookup_delete_lt in Hj by assumption.
      exists j. split; [lia|exact Hj].
    - rewrite list_lookup_delete_ge in Hj by lia.
      exists (S j). split; [lia|exact Hj]. }
  destruct Hk as (k & Hne & Hk). apply Hne.
  apply (NoDup_lookup _ k i id Hnd); rewrite list_lookup_fmap.
  - rewrite Hk. simpl. congruence.
  - rewrite Hi. simpl. congruence.
Qed.
End AppendOnly.



(** ** Creation *)

Lemma list_find_snoc_other {A} (P : A -> Prop) `{forall x, Decision (P x)}
    (l : list A) (t : A) :
  ~ P t -> snd <$> list_find P (l ++ [t]) = snd <$> list_find P l.
Proof.
  intros Hn. destruct (list_find P l) as [[i x]|] eqn:Hl.
  - rewrite (list_find_app_l P l [t] i x Hl). reflexivity.
  - rewrite (list_find_app_r P l [t] Hl). simpl.
    destruct (decide (P t)); [contradiction|reflexivity].
Qed.

Lemma list_find_snoc_fresh {A} (P : A -> Prop) `{forall x, Decision (P x)}
    (l : list A) (t : A) :
  (forall x, x ∈ l -> ~ P x) -> P t ->
  list_find P (l ++ [t]) = Some (length l, t).
Proof.
  intros Hl Ht.
  assert (Hnone : list_find P l = None)
    by (apply list_find_None, Forall_forall; exact Hl).
  rewrite (list_find_app_r P l [t] Hnone). simpl.
  destruct (decide (P t)); [reflexivity|contradiction].
Qed.

(** X1. A creation that passes validation, when the identifier drawn is
    not yet in the store, returns a Pendente task carrying the payload,
    puts it at the end of the store and appends one 'Criação' entry of
    origin 'Manual' with null field and values; afterwards [taskGet]
    finds the new task under its identifier and answers every other
    identifier as before. *)
Theorem taskCreate_stores_a_pending_task
    (clock : nat -> Z) (uuid : nat -> string)
    (data : TaskCreateRequest.t) (w : World) :
  validationError (TaskCreateRequest.titulo data)
                  (TaskCreateRequest.descricao data) = None ->
  (forall t0, t0 ∈ tasks w -> TaskEntity.id t0 <> uuid (uuidReads w)) ->
  exists (t : TaskEntity.t) (w' : World),
    taskCreate clock uuid data w = (Returned t, w')
    /\ t = TaskEntity.mk (uuid (uuidReads w))
             (TaskCreateRequest.titulo data) (TaskCreateRequest.descricao data)
             (TaskCreateRequest.dataVencimento data)
             (TaskCreateRequest.horaVencimento data)
             (TaskCreateRequest.importancia data)
             Pendente (clock (dateReads w)) (clock (S (dateReads w)))
    /\ tasks w' = tasks w ++ [t]
    /\ history w'
       = history w
         ++ [HistoryEntry.mk (uuid (S (uuidReads w))) (TaskEntity.id t)
               (clock (S (S (dateReads w)))) "Criação" None None None "Manual"]
    /\ (taskGet (TaskEntity.id t) w').1 = Returned (Some t)
    /\ (forall id', id' <> TaskEntity.id t ->
          (taskGet id' w').1 = (taskGet id' w).1).
Proof.
  intros Hvalid Hfresh. unfold taskCreate. rewrite Hvalid.
  eexists _, _. split; [reflexivity|]. split; [reflexivity|].
  simpl. split; [reflexivity|]. split; [reflexivity|]. split.
  - unfold taskGet, bind, getTasks, ret; simpl.
    rewrite list_find_snoc_fresh; [reflexivity| |reflexivity].
    intros x Hx. apply Hfresh, Hx.
  - intros id' Hne. unfold taskGet, bind, getTasks, ret; simpl.
    rewrite list_find_snoc_other; [reflexivity|].
    simpl. congruence.
Qed.

Lemma taskCreate_stores_a_pending_task_witness :
  exists (t : TaskEntity.t) (w' : World),
    taskCreate sampleClock sampleUuid
      (TaskCreateRequest.mk "Pagar contas" None (Some "03/11/2026") None Alta)
      (mkWorld [sampleTask "Z" None None Pendente] [] 0 0)
    = (Returned t, w')
    /\ TaskEntity.status t = Pendente
    /\ (taskGet "A" w').1 = Returned (Some t).
Proof.
  destruct (taskCreate_stores_a_pending_task sampleClock sampleUuid
              (TaskCreateRequest.mk "Pagar contas" None (Some "03/11/2026")
                 None Alta)
              (mkWorld [sampleTask "Z" None None Pendente] [] 0 0) eq_refl)
    as (t & w' & Hrun & Ht & _ & _ & Hget & _).
  - intros t0 Ht0. apply list_elem_of_singleton in Ht0. subst t0. discriminate.
  - subst t. eexists _, w'. split; [exact Hrun|].
    split; [reflexivity | exact Hget].
Defined.

(** ** Validation failures *)

(** X2. A payload that fails validation makes [taskCreate], and
    [taskUpdate] on a stored task, throw the validation error and leave
    the world as it was. The error is one of three; a blank title gives
    'tituloObrigatorio' whatever else is wrong, a title of more than 100
    code units gives 'tituloMuitoLongo' when it is not blank, and
    'descricaoMuitoLonga' is only given for an acceptable title and a
    description of more than 500 code units. *)
Theorem invalid_payload_throws_and_changes_nothing
    (clock : nat -> Z) (uuid : nat -> string) (w : World) (e : string)
    (titulo : string) (descricao dataVencimento horaVencimento : option string)
    (importancia : TaskImportance) :
  validationError titulo descricao = Some e ->
  taskCreate clock uuid
    (TaskCreateRequest.mk titulo descricao dataVencimento horaVencimento
       importancia) w
  = (Thrown e, w)
  /\ (forall (id : string) (t : TaskEntity.t),
        (taskGet id w).1 = Returned (Some t) ->
        taskUpdate clock uuid id
          (TaskUpdateRequest.mk titulo descricao dataVencimento horaVencimento
             importancia) w
        = (Thrown e, w))
  /\ (Js.trimIsEmpty titulo = true -> e = "tituloObrigatorio")
  /\ (Js.trimIsEmpty titulo = false -> (100 < Js.jsLength titulo)%nat ->
      e = "tituloMuitoLongo")
  /\ (Js.trimIsEmpty titulo = false -> (Js.jsLength titulo <= 100)%nat ->
      e = "descricaoMuitoLonga"
      /\ exists d, descricao = Some d /\ (500 < Js.jsLength d)%nat).
Proof.
  intros Hv. split; [|split].
  - unfold taskCreate; simpl. rewrite Hv. reflexivity.
  - intros id t Hget. apply taskGet_found in Hget as [i Hfind].
    unfold taskUpdate, bind, getTasks; simpl. rewrite Hfind, Hv. reflexivity.
  - unfold validationError in Hv.
    destruct (Js.trimIsEmpty titulo) eqn:Hblank.
    + rewrite orb_true_r in Hv. injection Hv as <-.
      split; [reflexivity|]. split; intros H; discriminate H.
    + assert (Htruthy : negb (Js.truthy (Some titulo)) = false).
      { destruct titulo; [discriminate Hblank|reflexivity]. }
      rewrite Htruthy in Hv. simpl in Hv.
      split; [intros H; discriminate H|].
      destruct (100 <? Js.jsLength titulo)%nat eqn:Hlong.
      * injection Hv as <-. apply Nat.ltb_lt in Hlong.
        split; [reflexivity|]. intros _ Hle. lia.
      * apply Nat.ltb_ge in Hlong.
        split; [intros _ Hgt; lia|]. intros _ _.
        destruct (present descricao) as [d|] eqn:Hd; [|discriminate].
        destruct (500 <? Js.jsLength d)%nat eqn:Hdl; [|discriminate].
        injection Hv as <-. split; [reflexivity|].
        apply present_Some in Hd as [-> _]. exists d.
        split; [reflexivity|]. apply Nat.ltb_lt, Hdl.
Qed.

(** A title of three spaces, on creation and on update of a stored task. *)
Lemma invalid_payload_throws_and_changes_nothing_witness :
  let w := storeOf [sampleTask "A" None None Pendente] in
  taskCreate sampleClock sampleUuid
    (TaskCreateRequest.mk "   " None None None Alta) w
  = (Thrown "tituloObrigatorio", w)
  /\ taskUpdate sampleClock sampleUuid "A"
       (TaskUpdateRequest.mk "   " None None None Alta) w
     = (Thrown "tituloObrigatorio", w).
Proof.
  intros w.
  destruct (invalid_payload_throws_and_changes_nothing sampleClock sampleUuid
              w "tituloObrigatorio" "   " None None None Alta eq_refl)
    as (Hc & Hu & _).
  split; [exact Hc|].
  apply (Hu "A" (sampleTask "A" None None Pendente)). reflexivity.
Defined.

(** ** Lookup misses *)

(** X3. For an identifier that no stored task has, [taskDelete] returns
    false, [taskUpdateStatus] returns the absent result whatever status
    is asked, and [taskGet] returns the absent result; none of them
    changes the world. *)
Theorem unknown_id_is_a_miss_everywhere
    (clock : nat -> Z) (uuid : nat -> string) (id : string) (w : World) :
  (forall t, t ∈ tasks w -> TaskEntity.id t <> id) ->
  taskDelete clock uuid id w = (Returned false, w)
  /\ (forall status, taskUpdateStatus clock uuid id status w = (Returned None, w))
  /\ taskGet id w = (Returned None, w).
Proof.
  intros Hnew.
  assert (Hnone : list_find (fun x => TaskEntity.id x = id) (tasks w) = None).
  { apply list_find_None, Forall_forall. exact Hnew. }
  split; [|split].
  - unfold taskDelete, bind, getTasks; simpl. rewrite Hnone. reflexivity.
  - intros status. unfold taskUpdateStatus, bind, getTasks; simpl.
    rewrite Hnone. reflexivity.
  - unfold taskGet, bind, getTasks, ret; simpl. rewrite Hnone. reflexivity.
Qed.

Lemma unknown_id_is_a_miss_everywhere_witness :
  let w := storeOf [sampleTask "A" None None Vencida] in
  taskDelete sampleClock sampleUuid "Z" w = (Returned false, w)
  /\ taskUpdateStatus sampleClock sampleUuid "Z" Pendente w = (Returned None, w).
Proof.
  intros w.
  destruct (unknown_id_is_a_miss_everywhere sampleClock sampleUuid "Z" w)
    as (Hd & Hs & _).
  - intros t Ht. apply list_elem_of_singleton in Ht. subst t. discriminate.
  - split; [exact Hd | apply Hs].
Defined.

(** ** The status change, for every pair of statuses *)



(** ** What an update keeps *)

(** X5. A successful update rewrites the slot of the task it found and
    no other, and keeps the length of the store; the task written has the
    five fields of the payload, the identifier and the creation time of
    the old task, the first clock reading of the call as last-update
    time, and the old status, unless the old status was Vencida and the
    new one is Pendente. *)
Theorem taskUpdate_rewrites_one_slot
    (clock : nat -> Z) (uuid : nat -> string)
    (id : string) (data : TaskUpdateRequest.t) (w : World) (t : TaskEntity.t) :
  (taskGet id w).1 = Returned (Some t) ->
  validationError (TaskUpdateRequest.titulo data)
                  (TaskUpdateRequest.descricao data) = None ->
  exists (i : nat) (t' : TaskEntity.t) (w' : World),
    tasks w !! i = Some t
    /\ taskUpdate clock uuid id data w = (Returned (Some t'), w')
    /\ tasks w' = <[i := t']> (tasks w)
    /\ length (tasks w') = length (tasks w)
    /\ (forall j, j <> i -> tasks w' !! j = tasks w !! j)
    /\ TaskEntity.id t' = TaskEntity.id t
    /\ TaskEntity.dataCriacao t' = TaskEntity.dataCriacao t
    /\ TaskEntity.dataAtualizacao t' = clock (dateReads w)
    /\ (forall f, storedValue f t' = submittedValue f data)
    /\ (TaskEntity.status t' = TaskEntity.status t
        \/ TaskEntity.status t = Vencida /\ TaskEntity.status t' = Pendente).
Proof.
  intros Hget Hvalid. apply taskGet_found in Hget as [i Hfind].
  destruct (taskUpdate_runs clock uuid id data w i t Hfind Hvalid)
    as (fires & d & u & d' & u' & Hfires & Hrun).
  apply list_find_Some in Hfind as (Hi & _ & _).
  simpl in Hrun. eexists i, _, _. split; [exact Hi|]. split; [exact Hrun|].
  simpl. split; [reflexivity|]. split; [apply length_insert|].
  split; [intros j Hj; apply list_lookup_insert_ne; congruence|].
  destruct fires; simpl.
  - repeat split; try (intros f; destruct f; reflexivity).
    right. split; [apply Hfires; reflexivity|reflexivity].
  - repeat split; try (intros f; destruct f; reflexivity).
    left. reflexivity.
Qed.

Lemma taskUpdate_rewrites_one_slot_witness :
  exists (t' : TaskEntity.t) (w' : World),
    taskUpdate sampleClock sampleUuid "B"
      (sampleRequest "Ligar" (Some "03/11/2026") (Some "10:00"))
      (storeOf [sampleTask "A" None None Pendente;
                sampleTask "B" None None Concluída])
    = (Returned (Some t'), w')
    /\ tasks w' = [sampleTask "A" None None Pendente; t']
    /\ TaskEntity.status t' = Concluída.
Proof.
  destruct (taskUpdate_rewrites_one_slot sampleClock sampleUuid "B"
              (sampleRequest "Ligar" (Some "03/11/2026") (Some "10:00"))
              (storeOf [sampleTask "A" None None Pendente;
                        sampleTask "B" None None Concluída])
              (sampleTask "B" None None Concluída) eq_refl eq_refl)
    as (i & t' & w' & Hi & Hrun & Htasks & _ & _ & _ & _ & _ & _ & Hst).
  exists t', w'. split; [exact Hrun|].
  destruct i as [|[|i]]; try discriminate Hi.
  split; [exact Htasks|].
  destruct Hst as [Hst|[Hst _]]; [exact Hst|discriminate Hst].
Defined.

(** ** The identifiers in the store *)

Lemma sweptTo_id (clock : nat -> Z) (now : Z) (d0 : nat) (t t' : TaskEntity.t) :
  sweptTo clock now d0 t t' -> TaskEntity.id t' = TaskEntity.id t.
Proof.
  unfold sweptTo. destruct (overdueAtb now t).
  - intros (k & _ & ->). reflexivity.
  - intros ->. reflexivity.
Qed.

Lemma swept_ids (clock : nat -> Z) (now : Z) (d0 : nat)
    (ts ts' : list TaskEntity.t) :
  Forall2 (sweptTo clock now d0) ts ts' ->
  TaskEntity.id <$> ts' = TaskEntity.id <$> ts.
Proof.
  induction 1 as [|t t' ts ts' Ht _ IH]; [reflexivity|].
  rewrite !fmap_cons, (sweptTo_id _ _ _ _ _ Ht), IH. reflexivity.
Qed.

Lemma insert_same_id (ts : list TaskEntity.t) (i : nat) (t t' : TaskEntity.t) :
  ts !! i = Some t -> TaskEntity.id t' = TaskEntity.id t ->
  TaskEntity.id <$> <[i := t']> ts = TaskEntity.id <$> ts.
Proof.
  intros Hi Hid. rewrite list_fmap_insert, Hid.
  apply list_insert_id. rewrite list_lookup_fmap, Hi. reflexivity.
Qed.

(** The list of identifiers after a call that is neither a creation nor a
    deletion. *)
Lemma after_keeps_ids (clock : nat -> Z) (uuid : nat -> string)
    (toLowerCase : string -> string) (c : Call) (w : World) :
  match c with
  | CallCreate _ | CallDelete _ => True
  | _ => TaskEntity.id <$> tasks (after clock uuid toLowerCase c w)
         = TaskEntity.id <$> tasks w
  end.
Proof.
  destruct c as [data|filters|id|id data|id|id status| |id ft fo]; simpl;
    try exact I; try reflexivity.
  - destruct (taskList_runs clock toLowerCase filters w)
      as (sel & w' & Heq & _ & Ht & _).
    rewrite Heq. simpl. rewrite Ht. reflexivity.
  - destruct (list_find (fun x => TaskEntity.id x = id) (tasks w))
      as [[i t]|] eqn:Hfind.
    + destruct (validationError (TaskUpdateRequest.titulo data)
                  (TaskUpdateRequest.descricao data)) eqn:Hvalid.
      * unfold taskUpdate, bind, getTasks; simpl.
        rewrite Hfind, Hvalid. reflexivity.
      * destruct (taskUpdate_runs clock uuid id data w i t Hfind Hvalid)
          as (fires & d & u & d' & u' & _ & Hrun).
        simpl in Hrun. rewrite Hrun. simpl.
        apply list_find_Some in Hfind as (Hi & _ & _).
        apply (insert_same_id _ _ t); [exact Hi|]. destruct fires; reflexivity.
    + unfold taskUpdate, bind, getTasks; simpl. rewrite Hfind. reflexivity.
  - destruct (taskUpdateStatus_store clock uuid id status w)
      as [-> | (i & found & d & Hi & ->)]; [reflexivity|].
    apply (insert_same_id _ _ found); [exact Hi|reflexivity].
  - unfold taskCheckOverdue, bind at 1, newDate; simpl.
    unfold bind at 1, getTasks; simpl. unfold bind at 1.
    match goal with |- context [checkEach _ _ ?now _ ?w1] =>
      destruct (checkEach_runs clock uuid now (tasks w) w1)
        as (ts' & added & d' & u' & Hrun & _ & Hrel & _)
    end.
    simpl in Hrun. rewrite Hrun. simpl. eapply swept_ids, Hrel.
Qed.

(** X6. Only creations and deletions change the list of identifiers in
    the store: every other call leaves it as it was, in the same order.
    And identifiers stay distinct: if they are distinct before a call and
    the next identifier the generator yields is not among them, they are
    distinct after the call, whichever call it is. *)
Theorem identifiers_stay_distinct
    (clock : nat -> Z) (uuid : nat -> string) (toLowerCase : string -> string)
    (c : Call) (w : World) :
  NoDup (TaskEntity.id <$> tasks w) ->
  uuid (uuidReads w) ∉ TaskEntity.id <$> tasks w ->
  NoDup (TaskEntity.id <$> tasks (after clock uuid toLowerCase c w))
  /\ match c with
     | CallCreate _ | CallDelete _ => True
     | _ => TaskEntity.id <$> tasks (after clock uuid toLowerCase c w)
            = TaskEntity.id <$> tasks w
     end.
Proof.
  intros Hnd Hfresh. split; [|apply after_keeps_ids].
  pose proof (after_keeps_ids clock uuid toLowerCase c w) as Hkeep.
  destruct c as [data|filters|id|id data|id|id status| |id ft fo];
    try (rewrite Hkeep; exact Hnd); simpl.
  - unfold taskCreate. destruct (validationError _ _); [exact Hnd|].
    simpl. rewrite fmap_app. apply NoDup_app. split; [exact Hnd|].
    split; [|apply NoDup_singleton].
    intros x Hx Hin. apply list_elem_of_singleton in Hin. subst x.
    apply Hfresh, Hx.
  - unfold taskDelete, bind at 1, getTasks; simpl.
    destruct (list_find _ (tasks w)) as [[i t]|]; [|exact Hnd].
    simpl. rewrite list_fmap_delete.
    eapply sublist_NoDup; [exact Hnd|apply sublist_delete].
Qed.

Lemma identifiers_stay_distinct_witness :
  NoDup (TaskEntity.id <$>
           tasks (after sampleClock sampleUuid (fun s => s)
                    (CallCreate (TaskCreateRequest.mk "Ligar" None None None Baixa))
                    (storeOf [sampleTask "Y" None None Pendente;
                              sampleTask "Z" None None Pendente]))).
Proof.
  apply (identifiers_stay_distinct sampleClock sampleUuid (fun s => s)
           (CallCreate (TaskCreateRequest.mk "Ligar" None None None Baixa))
           (storeOf [sampleTask "Y" None None Pendente;
                     sampleTask "Z" None None Pendente])).
  - simpl. apply NoDup_cons. split; [|apply NoDup_singleton].
    intros H. apply list_elem_of_singleton in H. discriminate H.
  - simpl. intros H. apply elem_of_cons in H as [H|H]; [discriminate H|].
    apply list_elem_of_singleton in H. discriminate H.
Defined.

(** ** What the sweep leaves behind *)


Lemma swept_not_overdue (clock : nat -> Z) (now : Z) (d0 : nat)
    (t t' : TaskEntity.t) :
  sweptTo clock now d0 t t' -> ~ overdueAt now t'.
Proof.
  unfold sweptTo. destruct (overdueAtb now t) eqn:Hov.
  - intros (k & _ & ->) [Hst _]. discriminate Hst.
  - intros -> H. apply overdueAtb_spec in H. congruence.
Qed.



(** The store and the history after a sweep that reads [now]. *)
Lemma taskCheckOverdue_runs (clock : nat -> Z) (uuid : nat -> string) (w : World) :
  exists (ts' : list TaskEntity.t) (added : list HistoryEntry.t) (d' u' : nat),
    taskCheckOverdue clock uuid w
    = (Returned tt, mkWorld ts' (history w ++ added) d' u')
    /\ (dateReads w < d')%nat
    /\ Forall2 (sweptTo clock (clock (dateReads w)) (S (dateReads w)))
         (tasks w) ts'
    /\ HistoryEntry.idTarefa <$> added
       = TaskEntity.id <$> List.filter (overdueAtb (clock (dateReads w))) (tasks w)
    /\ Forall isSweepEntry added.
Proof.
  unfold taskCheckOverdue, bind at 1, newDate; simpl.
  unfold bind at 1, getTasks; simpl. unfold bind at 1.
  match goal with |- context [checkEach _ _ ?now _ ?w1] =>
    destruct (checkEach_runs clock uuid now (tasks w) w1)
      as (ts' & added & d' & u' & Hrun & Hle & Hrel & Hids & Hall)
  end.
  simpl in Hrun, Hle, Hrel. rewrite Hrun. unfold setTasks; simpl.
  exists ts', added, d', u'. repeat split; assumption.
Qed.



(** ** Sorting by a number *)

Section RankSort.
Context {A : Type} (comparefn : A -> A -> option Z) (rank : A -> Z).

(** The comparator orders by [rank]: [x] comes after [y] exactly when
    its rank is larger. *)
Hypothesis by_rank :
  forall x y, comesAfter comparefn x y = (rank y <? rank x).

Lemma insertSorted_ranked (x : A) (l : list A) :
  StronglySorted (fun a b => rank a <= rank b) l ->
  StronglySorted (fun a b => rank a <= rank b) (insertSorted comparefn x l).
Proof.
  induction 1 as [|y l Hs IH Hy]; simpl.
  - repeat constructor.
  - rewrite by_rank. destruct (rank y <? rank x) eqn:Hlt.
    + apply Z.ltb_lt in Hlt. constructor; [exact IH|].
      eapply Permutation_Forall;
        [symmetry; apply insertSorted_Permutation|].
      constructor; [lia|exact Hy].
    + apply Z.ltb_ge in Hlt. constructor; [constructor; assumption|].
      constructor; [exact Hlt|].
      eapply Forall_impl; [exact Hy|]. intros z Hz. simpl in Hz. lia.
Qed.

Lemma sort_ranked (l : list A) :
  StronglySorted (fun a b => rank a <= rank b) (sort comparefn l).
Proof.
  induction l as [|x l IH]; simpl; [constructor|].
  apply insertSorted_ranked, IH.
Qed.

(** The elements of one rank keep their order: the sort is stable. *)
Lemma insertSorted_stable (k : Z) (x : A) (l : list A) :
  StronglySorted (fun a b => rank a <= rank b) l ->
  List.filter (fun y => rank y =? k) (insertSorted comparefn x l)
  = List.filter (fun y => rank y =? k) (x :: l).
Proof.
  induction 1 as [|y l Hs IH Hy]; [reflexivity|].
  simpl insertSorted. rewrite by_rank.
  destruct (rank y <? rank x) eqn:Hlt; [|reflexivity].
  apply Z.ltb_lt in Hlt. simpl in *.
  rewrite IH. destruct (rank x =? k) eqn:Hx; [|reflexivity].
  apply Z.eqb_eq in Hx.
  assert (Hyk : (rank y =? k) = false) by (apply Z.eqb_neq; lia).
  rewrite Hyk. reflexivity.
Qed.

Lemma sort_stable (k : Z) (l : list A) :
  List.filter (fun y => rank y =? k) (sort comparefn l)
  = List.filter (fun y => rank y =? k) l.
Proof.
  induction l as [|x l IH]; [reflexivity|].
  simpl sort. rewrite insertSorted_stable by apply sort_ranked.
  simpl. rewrite IH. reflexivity.
Qed.
End RankSort.

Lemma List_filter_sublist {A} (f : A -> bool) (l : list A) :
  List.filter f l `sublist_of` l.
Proof.
  induction l as [|x l IH]; simpl; [constructor|].
  destruct (f x); [apply sublist_skip|apply sublist_cons]; exact IH.
Qed.

Lemma sublist_List_filter {A} (f : A -> bool) (l1 l2 : list A) :
  l1 `sublist_of` l2 -> List.filter f l1 `sublist_of` List.filter f l2.
Proof.
  induction 1 as [|x l1 l2 _ IH|x l1 l2 _ IH]; simpl.
  - constructor.
  - destruct (f x); [apply sublist_skip|]; exact IH.
  - destruct (f x); [apply sublist_cons|]; exact IH.
Qed.

Lemma present_truthy (v : option string) (s : string) :
  present v = Some s -> Js.truthy v = true.
Proof.
  unfold present. destruct (Js.truthy v); [reflexivity|discriminate].
Qed.

Lemma periodFilter_sublist (now : Z) (filterPeriod : string)
    (ts : list TaskEntity.t) :
  periodFilter now filterPeriod ts `sublist_of` ts.
Proof.
  unfold periodFilter.
  repeat (destruct (String.eqb filterPeriod _); [apply List_filter_sublist|]).
  reflexivity.
Qed.

(** What the period stage guarantees about each task it lets through. *)
Lemma periodFilter_sound (now : Z) (p : string) (ts : list TaskEntity.t)
    (x : TaskEntity.t) :
  In x (periodFilter now p ts) ->
  (p = "Vencidas" -> TaskEntity.status x = Vencida)
  /\ (p = "Sem data" -> hasDueDate x = false)
  /\ (p = "Hoje" \/ p = "Esta semana" \/ p = "Este mês"
      \/ p = "Próximas ao vencimento" -> hasDueDate x = true)
  /\ (p = "Próximas ao vencimento" -> TaskEntity.status x = Pendente).
Proof.
  unfold periodFilter.
  assert (Hdated : forall g : string -> bool,
            match present (TaskEntity.dataVencimento x) with
            | Some s => g s
            | None => false
            end = true -> hasDueDate x = true).
  { intros g. destruct (present (TaskEntity.dataVencimento x)) eqn:Hp;
      [|discriminate]. intros _. eapply present_truthy, Hp. }
  destruct (String.eqb p "Hoje") eqn:E1.
  { apply String.eqb_eq in E1. subst p. intros H.
    apply List.filter_In in H as [_ H]. apply Hdated in H.
    repeat split; intros; try discriminate; exact H. }
  destruct (String.eqb p "Esta semana") eqn:E2.
  { apply String.eqb_eq in E2. subst p. intros H.
    apply List.filter_In in H as [_ H]. apply Hdated in H.
    repeat split; intros; try discriminate; exact H. }
  destruct (String.eqb p "Este mês") eqn:E3.
  { apply String.eqb_eq in E3. subst p. intros H.
    apply List.filter_In in H as [_ H].
    assert (Hd : hasDueDate x = true).
    { destruct (present (TaskEntity.dataVencimento x)) eqn:Hp;
        [eapply present_truthy, Hp|discriminate]. }
    repeat split; intros; try discriminate; exact Hd. }
  destruct (String.eqb p "Próximas ao vencimento") eqn:E4.
  { apply String.eqb_eq in E4. subst p. intros H.
    apply List.filter_In in H as [_ H].
    assert (Hd : hasDueDate x = true /\ TaskEntity.status x = Pendente).
    { destruct (present (TaskEntity.dataVencimento x)) eqn:Hp; [|discriminate].
      apply andb_true_iff in H as [_ H]. apply bool_decide_eq_true in H.
      split; [eapply present_truthy, Hp|exact H]. }
    destruct Hd as [Hd Hs].
    repeat split; intros; try discriminate; assumption. }
  destruct (String.eqb p "Vencidas") eqn:E5.
  { apply String.eqb_eq in E5. subst p. intros H.
    apply List.filter_In in H as [_ H]. apply bool_decide_eq_true in H.
    repeat split; intros; try discriminate; try exact H.
    destruct H0 as [H0|[H0|[H0|H0]]]; discriminate H0. }
  destruct (String.eqb p "Sem data") eqn:E6.
  { apply String.eqb_eq in E6. subst p. intros H.
    apply List.filter_In in H as [_ H]. apply negb_true_iff in H.
    repeat split; intros; try discriminate; try exact H.
    destruct H0 as [H0|[H0|[H0|H0]]]; discriminate H0. }
  apply String.eqb_neq in E1, E2, E3, E4, E5, E6. intros _.
  repeat split; intros; try contradiction.
  destruct H as [H|[H|[H|H]]]; contradiction.
Qed.

(** [taskList], stage by stage: what it sorts is a subsequence of the
    store, each element of which passed every stage that was switched on,
    and the whole store when no stage is switched on. *)
Lemma taskList_selects (clock : nat -> Z) (toLowerCase : string -> string)
    (filters : TaskListFilters.t) (w : World) :
  exists (selected : list TaskEntity.t) (w' : World),
    taskList clock toLowerCase filters w
    = (Returned (sort (compareTasks filters) selected), w')
    /\ selected `sublist_of` tasks w
    /\ tasks w' = tasks w
    /\ history w' = history w
    /\ (forall x, In x selected ->
          (TaskListFilters.filterStatus filters <> "Todas" ->
           statusText (TaskEntity.status x) = TaskListFilters.filterStatus filters)
          /\ (TaskListFilters.filterImportance filters <> "Todas" ->
              importanceText (TaskEntity.importancia x)
              = TaskListFilters.filterImportance filters)
          /\ (TaskListFilters.filterPeriod filters = "Vencidas" ->
              TaskEntity.status x = Vencida)
          /\ (TaskListFilters.filterPeriod filters = "Sem data" ->
              hasDueDate x = false)
          /\ (TaskListFilters.filterPeriod filters = "Hoje"
              \/ TaskListFilters.filterPeriod filters = "Esta semana"
              \/ TaskListFilters.filterPeriod filters = "Este mês"
              \/ TaskListFilters.filterPeriod filters = "Próximas ao vencimento" ->
              hasDueDate x = true)
          /\ (TaskListFilters.filterPeriod filters = "Próximas ao vencimento" ->
              TaskEntity.status x = Pendente))
    /\ (TaskListFilters.filterStatus filters = "Todas" ->
        TaskListFilters.filterImportance filters = "Todas" ->
        TaskListFilters.filterPeriod filters = "Todas" ->
        present (TaskListFilters.searchTerm filters) = None ->
        selected = tasks w).
Proof.
  destruct filters as [fs fi fp ob od st]. unfold taskList; simpl.
  unfold bind at 1, getTasks; simpl.
  set (byStatus := if negb (String.eqb fs "Todas") then _ else _).
  set (byImportance := if negb (String.eqb fi "Todas") then _ else _).
  assert (S1 : byStatus `sublist_of` tasks w
               /\ (forall x, In x byStatus ->
                     fs <> "Todas" -> statusText (TaskEntity.status x) = fs)
               /\ (fs = "Todas" -> byStatus = tasks w)).
  { subst byStatus. destruct (String.eqb fs "Todas") eqn:E; simpl.
    - apply String.eqb_eq in E. repeat split; auto. intros; contradiction.
    - split; [apply List_filter_sublist|]. split.
      + intros x Hx _. apply List.filter_In in Hx as [_ Hx].
        apply String.eqb_eq, Hx.
      + apply String.eqb_neq in E. intros; contradiction. }
  destruct S1 as (Sa & Sb & Sc).
  assert (S2 : byImportance `sublist_of` byStatus
               /\ (forall x, In x byImportance -> In x byStatus)
               /\ (forall x, In x byImportance ->
                     fi <> "Todas" ->
                     importanceText (TaskEntity.importancia x) = fi)
               /\ (fi = "Todas" -> byImportance = byStatus)).
  { subst byImportance. destruct (String.eqb fi "Todas") eqn:E; simpl.
    - apply String.eqb_eq in E. repeat split; auto. intros; contradiction.
    - split; [apply List_filter_sublist|]. split; [|split].
      + intros x Hx. apply List.filter_In in Hx. tauto.
      + intros x Hx _. apply List.filter_In in Hx as [_ Hx].
        apply String.eqb_eq, Hx.
      + apply String.eqb_neq in E. intros; contradiction. }
  destruct S2 as (Ia & Ib & Ic & Id).
  clearbody byImportance byStatus.
  assert (Hsearch : forall l : list TaskEntity.t,
    let bySearch :=
      match present st with
      | Some term =>
          List.filter (fun task =>
            Js.includes (toLowerCase term) (toLowerCase (TaskEntity.titulo task))
            || match present (TaskEntity.descricao task) with
               | Some d => Js.includes (toLowerCase term) (toLowerCase d)
               | None => false
               end) l
      | None => l
      end in
    bySearch `sublist_of` l /\ (forall x, In x bySearch -> In x l)
    /\ (present st = None -> bySearch = l)).
  { intros l. simpl. destruct (present st).
    - split; [apply List_filter_sublist|]. split; [|discriminate].
      intros x Hx. apply List.filter_In in Hx. tauto.
    - repeat split; auto. }
  unfold bind, ret, newDate.
  destruct (String.eqb fp "Todas") eqn:Ep; simpl.
  - apply String.eqb_eq in Ep. subst fp.
    destruct (Hsearch byImportance) as (Ha & Hb & Hc).
    eexists _, _. split; [reflexivity|]. simpl.
    split; [etransitivity; [exact Ha|]; etransitivity; eassumption|].
    split; [reflexivity|]. split; [reflexivity|]. split.
    + intros x Hx. apply Hb in Hx.
      repeat split; intros; try discriminate; auto.
      destruct H as [H|[H|[H|H]]]; discriminate H.
    + intros E1 E2 _ E4. rewrite (Hc E4), (Id E2), (Sc E1). reflexivity.
  - destruct (Hsearch (periodFilter (clock (dateReads w)) fp byImportance))
      as (Ha & Hb & Hc).
    eexists _, _. split; [reflexivity|]. simpl.
    split; [etransitivity; [exact Ha|]; etransitivity;
            [apply periodFilter_sublist|]; etransitivity; eassumption|].
    split; [reflexivity|]. split; [reflexivity|]. split.
    + intros x Hx. apply Hb in Hx.
      pose proof (periodFilter_sound _ _ _ _ Hx) as (P1 & P2 & P3 & P4).
      apply periodFilter_subset in Hx.
      repeat split; auto.
    + apply String.eqb_neq in Ep. intros _ _ E3. contradiction.
Qed.

(** X8. [taskList] returns, in some order, a subsequence of the store:
    every stored task appears at most as often as it is stored and
    nothing else appears; it changes neither the store nor the history;
    and with the three filters at 'Todas' and no search term it returns
    the whole store. *)
Theorem taskList_returns_a_selection_of_the_store
    (clock : nat -> Z) (toLowerCase : string -> string)
    (filters : TaskListFilters.t) (w : World) :
  exists (out selected : list TaskEntity.t) (w' : World),
    taskList clock toLowerCase filters w = (Returned out, w')
    /\ Permutation out selected
    /\ selected `sublist_of` tasks w
    /\ tasks w' = tasks w
    /\ history w' = history w
    /\ (TaskListFilters.filterStatus filters = "Todas" ->
        TaskListFilters.filterImportance filters = "Todas" ->
        TaskListFilters.filterPeriod filters = "Todas" ->
        present (TaskListFilters.searchTerm filters) = None ->
        Permutation out (tasks w)).
Proof.
  destruct (taskList_selects clock toLowerCase filters w)
    as (selected & w' & Hrun & Hsub & Ht & Hh & _ & Hall).
  eexists _, selected, w'. split; [exact Hrun|].
  split; [apply sort_Permutation|]. repeat split; try assumption.
  intros E1 E2 E3 E4. rewrite <- (Hall E1 E2 E3 E4). apply sort_Permutation.
Qed.

(** X9. Every task that [taskList] returns has passed each stage that is
    switched on: its status is the status filter and its importance the
    importance filter, when these are not 'Todas'; under the period
    'Vencidas' it is Vencida, under 'Sem data' it has no due-date, under
    'Hoje', 'Esta semana', 'Este mês' and 'Próximas ao vencimento' it has
    a due-date, and under the last it is Pendente. *)
Theorem taskList_filters_are_sound
    (clock : nat -> Z) (toLowerCase : string -> string)
    (filters : TaskListFilters.t) (w : World) (out : list TaskEntity.t)
    (x : TaskEntity.t) :
  (taskList clock toLowerCase filters w).1 = Returned out ->
  x ∈ out ->
  x ∈ tasks w
  /\ (TaskListFilters.filterStatus filters <> "Todas" ->
      statusText (TaskEntity.status x) = TaskListFilters.filterStatus filters)
  /\ (TaskListFilters.filterImportance filters <> "Todas" ->
      importanceText (TaskEntity.importancia x)
      = TaskListFilters.filterImportance filters)
  /\ (TaskListFilters.filterPeriod filters = "Vencidas" ->
      TaskEntity.status x = Vencida)
  /\ (TaskListFilters.filterPeriod filters = "Sem data" -> hasDueDate x = false)
  /\ (TaskListFilters.filterPeriod filters = "Hoje"
      \/ TaskListFilters.filterPeriod filters = "Esta semana"
      \/ TaskListFilters.filterPeriod filters = "Este mês"
      \/ TaskListFilters.filterPeriod filters = "Próximas ao vencimento" ->
      hasDueDate x = true)
  /\ (TaskListFilters.filterPeriod filters = "Próximas ao vencimento" ->
      TaskEntity.status x = Pendente).
Proof.
  intros Hrun Hx.
  destruct (taskList_selects clock toLowerCase filters w)
    as (selected & w' & Heq & Hsub & _ & _ & Hsound & _).
  rewrite Heq in Hrun. simpl in Hrun. injection Hrun as <-.
  apply list_elem_of_In in Hx.
  apply (Permutation_in _ (sort_Permutation _ selected)) in Hx.
  split; [|apply Hsound, Hx].
  eapply elem_of_sublist; [|exact Hsub]. apply list_elem_of_In, Hx.
Qed.

Lemma taskList_filters_are_sound_witness :
  let overdue := sampleTask "A" (Some "01/11/2026") None Vencida in
  overdue ∈ [sampleTask "A" (Some "01/11/2026") None Vencida;
             sampleTask "B" None None Pendente]
  /\ TaskEntity.status overdue = Vencida.
Proof.
  intros overdue.
  destruct (taskList_filters_are_sound sampleClock (fun s => s)
              (byDueDate "Vencidas" "Crescente")
              (storeOf [sampleTask "A" (Some "01/11/2026") None Vencida;
                        sampleTask "B" None None Pendente])
              [overdue] overdue eq_refl)
    as (Hin & _ & _ & Hv & _).
  - apply list_elem_of_singleton. reflexivity.
  - split; [exact Hin | apply Hv; reflexivity].
Defined.

Lemma compareTasks_by_number (filters : TaskListFilters.t) (a b : TaskEntity.t) :
  TaskListFilters.orderBy filters = "Importância"
  \/ TaskListFilters.orderBy filters = "Data de criação" ->
  let key := sortNumber (TaskListFilters.orderBy filters) in
  comesAfter (compareTasks filters) a b
  = if String.eqb (TaskListFilters.orderDirection filters) "Crescente"
    then key b <? key a else - key b <? - key a.
Proof.
  intros Hby key. subst key. unfold comesAfter, compareTasks, sortNumber.
  destruct Hby as [-> | ->]; simpl;
    destruct (String.eqb (TaskListFilters.orderDirection filters) "Crescente");
    simpl; apply eq_iff_eq_true; rewrite !Z.ltb_lt; lia.
Qed.

(** X10. Under the sort keys 'Importância' (Alta = 1, Média = 2,
    Baixa = 3) and 'Data de criação' the list that [taskList] returns is
    ordered by that number, non-decreasing with 'Crescente' and
    non-increasing with any other direction, and the sort is stable: the
    returned tasks that share a number are in the order in which the
    store holds them. *)
Theorem taskList_orders_by_number_and_is_stable
    (clock : nat -> Z) (toLowerCase : string -> string)
    (filters : TaskListFilters.t) (w : World) (out : list TaskEntity.t) :
  TaskListFilters.orderBy filters = "Importância"
  \/ TaskListFilters.orderBy filters = "Data de criação" ->
  (taskList clock toLowerCase filters w).1 = Returned out ->
  let key := sortNumber (TaskListFilters.orderBy filters) in
  (if String.eqb (TaskListFilters.orderDirection filters) "Crescente"
   then StronglySorted (fun a b => key a <= key b) out
   else StronglySorted (fun a b => key b <= key a) out)
  /\ (forall k : Z,
        List.filter (fun t => key t =? k) out
        `sublist_of` List.filter (fun t => key t =? k) (tasks w)).
Proof.
  intros Hby Hrun key.
  destruct (taskList_selects clock toLowerCase filters w)
    as (selected & w' & Heq & Hsub & _).
  rewrite Heq in Hrun. simpl in Hrun. injection Hrun as <-.
  pose proof (fun a b => compareTasks_by_number filters a b Hby) as Hcmp.
  simpl in Hcmp. fold key in Hcmp.
  destruct (String.eqb (TaskListFilters.orderDirection filters) "Crescente").
  - split.
    + apply (sort_ranked (compareTasks filters) key Hcmp).
    + intros k.
      rewrite (sort_stable (compareTasks filters) key Hcmp k).
      apply sublist_List_filter, Hsub.
  - split.
    + pose proof (sort_ranked (compareTasks filters) (fun t => - key t) Hcmp
                    selected) as Hs.
      eapply StronglySorted_ind with
        (P := fun l => StronglySorted (fun a b => key b <= key a) l);
        [constructor| |exact Hs].
      intros a l _ IH Ha. constructor; [exact IH|].
      eapply Forall_impl; [exact Ha|]. intros b Hb. simpl in Hb. lia.
    + intros k.
      rewrite (List.filter_ext (fun t => key t =? k) (fun t => - key t =? - k))
        by (intros t; apply eq_iff_eq_true; rewrite !Z.eqb_eq; lia).
      rewrite (sort_stable (compareTasks filters) (fun t => - key t) Hcmp (- k)).
      rewrite <- (List.filter_ext (fun t => key t =? k)
                    (fun t => - key t =? - k))
        by (intros t; apply eq_iff_eq_true; rewrite !Z.eqb_eq; lia).
      apply sublist_List_filter, Hsub.
Qed.

(** Alta, Baixa, Alta, Média in the store come out as Alta, Alta, Média,
    Baixa, the two Alta tasks in store order. *)
Lemma taskList_orders_by_number_and_is_stable_witness :
  let task id i := TaskEntity.mk id "t" None None None i Pendente 0 0 in
  let out := [task "A" Alta; task "C" Alta; task "D" Média; task "B" Baixa] in
  StronglySorted
    (fun a b => sortNumber "Importância" a <= sortNumber "Importância" b) out
  /\ List.filter (fun t => sortNumber "Importância" t =? 1) out
     `sublist_of` [task "A" Alta; task "C" Alta].
Proof.
  intros task out.
  destruct (taskList_orders_by_number_and_is_stable sampleClock (fun s => s)
              (TaskListFilters.mk "Todas" "Todas" "Todas" "Importância"
                 "Crescente" None)
              (storeOf [task "A" Alta; task "B" Baixa; task "C" Alta;
                        task "D" Média])
              out (or_introl eq_refl) eq_refl) as [Hsorted Hstable].
  split; [exact Hsorted | exact (Hstable 1)].
Defined.

(** ** The history query *)

Lemma filter_filter_andb {A} (f g : A -> bool) (l : list A) :
  List.filter g (List.filter f l) = List.filter (fun x => f x && g x) l.
Proof.
  induction l as [|x l IH]; simpl; [reflexivity|].
  destruct (f x); simpl; [destruct (g x)|]; rewrite IH; reflexivity.
Qed.

Lemma optional_filter_stage (filter : option string)
    (value : HistoryEntry.t -> string) (entries : list HistoryEntry.t) :
  match present filter with
  | Some f =>
      if negb (String.eqb f "Todas")
      then List.filter (fun e => String.eqb (value e) f) entries
      else entries
  | None => entries
  end
  = List.filter (fun e => filterPasses filter (value e)) entries.
Proof.
  unfold filterPasses. destruct (present filter) as [f|].
  - destruct (String.eqb f "Todas"); simpl; [|reflexivity].
    symmetry. apply forallb_filter_id, forallb_forall. reflexivity.
  - symmetry. apply forallb_filter_id, forallb_forall. reflexivity.
Qed.

(** X11. [taskGetHistory] changes nothing and returns exactly the
    entries of the log that belong to the task and pass the two optional
    filters (an absent, empty or 'Todas' filter lets everything through),
    most recent first; entries with the same timestamp stay in the order
    in which they were logged. *)
Theorem taskGetHistory_returns_the_matching_entries_latest_first
    (idTarefa : string) (filterTipo filterOrigem : option string) (w : World) :
  exists out : list HistoryEntry.t,
    taskGetHistory idTarefa filterTipo filterOrigem w = (Returned out, w)
    /\ Permutation out
         (List.filter (historyMatches idTarefa filterTipo filterOrigem)
            (history w))
    /\ StronglySorted
         (fun a b => HistoryEntry.dataAlteracao b <= HistoryEntry.dataAlteracao a)
         out
    /\ (forall k : Z,
          List.filter (fun e => HistoryEntry.dataAlteracao e =? k) out
          = List.filter (fun e => HistoryEntry.dataAlteracao e =? k)
              (List.filter (historyMatches idTarefa filterTipo filterOrigem)
                 (history w))).
Proof.
  unfold taskGetHistory, bind, getHistory, ret; simpl.
  rewrite (optional_filter_stage filterTipo HistoryEntry.tipoAlteracao).
  rewrite (optional_filter_stage filterOrigem HistoryEntry.origemAlteracao).
  rewrite !filter_filter_andb.
  rewrite (List.filter_ext _ (historyMatches idTarefa filterTipo filterOrigem))
    by (intros e; unfold historyMatches; apply andb_assoc).
  set (selected := List.filter _ (history w)).
  set (cmp := fun a b : HistoryEntry.t =>
                Some (HistoryEntry.dataAlteracao b - HistoryEntry.dataAlteracao a)).
  assert (Hcmp : forall x y,
            comesAfter cmp x y
            = (- HistoryEntry.dataAlteracao y <? - HistoryEntry.dataAlteracao x)).
  { intros x y. unfold comesAfter, cmp.
    apply eq_iff_eq_true. rewrite !Z.ltb_lt. lia. }
  eexists. split; [reflexivity|]. split; [apply sort_Permutation|]. split.
  - pose proof (sort_ranked cmp (fun e => - HistoryEntry.dataAlteracao e) Hcmp
                  selected) as Hs.
    eapply StronglySorted_ind with
      (P := fun l => StronglySorted
                       (fun a b => HistoryEntry.dataAlteracao b
                                   <= HistoryEntry.dataAlteracao a) l);
      [constructor| |exact Hs].
    intros a l _ IH Ha. constructor; [exact IH|].
    eapply Forall_impl; [exact Ha|]. intros b Hb. simpl in Hb. lia.
  - intros k.
    rewrite !(List.filter_ext (fun e => HistoryEntry.dataAlteracao e =? k)
                (fun e => - HistoryEntry.dataAlteracao e =? - k))
      by (intros t; apply eq_iff_eq_true; rewrite !Z.eqb_eq; lia).
    apply (sort_stable cmp (fun e => - HistoryEntry.dataAlteracao e) Hcmp).
Qed.

Lemma taskList_returns_a_selection_of_the_store_witness :
  exists out : list TaskEntity.t,
    (taskList sampleClock (fun s => s) (byDueDate "Todas" "Crescente")
       (storeOf [sampleTask "B" None None Pendente;
                 sampleTask "A" (Some "03/11/2026") None Pendente])).1
    = Returned out
    /\ Permutation out [sampleTask "B" None None Pendente;
                        sampleTask "A" (Some "03/11/2026") None Pendente].
Proof.
  destruct (taskList_returns_a_selection_of_the_store sampleClock (fun s => s)
              (byDueDate "Todas" "Crescente")
              (storeOf [sampleTask "B" None None Pendente;
                        sampleTask "A" (Some "03/11/2026") None Pendente]))
    as (out & sel & w' & Hrun & _ & _ & _ & _ & Hall).
  exists out. split; [rewrite Hrun; reflexivity|].
  apply Hall; reflexivity.
Defined.

(** ** Dates and times that the request schemas admit *)

Lemma digit_is_not_a_separator (c : ascii) :
  Js.isDigit c = true -> Ascii.eqb c "/" = false /\ Ascii.eqb c ":" = false.
Proof.
  destruct c as [[] [] [] [] [] [] [] []]; intros H;
    first [discriminate H | split; reflexivity].
Qed.

Lemma digit_value (c : ascii) :
  Js.isDigit c = true -> 0 <= Z.of_nat (nat_of_ascii c - 48) <= 9.
Proof.
  unfold Js.isDigit. intros H. apply andb_true_iff in H as [H1 H2].
  apply Nat.leb_le in H1, H2. lia.
Qed.

Lemma two_digits (a b : ascii) :
  Js.isDigit a = true -> Js.isDigit b = true ->
  exists n, Js.Number_ (String a (String b EmptyString)) = Some n /\ 0 <= n <= 99.
Proof.
  intros Ha Hb. unfold Js.Number_; simpl. rewrite Ha, Hb.
  eexists. split; [reflexivity|].
  pose proof (digit_value a Ha). pose proof (digit_value b Hb). lia.
Qed.

Lemma four_digits (a b c d : ascii) :
  Js.isDigit a = true -> Js.isDigit b = true ->
  Js.isDigit c = true -> Js.isDigit d = true ->
  exists n,
    Js.Number_ (String a (String b (String c (String d EmptyString)))) = Some n
    /\ 0 <= n <= 9999.
Proof.
  intros Ha Hb Hc Hd. unfold Js.Number_; simpl. rewrite Ha, Hb, Hc, Hd.
  eexists. split; [reflexivity|].
  pose proof (digit_value a Ha). pose proof (digit_value b Hb).
  pose proof (digit_value c Hc). pose proof (digit_value d Hd). lia.
Qed.

Lemma monthStart_bounds (leap : bool) (m : Z) :
  0 <= JsDate.monthStart leap m <= 335.
Proof.
  unfold JsDate.monthStart.
  destruct leap, m as [|p|p]; try lia;
    repeat (destruct p as [p|p|]; try lia).
Qed.

(** A date that matches the pattern reads as three numbers in range. *)
Lemma matchesDate_reads (s : string) :
  matchesDate s = true ->
  exists day month year,
    dayMonthYear s = (Some day, Some month, Some year)
    /\ 0 <= day <= 99 /\ 0 <= month <= 99 /\ 0 <= year <= 9999.
Proof.
  unfold matchesDate.
  destruct s as [|d1 [|d2 [|s1 [|m1 [|m2 [|s2 [|y1 [|y2 [|y3 [|y4 [|? ?]]]]]]]]]]];
    try discriminate.
  rewrite !andb_true_iff.
  intros [[[[[[[[[D1 D2] S1] M1] M2] S2] Y1] Y2] Y3] Y4].
  apply Ascii.eqb_eq in S1, S2. subst s1 s2.
  destruct (two_digits d1 d2 D1 D2) as (day & Hday & Bday).
  destruct (two_digits m1 m2 M1 M2) as (month & Hmonth & Bmonth).
  destruct (four_digits y1 y2 y3 y4 Y1 Y2 Y3 Y4) as (year & Hyear & Byear).
  exists day, month, year. split; [|auto].
  unfold dayMonthYear. simpl Js.split.
  destruct (digit_is_not_a_separator d1 D1) as [-> _].
  destruct (digit_is_not_a_separator d2 D2) as [-> _].
  destruct (digit_is_not_a_separator m1 M1) as [-> _].
  destruct (digit_is_not_a_separator m2 M2) as [-> _].
  destruct (digit_is_not_a_separator y1 Y1) as [-> _].
  destruct (digit_is_not_a_separator y2 Y2) as [-> _].
  destruct (digit_is_not_a_separator y3 Y3) as [-> _].
  destruct (digit_is_not_a_separator y4 Y4) as [-> _].
  simpl. unfold Js.element; simpl. rewrite Hday, Hmonth, Hyear. reflexivity.
Qed.

Lemma matchesTime_reads (s : string) :
  matchesTime s = true ->
  exists hours minutes,
    hoursMinutes s = (Some hours, Some minutes)
    /\ 0 <= hours <= 99 /\ 0 <= minutes <= 99.
Proof.
  unfold matchesTime.
  destruct s as [|h1 [|h2 [|s1 [|m1 [|m2 [|? ?]]]]]]; try discriminate.
  rewrite !andb_true_iff. intros [[[[H1 H2] S1] M1] M2].
  apply Ascii.eqb_eq in S1. subst s1.
  destruct (two_digits h1 h2 H1 H2) as (hours & Hh & Bh).
  destruct (two_digits m1 m2 M1 M2) as (minutes & Hm & Bm).
  exists hours, minutes. split; [|auto].
  unfold hoursMinutes. simpl Js.split.
  destruct (digit_is_not_a_separator h1 H1) as [_ ->].
  destruct (digit_is_not_a_separator h2 H2) as [_ ->].
  destruct (digit_is_not_a_separator m1 M1) as [_ ->].
  destruct (digit_is_not_a_separator m2 M2) as [_ ->].
  simpl. unfold Js.element; simpl. rewrite Hh, Hm. reflexivity.
Qed.

Lemma MakeDay_bounds (yr m d : Z) :
  0 <= yr <= 9999 -> -1 <= m <= 98 -> 0 <= d <= 99 ->
  -1000000 <= JsDate.MakeDay yr m d <= 4000000.
Proof.
  intros Hy Hm Hd. unfold JsDate.MakeDay, JsDate.DayFromYear.
  pose proof (monthStart_bounds (JsDate.InLeapYear (yr + m / 12)) (m mod 12)).
  generalize dependent (JsDate.monthStart (JsDate.InLeapYear (yr + m / 12))
                          (m mod 12)).
  intros ms Hms. Z.div_mod_to_equations. lia.
Qed.

Lemma matchesDate_dueDateOf (s : string) :
  matchesDate s = true ->
  exists d, dueDateOf s = Some d /\ -86400000000000 <= d <= 345600000000000.
Proof.
  intros Hs. destruct (matchesDate_reads s Hs)
    as (day & month & year & Hread & Bd & Bm & By).
  unfold dueDateOf. rewrite Hread. simpl JsDate.minus. unfold JsDate.ofYMD.
  set (yr := if (0 <=? year) && (year <=? 99) then 1900 + year else year).
  assert (Hyr : 0 <= yr <= 9999).
  { subst yr. destruct ((0 <=? year) && (year <=? 99)) eqn:E; [|lia].
    apply andb_true_iff in E as [E1 E2]. apply Z.leb_le in E1, E2. lia. }
  pose proof (MakeDay_bounds yr (month - 1) day Hyr) as Hb.
  unfold JsDate.TimeClip, JsDate.MakeDate, JsDate.MakeTime, JsDate.msPerDay.
  assert (Hin : (Z.abs (JsDate.MakeDay yr (month - 1) day * 86400000
                        + (0 * JsDate.msPerHour + 0 * JsDate.msPerMinute
                           + 0 * JsDate.msPerSecond + 0))
                 <=? 8640000000000000) = true) by (apply Z.leb_le; lia).
  rewrite Hin. eexists. split; [reflexivity|]. lia.
Qed.

(** X12. A due-date that matches the pattern of the request schemas is
    never an invalid date for the service: it denotes the midnight of a
    day, whatever its digits are. With it, and a due-time that is absent
    or matches the time pattern, the due-moment that the sweep compares
    with the clock is always defined, and lies between that midnight and
    the midnight plus 99 h 99 min. *)
Theorem schema_dates_always_denote_a_moment (t : TaskEntity.t) (s : string) :
  matchesDate s = true ->
  optionalField matchesTime (TaskEntity.horaVencimento t) = true ->
  exists d m : Z,
    dueDateOf s = Some d
    /\ JsDate.Day d * JsDate.msPerDay = d
    /\ sweepDueDate t s = Some m
    /\ d <= m <= d + 99 * 3600000 + 99 * 60000
    /\ (present (TaskEntity.horaVencimento t) = None -> m = d + 86399000).
Proof.
  intros Hs Ht. destruct (matchesDate_dueDateOf s Hs) as (d & Hd & Bd).
  destruct (dueDateOf_midnight s d Hd) as (Hmid & _).
  pose proof (sweepDueDate_moment t s d Hd) as Hm.
  destruct (present (TaskEntity.horaVencimento t)) as [h|] eqn:Hp.
  - apply present_Some in Hp as [Hh _]. rewrite Hh in Ht. simpl in Ht.
    destruct (matchesTime_reads h Ht) as (hh & mm & Hread & Bh & Bmm).
    specialize (Hm hh mm Hread). unfold JsDate.TimeClip in Hm.
    assert (Hin : (Z.abs (d + hh * 3600000 + mm * 60000)
                   <=? 8640000000000000) = true) by (apply Z.leb_le; lia).
    rewrite Hin in Hm. exists d, (d + hh * 3600000 + mm * 60000).
    repeat split; try assumption; try lia. discriminate.
  - unfold JsDate.TimeClip in Hm.
    assert (Hin : (Z.abs (d + 86399000) <=? 8640000000000000) = true)
      by (apply Z.leb_le; lia).
    rewrite Hin in Hm. exists d, (d + 86399000).
    repeat split; try assumption; lia.
Qed.

(** The 31st of February 2026 is read as the 3rd of March. *)
Lemma schema_dates_always_denote_a_moment_witness :
  exists d m : Z,
    dueDateOf "31/02/2026" = Some d
    /\ JsDate.civil (JsDate.Day d) = (2026, 2, 3)
    /\ sweepDueDate (sampleTask "A" (Some "31/02/2026") (Some "10:30") Pendente)
         "31/02/2026" = Some m
    /\ m = d + 10 * 3600000 + 30 * 60000.
Proof.
  destruct (schema_dates_always_denote_a_moment
              (sampleTask "A" (Some "31/02/2026") (Some "10:30") Pendente)
              "31/02/2026" eq_refl eq_refl)
    as (d & m & Hd & _ & Hm & _).
  exists d, m. split; [exact Hd|].
  injection Hd as <-. injection Hm as <-. repeat split.
Defined.

(** ** The list handler *)

Lemma enumOrDefault_Some (allowed : list string) (fallback : string)
    (s r : string) :
  enumOrDefault allowed fallback (Some s) = Some r ->
  r = s /\ In s allowed.
Proof.
  unfold enumOrDefault. destruct (existsb (String.eqb s) allowed) eqn:E;
    [|discriminate].
  intros [= <-]. split; [reflexivity|].
  apply existsb_exists in E as (x & Hx & Heq).
  apply String.eqb_eq in Heq. subst x. exact Hx.
Qed.

(** An admitted query: the sweep runs, then the listing, and the answer
    is the sorted selection. *)
Lemma listHandler_runs (clock : nat -> Z) (uuid : nat -> string)
    (toLowerCase : string -> string)
    (query : ListQuery.t) (filters : TaskListFilters.t) (w : World) :
  parseListQuery query = Some filters ->
  exists (w1 w2 : World) (selected : list TaskEntity.t),
    taskCheckOverdue clock uuid w = (Returned tt, w1)
    /\ taskList clock toLowerCase filters w1
       = (Returned (sort (compareTasks filters) selected), w2)
    /\ listHandler clock uuid toLowerCase query w
       = (Sent 200 (sort (compareTasks filters) selected), w2).
Proof.
  intros Hparse.
  destruct (taskCheckOverdue_runs clock uuid w)
    as (ts' & added & d' & u' & Hsweep & _).
  destruct (taskList_selects clock toLowerCase filters
              (mkWorld ts' (history w ++ added) d' u'))
    as (selected & w2 & Hlist & _).
  eexists _, w2, selected. split; [exact Hsweep|]. split; [exact Hlist|].
  unfold listHandler. rewrite Hparse. unfold bind. rewrite Hsweep, Hlist.
  reflexivity.
Qed.

(** X13. Through [listHandler] a status filter other than 'Todas'
    matches no task: the query schema admits 'Pendentes', 'Concluídas'
    and 'Vencidas' while the service compares the filter with the
    statuses 'Pendente', 'Concluída' and 'Vencida', so every admitted
    query with such a filter is answered with the empty list, whatever
    the store holds; a query that the schema rejects is forwarded as a
    ZodError and changes nothing. *)
Theorem listHandler_status_filter_matches_no_task
    (clock : nat -> Z) (uuid : nat -> string) (toLowerCase : string -> string)
    (query : ListQuery.t) (w : World) (s : string) :
  ListQuery.filterStatus query = Some s ->
  s <> "Todas" ->
  match parseListQuery query with
  | Some _ => (listHandler clock uuid toLowerCase query w).1 = Sent 200 []
  | None => listHandler clock uuid toLowerCase query w = (ForwardedZodError, w)
  end.
Proof.
  intros Hs Hne.
  destruct (parseListQuery query) as [filters|] eqn:Hparse;
    [|unfold listHandler; rewrite Hparse; reflexivity].
  assert (Hfs : TaskListFilters.filterStatus filters = s
                /\ In s ["Todas"; "Pendentes"; "Concluídas"; "Vencidas"]).
  { unfold parseListQuery in Hparse. rewrite Hs in Hparse.
    destruct (enumOrDefault _ "Todas" (Some s)) as [r|] eqn:E1; [|discriminate].
    apply enumOrDefault_Some in E1 as [-> Hin].
    destruct (enumOrDefault _ _ (ListQuery.filterImportance query));
      [|discriminate].
    destruct (enumOrDefault _ _ (ListQuery.filterPeriod query)); [|discriminate].
    destruct (enumOrDefault _ _ (ListQuery.orderBy query)); [|discriminate].
    destruct (enumOrDefault _ _ (ListQuery.orderDirection query));
      [|discriminate].
    injection Hparse as <-. split; [reflexivity|exact Hin]. }
  destruct Hfs as [Hfs Hin].
  destruct (taskCheckOverdue_runs clock uuid w)
    as (ts' & added & d' & u' & Hsweep & _).
  destruct (taskList_selects clock toLowerCase filters
              (mkWorld ts' (history w ++ added) d' u'))
    as (selected & w2 & Hlist & _ & _ & _ & Hsound & _).
  unfold listHandler. rewrite Hparse. unfold bind. rewrite Hsweep, Hlist. simpl.
  destruct selected as [|x selected]; [reflexivity|].
  exfalso. destruct (Hsound x (or_introl eq_refl)) as (Hst & _).
  rewrite Hfs in Hst. specialize (Hst Hne).
  destruct Hin as [<-|[<-|[<-|[<-|[]]]]]; [contradiction|..];
    destruct (TaskEntity.status x); discriminate Hst.
Qed.

(** The store holds a Pendente task and the filter asks for 'Pendentes'. *)
Lemma listHandler_status_filter_matches_no_task_witness :
  (listHandler sampleClock sampleUuid (fun s => s)
     (ListQuery.mk (Some "Pendentes") None None None None None)
     (storeOf [sampleTask "A" None None Pendente])).1
  = Sent 200 [].
Proof.
  apply (listHandler_status_filter_matches_no_task sampleClock sampleUuid
           (fun s => s)
           (ListQuery.mk (Some "Pendentes") None None None None None)
           (storeOf [sampleTask "A" None None Pendente]) "Pendentes" eq_refl).
  discriminate.
Defined.

(** X14. [listHandler] sweeps before it lists. For an admitted query it
    always answers 200, never forwards an error, and when its first clock
    reading is [now], no task left in the store and no task in the answer
    is overdue at [now]; every task in the answer is in the store as the
    sweep left it; the history is extended and the store keeps its
    identifiers. *)
Theorem listHandler_lists_a_swept_store
    (clock : nat -> Z) (uuid : nat -> string) (toLowerCase : string -> string)
    (query : ListQuery.t) (filters : TaskListFilters.t) (w : World) :
  parseListQuery query = Some filters ->
  exists (out : list TaskEntity.t) (w' : World) (added : list HistoryEntry.t),
    listHandler clock uuid toLowerCase query w = (Sent 200 out, w')
    /\ (forall t, t ∈ tasks w' -> ~ overdueAt (clock (dateReads w)) t)
    /\ (forall t, t ∈ out ->
          t ∈ tasks w' /\ ~ overdueAt (clock (dateReads w)) t)
    /\ TaskEntity.id <$> tasks w' = TaskEntity.id <$> tasks w
    /\ history w' = history w ++ added
    /\ Forall isSweepEntry added.
Proof.
  intros Hparse.
  destruct (taskCheckOverdue_runs clock uuid w)
    as (ts' & added & d' & u' & Hsweep & _ & Hrel & _ & Hall).
  destruct (taskList_selects clock toLowerCase filters
              (mkWorld ts' (history w ++ added) d' u'))
    as (selected & w2 & Hlist & Hsub & Ht & Hh & _).
  simpl in Hsub, Ht, Hh.
  assert (Hclean : forall t, t ∈ ts' -> ~ overdueAt (clock (dateReads w)) t).
  { intros t Hin. apply list_elem_of_lookup in Hin as [i Hi].
    destruct (Forall2_lookup_r _ _ _ _ _ Hrel Hi) as (t0 & _ & Hsw).
    eapply swept_not_overdue, Hsw. }
  exists (sort (compareTasks filters) selected), w2, added.
  split.
  { unfold listHandler. rewrite Hparse. unfold bind.
    rewrite Hsweep, Hlist. reflexivity. }
  rewrite Ht, Hh. split; [exact Hclean|]. split.
  - intros t Hin. apply list_elem_of_In in Hin.
    apply (Permutation_in _ (sort_Permutation _ selected)) in Hin.
    apply list_elem_of_In in Hin.
    assert (t ∈ ts') by (eapply elem_of_sublist; eauto). auto.
  - split; [eapply swept_ids, Hrel|]. split; [reflexivity|exact Hall].
Qed.

(** The scenario of a task due yesterday: it is listed as Vencida. *)
Lemma listHandler_lists_a_swept_store_witness :
  exists (out : list TaskEntity.t) (w' : World),
    listHandler sampleClock sampleUuid (fun s => s)
      (ListQuery.mk None None (Some "Vencidas") None None None)
      (storeOf [sampleTask "A" (Some "01/11/2026") None Pendente])
    = (Sent 200 out, w')
    /\ TaskEntity.status <$> out = [Vencida].
Proof.
  destruct (listHandler_lists_a_swept_store sampleClock sampleUuid (fun s => s)
              (ListQuery.mk None None (Some "Vencidas") None None None)
              (byDueDate "Vencidas" "Crescente")
              (storeOf [sampleTask "A" (Some "01/11/2026") None Pendente])
              eq_refl)
    as (out & w' & added & Hrun & _).
  exists out, w'. split; [exact Hrun|].
  injection Hrun as <- _. reflexivity.
Defined.

(** ** The create and update handlers *)

Lemma parseTaskBody_Some (body : TaskBody.t) (data : ParsedBody.t) :
  parseTaskBody body = Some data ->
  TaskBody.titulo body = Some (ParsedBody.titulo data)
  /\ (1 <= Js.jsLength (ParsedBody.titulo data) <= 100)%nat
  /\ optionalField (fun d => (Js.jsLength d <=? 500)%nat)
       (ParsedBody.descricao data) = true
  /\ optionalField matchesDate (ParsedBody.dataVencimento data) = true
  /\ optionalField matchesTime (ParsedBody.horaVencimento data) = true.
Proof.
  unfold parseTaskBody.
  destruct (TaskBody.titulo body) as [titulo|]; [|discriminate].
  destruct (parseImportance (TaskBody.importancia body)); [|discriminate].
  destruct (_ && _) eqn:E; [|discriminate]. intros [= <-]. simpl.
  rewrite !andb_true_iff in E. destruct E as [[[[E1 E2] E3] E4] E5].
  apply Nat.leb_le in E1, E2. auto.
Qed.

(** After the body schema, the only check of the service that can still
    fail is the one on a title made of white space. *)
Lemma validationError_after_schema (titulo : string) (descricao : option string) :
  (Js.jsLength titulo <= 100)%nat ->
  optionalField (fun d => (Js.jsLength d <=? 500)%nat) descricao = true ->
  validationError titulo (present descricao)
  = if Js.trimIsEmpty titulo then Some "tituloObrigatorio" else None.
Proof.
  intros Hlen Hdesc. unfold validationError.
  assert (Hblank : negb (Js.truthy (Some titulo)) || Js.trimIsEmpty titulo
                   = Js.trimIsEmpty titulo).
  { destruct titulo; reflexivity. }
  rewrite Hblank. destruct (Js.trimIsEmpty titulo); [reflexivity|].
  assert (Hlong : (100 <? Js.jsLength titulo)%nat = false)
    by (apply Nat.ltb_ge; exact Hlen).
  rewrite Hlong.
  destruct (present (present descricao)) as [d|] eqn:Hp; [|reflexivity].
  apply present_Some in Hp as [Hp _]. apply present_Some in Hp as [-> _].
  simpl in Hdesc. apply Nat.leb_le in Hdesc.
  assert (Hd : (500 <? Js.jsLength d)%nat = false)
    by (apply Nat.ltb_ge; exact Hdesc).
  rewrite Hd. reflexivity.
Qed.

Lemma dueDateInPast_runs (clock : nat -> Z) (dataVencimento : option string)
    (w : World) :
  exists (past : bool) (w1 : World),
    dueDateInPast clock dataVencimento w = (Returned past, w1)
    /\ tasks w1 = tasks w /\ history w1 = history w
    /\ uuidReads w1 = uuidReads w
    /\ dateReads w1 = match present dataVencimento with
                      | Some _ => S (dateReads w)
                      | None => dateReads w
                      end
    /\ past = match present dataVencimento with
              | Some s => JsDate.lt (dueDateOf s)
                            (JsDate.startOfDay (clock (dateReads w)))
              | None => false
              end.
Proof.
  unfold dueDateInPast. destruct (present dataVencimento) as [s|].
  - eexists _, _. split; [reflexivity|]. simpl. repeat split.
  - exists false, w. repeat split.
Qed.

(** X15. Every way [createHandler] can end. It answers 201 with a
    Pendente task appended to the store and one 'Criação' entry, and then
    the title is not blank and has at most 100 code units, the
    description at most 500, the due-date matches the date pattern and
    does not precede the day of the clock reading, the due-time matches
    the time pattern. Or it refuses with 400, as 'VALIDATION_ERROR' or as
    'dataVencimentoPassado', and the store and the history are as before.
    Or it forwards 'tituloObrigatorio' of the service, which happens only
    for a title of white space that the schema let through, again with
    nothing changed. The service's two length errors never come out of
    it. *)
Theorem createHandler_outcomes
    (clock : nat -> Z) (uuid : nat -> string) (body : TaskBody.t) (w : World) :
  match createHandler clock uuid body w with
  | (Sent code t, w') =>
      code = 201
      /\ TaskEntity.status t = Pendente
      /\ tasks w' = tasks w ++ [t]
      /\ (exists e, history w' = history w ++ [e]
                    /\ HistoryEntry.tipoAlteracao e = "Criação"
                    /\ HistoryEntry.idTarefa e = TaskEntity.id t)
      /\ Js.trimIsEmpty (TaskEntity.titulo t) = false
      /\ (Js.jsLength (TaskEntity.titulo t) <= 100)%nat
      /\ (forall d, TaskEntity.descricao t = Some d ->
            (Js.jsLength d <= 500)%nat)
      /\ (forall s, TaskEntity.dataVencimento t = Some s ->
            matchesDate s = true
            /\ JsDate.lt (dueDateOf s)
                 (JsDate.startOfDay (clock (dateReads w))) = false)
      /\ (forall h, TaskEntity.horaVencimento t = Some h -> matchesTime h = true)
  | (Refused code reason, w') =>
      code = 400
      /\ (reason = "VALIDATION_ERROR" \/ reason = "dataVencimentoPassado")
      /\ tasks w' = tasks w /\ history w' = history w
  | (Forwarded e, w') =>
      e = "tituloObrigatorio"
      /\ (exists titulo, TaskBody.titulo body = Some titulo
                         /\ Js.trimIsEmpty titulo = true
                         /\ (1 <= Js.jsLength titulo)%nat)
      /\ tasks w' = tasks w /\ history w' = history w
  | (ForwardedZodError, _) => False
  end.
Proof.
  unfold createHandler.
  destruct (parseTaskBody body) as [data|] eqn:Hparse; [|simpl; auto].
  destruct (parseTaskBody_Some body data Hparse) as (Ht & Hlen & Hd & Hdv & Hhv).
  destruct (dueDateInPast_runs clock (ParsedBody.dataVencimento data) w)
    as (past & w1 & Hrun & Htasks & Hhist & _ & _ & Hpast).
  rewrite Hrun. destruct past; [simpl; auto|].
  unfold taskCreate; simpl.
  rewrite validationError_after_schema by (first [lia | exact Hd]).
  destruct (Js.trimIsEmpty (ParsedBody.titulo data)) eqn:Hblank; simpl.
  - split; [reflexivity|]. split; [|auto].
    exists (ParsedBody.titulo data). split; [exact Ht|]. split; [exact Hblank|lia].
  - rewrite Htasks, Hhist. split; [reflexivity|]. split; [reflexivity|].
    split; [reflexivity|]. split; [eexists; repeat split|].
    split; [exact Hblank|]. split; [lia|]. split; [|split].
    + intros d Hp. apply present_Some in Hp as [Hp _]. rewrite Hp in Hd.
      simpl in Hd. apply Nat.leb_le, Hd.
    + intros s Hp. rewrite Hp in Hpast.
      apply present_Some in Hp as [Hp _]. rewrite Hp in Hdv.
      split; [exact Hdv|]. symmetry. exact Hpast.
    + intros h Hp. apply present_Some in Hp as [Hp _]. rewrite Hp in Hhv.
      exact Hhv.
Qed.

(** A title of one space passes the schema and is refused by the service;
    a due-date of yesterday is refused by the handler. *)
Example createHandler_refusals :
  (createHandler sampleClock sampleUuid
     (TaskBody.mk (Some " ") None None None (Some "Alta")) emptyWorld).1
  = Forwarded "tituloObrigatorio"
  /\ (createHandler sampleClock sampleUuid
        (TaskBody.mk (Some "Pagar") None (Some "01/11/2026") None (Some "Alta"))
        emptyWorld).1
     = Refused 400 "dataVencimentoPassado".
Proof. split; reflexivity. Qed.

(** X16. [updateHandler] checks the request before it looks the task
    up. A path parameter that is not a uuid, or a body that the schema
    rejects, is refused with 400 'VALIDATION_ERROR' and nothing is read
    or changed. For an admitted request whose due-date precedes the day
    of the clock reading the answer is 400 'dataVencimentoPassado',
    whether or not a task has the identifier. Only an admitted request
    with an acceptable due-date reaches the lookup, and then an unknown
    identifier is answered with 404 'tarefaNaoEncontrada'. In all these
    cases the store and the history are unchanged. *)
Theorem updateHandler_checks_before_lookup
    (clock : nat -> Z) (uuid : nat -> string) (isUuid : string -> bool)
    (paramId : string) (body : TaskBody.t) (w : World) :
  (isUuid paramId = false \/ parseTaskBody body = None ->
   updateHandler clock uuid isUuid paramId body w
   = (Refused 400 "VALIDATION_ERROR", w))
  /\ (forall (data : ParsedBody.t) (s : string),
        isUuid paramId = true ->
        parseTaskBody body = Some data ->
        ParsedBody.dataVencimento data = Some s ->
        let r := updateHandler clock uuid isUuid paramId body w in
        (JsDate.lt (dueDateOf s) (JsDate.startOfDay (clock (dateReads w))) = true ->
         r.1 = Refused 400 "dataVencimentoPassado"
         /\ tasks r.2 = tasks w /\ history r.2 = history w))
  /\ (forall data : ParsedBody.t,
        isUuid paramId = true ->
        parseTaskBody body = Some data ->
        (forall s, ParsedBody.dataVencimento data = Some s ->
           JsDate.lt (dueDateOf s) (JsDate.startOfDay (clock (dateReads w)))
           = false) ->
        (forall t, t ∈ tasks w -> TaskEntity.id t <> paramId) ->
        let r := updateHandler clock uuid isUuid paramId body w in
        r.1 = Refused 404 "tarefaNaoEncontrada"
        /\ tasks r.2 = tasks w /\ history r.2 = history w).
Proof.
  split; [|split].
  - unfold updateHandler. intros [-> | Hparse]; [reflexivity|].
    rewrite Hparse. destruct (negb (isUuid paramId)); reflexivity.
  - intros data s Hid Hparse Hs r Hlt. subst r. unfold updateHandler.
    rewrite Hid, Hparse. simpl negb. cbv iota.
    destruct (parseTaskBody_Some body data Hparse) as (_ & _ & _ & Hdv & _).
    rewrite Hs in Hdv. simpl in Hdv.
    destruct (dueDateInPast_runs clock (ParsedBody.dataVencimento data) w)
      as (past & w1 & Hrun & Htasks & Hhist & _ & _ & Hpast).
    rewrite Hrun.
    assert (Hp : present (ParsedBody.dataVencimento data) = Some s).
    { rewrite Hs. apply present_Some. split; [reflexivity|].
      intros ->. discriminate Hdv. }
    rewrite Hp, Hlt in Hpast. subst past. simpl. auto.
  - intros data Hid Hparse Hok Hnew r. subst r. unfold updateHandler.
    rewrite Hid, Hparse. simpl negb. cbv iota.
    destruct (dueDateInPast_runs clock (ParsedBody.dataVencimento data) w)
      as (past & w1 & Hrun & Htasks & Hhist & _ & _ & Hpast).
    rewrite Hrun.
    assert (past = false) as ->.
    { rewrite Hpast.
      destruct (present (ParsedBody.dataVencimento data)) as [s|] eqn:Hp;
        [|reflexivity].
      apply present_Some in Hp as [Hp _]. apply Hok, Hp. }
    assert (Hnone : list_find (fun x => TaskEntity.id x = paramId) (tasks w1)
                    = None).
    { apply list_find_None, Forall_forall. rewrite Htasks. exact Hnew. }
    unfold taskUpdate, bind, getTasks; simpl. rewrite Hnone. simpl. auto.
Qed.

(** An unknown identifier with a due-date of yesterday is told about the
    date, not about the task. *)
Lemma updateHandler_checks_before_lookup_witness :
  let r := updateHandler sampleClock sampleUuid (fun _ => true) "Z"
             (TaskBody.mk (Some "Pagar") None (Some "01/11/2026") None
                (Some "Alta"))
             (storeOf [sampleTask "A" None None Pendente]) in
  r.1 = Refused 400 "dataVencimentoPassado"
  /\ tasks r.2 = [sampleTask "A" None None Pendente] /\ history r.2 = [].
Proof.
  destruct (updateHandler_checks_before_lookup sampleClock sampleUuid
              (fun _ => true) "Z"
              (TaskBody.mk (Some "Pagar") None (Some "01/11/2026") None
                 (Some "Alta"))
              (storeOf [sampleTask "A" None None Pendente]))
    as (_ & Hpast & _).
  apply (Hpast (ParsedBody.mk "Pagar" None (Some "01/11/2026") None Alta)
           "01/11/2026"); reflexivity.
Defined.

Lemma taskUpdate_invalid (clock : nat -> Z) (uuid : nat -> string)
    (id : string) (data : TaskUpdateRequest.t) (w : World)
    (i : nat) (t : TaskEntity.t) (e : string) :
  list_find (fun x => TaskEntity.id x = id) (tasks w) = Some (i, t) ->
  validationError (TaskUpdateRequest.titulo data)
                  (TaskUpdateRequest.descricao data) = Some e ->
  taskUpdate clock uuid id data w = (Thrown e, w).
Proof.
  intros Hfind Hv. unfold taskUpdate, bind, getTasks; simpl.
  rewrite Hfind, Hv. reflexivity.
Qed.

(** X17. Through [updateHandler] an overdue task never stays overdue
    when the body carries a due-date. For a stored Vencida task and an
    admitted body with a due-date, when the clock readings of the handler
    and of the service fall on the same day, the request is refused
    because the due-date is in the past, or the service rejects a blank
    title, or the answer is 200 with the task reset to Pendente, which is
    then what the store holds under the identifier. *)
Theorem updateHandler_resets_overdue_task_given_a_due_date
    (clock : nat -> Z) (uuid : nat -> string) (isUuid : string -> bool)
    (paramId : string) (body : TaskBody.t) (data : ParsedBody.t) (s : string)
    (w : World) (t : TaskEntity.t) (today : Z) :
  isUuid paramId = true ->
  parseTaskBody body = Some data ->
  ParsedBody.dataVencimento data = Some s ->
  (taskGet paramId w).1 = Returned (Some t) ->
  TaskEntity.status t = Vencida ->
  JsDate.startOfDay (clock (dateReads w)) = Some today ->
  JsDate.startOfDay (clock (S (S (dateReads w)))) = Some today ->
  let r := updateHandler clock uuid isUuid paramId body w in
  r.1 = Refused 400 "dataVencimentoPassado"
  \/ r.1 = Forwarded "tituloObrigatorio"
  \/ exists t' : TaskEntity.t,
       r.1 = Sent 200 t'
       /\ TaskEntity.status t' = Pendente
       /\ (taskGet paramId r.2).1 = Returned (Some t').
Proof.
  intros Hid Hparse Hs Hget Hst Htoday Htoday' r. subst r.
  destruct (parseTaskBody_Some body data Hparse) as (_ & Hlen & Hd & Hdv & _).
  rewrite Hs in Hdv. simpl in Hdv.
  destruct (matchesDate_dueDateOf s Hdv) as (due & Hdue & _).
  assert (Hp : present (ParsedBody.dataVencimento data) = Some s).
  { rewrite Hs. apply present_Some. split; [reflexivity|].
    intros ->. discriminate Hdv. }
  unfold updateHandler. rewrite Hid, Hparse. simpl negb. cbv iota.
  unfold dueDateInPast. rewrite Hp. unfold bind at 1, newDate, ret; simpl.
  rewrite Hdue, Htoday. simpl.
  destruct (due <? today) eqn:Hlt; [left; reflexivity|]. right.
  apply Z.ltb_ge in Hlt.
  set (w1 := mkWorld (tasks w) (history w) (S (dateReads w)) (uuidReads w)).
  set (payload := TaskUpdateRequest.mk _ _ _ _ _).
  assert (Hv : validationError (TaskUpdateRequest.titulo payload)
                 (TaskUpdateRequest.descricao payload)
               = if Js.trimIsEmpty (ParsedBody.titulo data)
                 then Some "tituloObrigatorio" else None).
  { subst payload; simpl. apply validationError_after_schema; [lia|exact Hd]. }
  apply taskGet_found in Hget as [i Hfind].
  destruct (Js.trimIsEmpty (ParsedBody.titulo data)).
  - left. rewrite (taskUpdate_invalid clock uuid paramId payload w1 i t _
                     Hfind Hv). reflexivity.
  - right.
    destruct (taskUpdate_runs clock uuid paramId payload w1 i t Hfind Hv)
      as (fires & d & u & d' & u' & Hfires & Hrun).
    assert (fires = true) as ->.
    { apply Hfires. split; [exact Hst|].
      exists s, due, today. subst payload; simpl.
      apply present_Some in Hp as [_ Hne]. repeat split; assumption. }
    simpl in Hrun. rewrite Hrun. simpl. eexists. split; [reflexivity|].
    split; [reflexivity|].
    erewrite list_find_overwrite; [reflexivity|exact Hfind|]. simpl.
    apply list_find_Some in Hfind as (_ & Hidt & _). exact Hidt.
Qed.

(** An overdue task, due on 1 November, is sent 2 November on that day. *)
Lemma updateHandler_resets_overdue_task_given_a_due_date_witness :
  exists t' : TaskEntity.t,
    (updateHandler sampleClock sampleUuid (fun _ => true) "A"
       (TaskBody.mk (Some "Pagar") None (Some "02/11/2026") None (Some "Alta"))
       (storeOf [sampleTask "A" (Some "01/11/2026") None Vencida])).1
    = Sent 200 t'
    /\ TaskEntity.status t' = Pendente.
Proof.
  destruct (updateHandler_resets_overdue_task_given_a_due_date sampleClock
              sampleUuid (fun _ => true) "A"
              (TaskBody.mk (Some "Pagar") None (Some "02/11/2026") None
                 (Some "Alta"))
              (ParsedBody.mk "Pagar" None (Some "02/11/2026") None Alta)
              "02/11/2026"
              (storeOf [sampleTask "A" (Some "01/11/2026") None Vencida])
              (sampleTask "A" (Some "01/11/2026") None Vencida)
              1793577600000)
    as [H | [H | (t' & H & Hst & _)]].
  1-7: vm_compute; reflexivity.
  - vm_compute in H. discriminate H.
  - vm_compute in H. discriminate H.
  - exists t'. split; assumption.
Defined.

(** ** Deletion and the history handler *)

(** X18. Once a task is deleted through [deleteHandler], its history can
    no longer be read through [getHistoryHandler]. For a stored task
    whose identifier is a uuid, identifiers being distinct, the deletion
    is answered with 200 and logged as one 'Exclusão' entry; after it
    every admitted history request for that identifier is answered with
    404 'tarefaNaoEncontrada', although the log still holds the entries
    of the task, the 'Exclusão' entry among them. *)
Theorem deleted_task_history_is_out_of_reach
    (clock : nat -> Z) (uuid : nat -> string) (isUuid : string -> bool)
    (id : string) (w : World) (t : TaskEntity.t) :
  isUuid id = true ->
  (taskGet id w).1 = Returned (Some t) ->
  NoDup (TaskEntity.id <$> tasks w) ->
  exists (w' : World) (entry : HistoryEntry.t),
    deleteHandler clock uuid isUuid id w = (Sent 200 true, w')
    /\ history w' = history w ++ [entry]
    /\ HistoryEntry.tipoAlteracao entry = "Exclusão"
    /\ HistoryEntry.idTarefa entry = id
    /\ (forall query : HistoryQuery.t,
          parseHistoryQuery query <> None ->
          getHistoryHandler isUuid id query w'
          = (Refused 404 "tarefaNaoEncontrada", w'))
    /\ (forall query : HistoryQuery.t,
          parseHistoryQuery query = None ->
          getHistoryHandler isUuid id query w'
          = (Refused 400 "VALIDATION_ERROR", w'))
    /\ exists logged : list HistoryEntry.t,
         taskGetHistory id None None w' = (Returned logged, w')
         /\ entry ∈ logged.
Proof.
  intros Hid Hget Hnd. apply taskGet_found in Hget as [i Hfind].
  eexists _, _. split.
  { unfold deleteHandler. rewrite Hid. simpl negb. cbv iota.
    rewrite (taskDelete_runs clock uuid id w i t Hfind). reflexivity. }
  simpl. split; [reflexivity|]. split; [reflexivity|]. split; [reflexivity|].
  assert (Hnone : list_find (fun x => TaskEntity.id x = id)
                    (delete i (tasks w)) = None).
  { apply list_find_None, Forall_forall. intros x Hx.
    eapply delete_found_removes_id; eauto. }
  split; [|split].
  - intros query Hq. unfold getHistoryHandler. rewrite Hid. simpl negb. cbv iota.
    destruct (parseHistoryQuery query) as [[ft fo]|]; [|contradiction].
    unfold taskGet, bind, getTasks, ret; simpl. rewrite Hnone. reflexivity.
  - intros query Hq. unfold getHistoryHandler. rewrite Hid, Hq. reflexivity.
  - eexists. split; [reflexivity|].
    apply list_elem_of_In.
    eapply Permutation_in; [symmetry; apply sort_Permutation|].
    apply List.filter_In. split; [|apply String.eqb_refl].
    apply in_or_app. right. left. reflexivity.
Qed.

Lemma deleted_task_history_is_out_of_reach_witness :
  exists w' : World,
    deleteHandler sampleClock sampleUuid (fun _ => true) "A"
      (storeOf [sampleTask "A" None None Pendente]) = (Sent 200 true, w')
    /\ getHistoryHandler (fun _ => true) "A" (HistoryQuery.mk None None) w'
       = (Refused 404 "tarefaNaoEncontrada", w').
Proof.
  destruct (deleted_task_history_is_out_of_reach sampleClock sampleUuid
              (fun _ => true) "A" (storeOf [sampleTask "A" None None Pendente])
              (sampleTask "A" None None Pendente) eq_refl eq_refl)
    as (w' & entry & Hrun & _ & _ & _ & Hgone & _).
  - simpl. apply NoDup_singleton.
  - exists w'. split; [exact Hrun|]. apply Hgone. discriminate.
Defined.

(** ** The completion toggle of the tasks page *)

(** X19. The toggle of the tasks page never asks for the refused
    transition. For a stored task whose identifier is a uuid, the status
    it asks for (Pendente for a Concluída task, Concluída otherwise) is
    admitted by the body schema of [updateStatusHandler] and accepted by
    the service: the handler answers with the task in the status asked,
    stores it and logs one manual status entry. An overdue task is thus
    completed by the toggle, never set back to Pendente. *)
Theorem toggle_is_always_accepted
    (clock : nat -> Z) (uuid : nat -> string) (isUuid : string -> bool)
    (id : string) (w : World) (t : TaskEntity.t) :
  isUuid id = true ->
  (taskGet id w).1 = Returned (Some t) ->
  let asked := toggledStatus (TaskEntity.status t) in
  exists (t' : TaskEntity.t) (w' : World),
    updateStatusHandler clock uuid isUuid id (Some (statusText asked)) w
    = (Responded t', w')
    /\ TaskEntity.status t' = asked
    /\ asked <> Vencida
    /\ (TaskEntity.status t = Vencida -> asked = Concluída)
    /\ (taskGet id w').1 = Returned (Some t')
    /\ history w'
       = history w
         ++ [HistoryEntry.mk (uuid (uuidReads w)) id (clock (S (dateReads w)))
               "Alteração de Status" (Some "status")
               (Some (statusText (TaskEntity.status t)))
               (Some (statusText asked)) "Manual"].
Proof.
  intros Hid Hget asked. apply taskGet_found in Hget as [i Hfind].
  pose proof Hfind as Hi. apply list_find_Some in Hi as (Hi & Hidt & _).
  assert (Hparse : parseStatusBody (Some (statusText asked)) = Some asked).
  { subst asked. destruct (TaskEntity.status t); reflexivity. }
  assert (Hguard : bool_decide (TaskEntity.status t = Vencida)
                   && bool_decide (asked = Pendente) = false).
  { subst asked. destruct (TaskEntity.status t); reflexivity. }
  unfold updateStatusHandler. rewrite Hid, Hparse. simpl negb. cbv iota.
  unfold taskUpdateStatus, bind at 1, getTasks; simpl.
  rewrite Hfind, Hguard.
  unfold alterTask, taskAt, recordHistory, bind, getTasks, setTasks,
    newDate, uuidv4, pushHistory, ret; simpl.
  rewrite (alter_twice_at _ _ _ _ _ Hi).
  rewrite list_lookup_insert_eq by (eapply lookup_lt_Some, Hi).
  eexists _, _. split; [reflexivity|]. simpl.
  split; [reflexivity|]. split; [|split; [|split; [|reflexivity]]].
  - subst asked. destruct (TaskEntity.status t); discriminate.
  - intros Hv. subst asked. rewrite Hv. reflexivity.
  - erewrite list_find_overwrite; [reflexivity|exact Hfind|exact Hidt].
Qed.

Lemma toggle_is_always_accepted_witness :
  exists (t' : TaskEntity.t) (w' : World),
    updateStatusHandler sampleClock sampleUuid (fun _ => true) "A"
      (Some "Concluída") (storeOf [sampleTask "A" None None Vencida])
    = (Responded t', w')
    /\ TaskEntity.status t' = Concluída.
Proof.
  destruct (toggle_is_always_accepted sampleClock sampleUuid (fun _ => true)
              "A" (storeOf [sampleTask "A" None None Vencida])
              (sampleTask "A" None None Vencida) eq_refl eq_refl)
    as (t' & w' & Hrun & Hst & _).
  exists t', w'. split; [exact Hrun | exact Hst].
Defined.

(** ** Sorting by due-date *)

Section RankSortOn.
Context {A : Type} (comparefn : A -> A -> option Z) (rank : A -> Z).
Variable good : A -> Prop.

(** On the elements singled out by [good] the comparator orders by
    [rank]. *)
Hypothesis by_rank_on :
  forall x y, good x -> good y ->
              comesAfter comparefn x y = (rank y <? rank x).

Lemma insertSorted_ranked_on (x : A) (l : list A) :
  good x -> Forall good l ->
  StronglySorted (fun a b => rank a <= rank b) l ->
  StronglySorted (fun a b => rank a <= rank b) (insertSorted comparefn x l).
Proof.
  intros Hx Hl Hs. induction Hs as [|y l Hs IH Hy]; simpl.
  - repeat constructor.
  - apply Forall_cons in Hl as [Hgy Hl].
    rewrite (by_rank_on x y Hx Hgy). destruct (rank y <? rank x) eqn:Hlt.
    + apply Z.ltb_lt in Hlt. constructor; [apply IH, Hl|].
      eapply Permutation_Forall;
        [symmetry; apply insertSorted_Permutation|].
      constructor; [lia|exact Hy].
    + apply Z.ltb_ge in Hlt. constructor; [constructor; assumption|].
      constructor; [exact Hlt|].
      eapply Forall_impl; [exact Hy|]. intros z Hz. simpl in Hz. lia.
Qed.

Lemma sort_good (l : list A) : Forall good l -> Forall good (sort comparefn l).
Proof.
  intros H. eapply Permutation_Forall; [symmetry; apply sort_Permutation|exact H].
Qed.

Lemma sort_ranked_on (l : list A) :
  Forall good l ->
  StronglySorted (fun a b => rank a <= rank b) (sort comparefn l).
Proof.
  induction l as [|x l IH]; intros Hl; simpl; [constructor|].
  apply Forall_cons in Hl as [Hx Hl].
  apply insertSorted_ranked_on; [exact Hx|apply sort_good, Hl|apply IH, Hl].
Qed.

Lemma insertSorted_stable_on (k : Z) (x : A) (l : list A) :
  good x -> Forall good l ->
  StronglySorted (fun a b => rank a <= rank b) l ->
  List.filter (fun y => rank y =? k) (insertSorted comparefn x l)
  = List.filter (fun y => rank y =? k) (x :: l).
Proof.
  intros Hx Hl Hs. induction Hs as [|y l Hs IH Hy]; [reflexivity|].
  apply Forall_cons in Hl as [Hgy Hl].
  simpl insertSorted. rewrite (by_rank_on x y Hx Hgy).
  destruct (rank y <? rank x) eqn:Hlt; [|reflexivity].
  apply Z.ltb_lt in Hlt. simpl in *.
  rewrite (IH Hl). destruct (rank x =? k) eqn:Hxk; [|reflexivity].
  apply Z.eqb_eq in Hxk.
  assert (Hyk : (rank y =? k) = false) by (apply Z.eqb_neq; lia).
  rewrite Hyk. reflexivity.
Qed.

Lemma sort_stable_on (k : Z) (l : list A) :
  Forall good l ->
  List.filter (fun y => rank y =? k) (sort comparefn l)
  = List.filter (fun y => rank y =? k) l.
Proof.
  induction l as [|x l IH]; intros Hl; [reflexivity|].
  apply Forall_cons in Hl as [Hx Hl]. simpl sort.
  rewrite insertSorted_stable_on;
    [|exact Hx|apply sort_good, Hl|apply sort_ranked_on, Hl].
  simpl. rewrite (IH Hl). reflexivity.
Qed.
End RankSortOn.

Lemma dueDateOf_range (s : string) (d : Z) :
  dueDateOf s = Some d -> -8640000000000000 <= d <= 8640000000000000.
Proof.
  unfold dueDateOf. destruct (dayMonthYear s) as [[day month] year].
  unfold JsDate.ofYMD.
  destruct year; [|discriminate].
  destruct (JsDate.minus month (Some 1)); [|discriminate].
  destruct day; [|discriminate].
  unfold JsDate.TimeClip.
  match goal with |- context [Z.abs ?x <=? _] => generalize x end.
  intros n. destruct (Z.abs n <=? 8640000000000000) eqn:E; [|discriminate].
  intros [= <-]. apply Z.leb_le in E. lia.
Qed.

Lemma compareTasks_by_due_rank (filters : TaskListFilters.t) (a b : TaskEntity.t) :
  TaskListFilters.orderBy filters = "Data de vencimento" ->
  datedOrUndated a -> datedOrUndated b ->
  comesAfter (compareTasks filters) a b
  = if String.eqb (TaskListFilters.orderDirection filters) "Crescente"
    then dueRank b <? dueRank a else - dueRank b <? - dueRank a.
Proof.
  intros Hby Ha Hb. unfold comesAfter, compareTasks, dueRank, datedOrUndated in *.
  rewrite Hby; simpl.
  destruct (present (TaskEntity.dataVencimento a)) as [sa|];
    destruct (present (TaskEntity.dataVencimento b)) as [sb|].
  - destruct (Ha sa eq_refl) as [da Hda]. destruct (Hb sb eq_refl) as [db Hdb].
    rewrite Hda, Hdb. simpl.
    destruct (String.eqb _ "Crescente"); simpl;
      apply eq_iff_eq_true; rewrite !Z.ltb_lt; lia.
  - destruct (Ha sa eq_refl) as [da Hda]. rewrite Hda. simpl.
    pose proof (dueDateOf_range sa da Hda).
    destruct (String.eqb _ "Crescente"); simpl;
      apply eq_iff_eq_true; rewrite !Z.ltb_lt; lia.
  - destruct (Hb sb eq_refl) as [db Hdb]. rewrite Hdb. simpl.
    pose proof (dueDateOf_range sb db Hdb).
    destruct (String.eqb _ "Crescente"); simpl;
      apply eq_iff_eq_true; rewrite !Z.ltb_lt; lia.
  - destruct (String.eqb _ "Crescente"); reflexivity.
Qed.

(** X20. Under the sort key 'Data de vencimento', when every stored
    due-date matches the date pattern of the request schemas, the list
    that [taskList] returns is ordered by due-date: with 'Crescente' the
    dates do not decrease and the tasks without a due-date come last,
    with any other direction the order is the reverse; and the sort is
    stable, tasks of the same day, and tasks without a due-date, staying
    in store order. *)
Theorem taskList_orders_by_due_date_and_is_stable
    (clock : nat -> Z) (toLowerCase : string -> string)
    (filters : TaskListFilters.t) (w : World) (out : list TaskEntity.t) :
  TaskListFilters.orderBy filters = "Data de vencimento" ->
  (forall t s, t ∈ tasks w -> TaskEntity.dataVencimento t = Some s ->
               matchesDate s = true) ->
  (taskList clock toLowerCase filters w).1 = Returned out ->
  (if String.eqb (TaskListFilters.orderDirection filters) "Crescente"
   then StronglySorted (fun a b => dueRank a <= dueRank b) out
   else StronglySorted (fun a b => dueRank b <= dueRank a) out)
  /\ (forall k : Z,
        List.filter (fun t => dueRank t =? k) out
        `sublist_of` List.filter (fun t => dueRank t =? k) (tasks w)).
Proof.
  intros Hby Hvalid Hrun.
  destruct (taskList_selects clock toLowerCase filters w)
    as (selected & w' & Heq & Hsub & _).
  rewrite Heq in Hrun. simpl in Hrun. injection Hrun as <-.
  assert (Hgood : Forall datedOrUndated selected).
  { apply Forall_forall. intros t Ht s Hp.
    apply present_Some in Hp as [Hp _].
    destruct (matchesDate_dueDateOf s) as (d & Hd & _); [|eauto].
    eapply Hvalid; [|exact Hp]. eapply elem_of_sublist; eauto. }
  pose proof (fun a b Ha Hb => compareTasks_by_due_rank filters a b Hby Ha Hb)
    as Hcmp.
  destruct (String.eqb (TaskListFilters.orderDirection filters) "Crescente").
  - split.
    + apply (sort_ranked_on (compareTasks filters) dueRank datedOrUndated Hcmp),
        Hgood.
    + intros k.
      rewrite (sort_stable_on (compareTasks filters) dueRank datedOrUndated
                 Hcmp k selected Hgood).
      apply sublist_List_filter, Hsub.
  - split.
    + pose proof (sort_ranked_on (compareTasks filters) (fun t => - dueRank t)
                    datedOrUndated Hcmp selected Hgood) as Hs.
      eapply StronglySorted_ind with
        (P := fun l => StronglySorted (fun a b => dueRank b <= dueRank a) l);
        [constructor| |exact Hs].
      intros a l _ IH Ha. constructor; [exact IH|].
      eapply Forall_impl; [exact Ha|]. intros b Hb. simpl in Hb. lia.
    + intros k.
      rewrite (List.filter_ext (fun t => dueRank t =? k)
                 (fun t => - dueRank t =? - k))
        by (intros t; apply eq_iff_eq_true; rewrite !Z.eqb_eq; lia).
      rewrite (sort_stable_on (compareTasks filters) (fun t => - dueRank t)
                 datedOrUndated Hcmp (- k) selected Hgood).
      rewrite <- (List.filter_ext (fun t => dueRank t =? k)
                    (fun t => - dueRank t =? - k))
        by (intros t; apply eq_iff_eq_true; rewrite !Z.eqb_eq; lia).
      apply sublist_List_filter, Hsub.
Qed.

Lemma taskList_orders_by_due_date_and_is_stable_witness :
  let a := sampleTask "A" (Some "03/11/2026") None Pendente in
  let b := sampleTask "B" None None Pendente in
  let c := sampleTask "C" (Some "02/11/2026") None Pendente in
  StronglySorted (fun x y => dueRank x <= dueRank y) [c; a; b].
Proof.
  intros a b c.
  destruct (taskList_orders_by_due_date_and_is_stable sampleClock (fun s => s)
              (byDueDate "Todas" "Crescente") (storeOf [a; b; c]) [c; a; b]
              eq_refl) as [Hsorted _].
  - intros t s Ht Hs.
    apply elem_of_cons in Ht as [-> | Ht]; [injection Hs as <-; reflexivity|].
    apply elem_of_cons in Ht as [-> | Ht]; [discriminate Hs|].
    apply list_elem_of_singleton in Ht. subst t.
    injection Hs as <-. reflexivity.
  - reflexivity.
  - exact Hsorted.
Defined.

(** ** The shape of the history entries *)

Lemma after_adds_well_formed_entries
    (clock : nat -> Z) (uuid : nat -> string) (toLowerCase : string -> string)
    (c : Call) (w : World) :
  exists added : list HistoryEntry.t,
    history (after clock uuid toLowerCase c w) = history w ++ added
    /\ Forall wellFormedEntry added.
Proof.
  assert (Hsame : forall w' : World,
            history w' = history w ->
            exists added, history w' = history w ++ added
                          /\ Forall wellFormedEntry added).
  { intros w' ->. exists []. rewrite app_nil_r. split; [reflexivity|constructor]. }
  destruct c as [data|filters|id|id data|id|id status| |id ft fo]; simpl.
  - unfold taskCreate. destruct (validationError _ _); [apply Hsame; reflexivity|].
    eexists. split; [reflexivity|]. constructor; [|constructor].
    left. simpl. repeat split. left. reflexivity.
  - destruct (taskList_runs clock toLowerCase filters w)
      as (sel & w' & -> & _ & _ & Hh).
    apply Hsame, Hh.
  - apply Hsame. reflexivity.
  - destruct (list_find (fun x => TaskEntity.id x = id) (tasks w))
      as [[i t]|] eqn:Hfind.
    + destruct (validationError (TaskUpdateRequest.titulo data)
                  (TaskUpdateRequest.descricao data)) eqn:Hvalid.
      * apply Hsame. rewrite (taskUpdate_invalid _ _ _ _ _ _ _ _ Hfind Hvalid).
        reflexivity.
      * destruct (taskUpdate_runs clock uuid id data w i t Hfind Hvalid)
          as (fires & d & u & d' & u' & _ & Hrun).
        simpl in Hrun. rewrite Hrun. eexists. split; [reflexivity|].
        apply Forall_app. split.
        -- destruct fires; constructor; [|constructor].
           right. right. simpl. split; [reflexivity|]. split; [reflexivity|].
           split; [exists Vencida, Pendente; split; reflexivity|].
           right. reflexivity.
        -- apply Forall_forall. intros e He.
           apply editEntries_elem in He as (He & _ & Ho & x & Hx & Hc & Ha & Hn).
           apply changedFields_elem in Hx as (f & -> & _).
           right. left. split; [apply String.eqb_eq, He|].
           split; [exists f; exact Hc|].
           rewrite Ha, Hn. repeat split; try discriminate. exact Ho.
    + apply Hsame. unfold taskUpdate, bind, getTasks; simpl.
      rewrite Hfind. reflexivity.
  - unfold taskDelete, bind at 1, getTasks; simpl.
    destruct (list_find _ (tasks w)) as [[i t]|]; [|apply Hsame; reflexivity].
    eexists. split; [reflexivity|]. constructor; [|constructor].
    left. simpl. repeat split. right. reflexivity.
  - unfold taskUpdateStatus, bind at 1, getTasks; simpl.
    destruct (list_find _ (tasks w)) as [[i t]|]; [|apply Hsame; reflexivity].
    destruct (_ && _); [apply Hsame; reflexivity|].
    eexists. split; [reflexivity|]. constructor; [|constructor].
    right. right. simpl. split; [reflexivity|]. split; [reflexivity|].
    split; [eexists _, _; split; reflexivity|]. left. reflexivity.
  - destruct (taskCheckOverdue_runs clock uuid w)
      as (ts' & added & d' & u' & Hrun & _ & _ & _ & Hall).
    rewrite Hrun. exists added. split; [reflexivity|].
    eapply Forall_impl; [exact Hall|].
    intros e (H1 & H2 & H3 & H4 & H5). right. right.
    split; [exact H1|]. split; [exact H2|].
    split; [exists Pendente, Vencida; split; assumption|].
    right. exact H5.
  - apply Hsame. reflexivity.
Qed.

(** X21. Every entry of the history has one of four shapes, whatever
    calls were made since start-up: a 'Criação' or an 'Exclusão' with
    null field and values and origin 'Manual'; an 'Edição' of one of the
    five tracked fields with non-null old and new text and origin
    'Manual'; or an 'Alteração de Status' of the field 'status' whose old
    and new values are statuses, of origin 'Manual' or 'Automática'. The
    shape is kept by each call from any history that has it. *)
Theorem history_entries_are_well_formed
    (clock : nat -> Z) (uuid : nat -> string) (toLowerCase : string -> string)
    (cs : list Call) :
  (forall w : World,
     Forall wellFormedEntry (history w) ->
     Forall wellFormedEntry (history (afterAll clock uuid toLowerCase cs w)))
  /\ Forall wellFormedEntry
       (history (afterAll clock uuid toLowerCase cs emptyWorld)).
Proof.
  assert (Hkeep : forall w : World,
            Forall wellFormedEntry (history w) ->
            Forall wellFormedEntry
              (history (afterAll clock uuid toLowerCase cs w))).
  { unfold afterAll. induction cs as [|c cs IH]; intros w Hw; simpl; [exact Hw|].
    apply IH.
    destruct (after_adds_well_formed_entries clock uuid toLowerCase c w)
      as (added & -> & Hadded).
    apply Forall_app. auto. }
  split; [exact Hkeep|]. apply Hkeep. constructor.
Qed.

Lemma history_entries_are_well_formed_witness :
  Forall wellFormedEntry
    (history (afterAll sampleClock sampleUuid (fun s => s)
                [CallCreate (TaskCreateRequest.mk "Pagar" None
                               (Some "01/11/2026") None Alta);
                 CallCheckOverdue;
                 CallUpdate "A" (sampleRequest "Pagar" (Some "03/11/2026") None);
                 CallDelete "A"]
                emptyWorld)).
Proof.
  apply (history_entries_are_well_formed sampleClock sampleUuid (fun s => s)).
Defined.

(** An 'Edição' entry can carry the same text twice: a description that
    goes from null to the text "null" is logged as "null" to "null". *)
Example edit_entry_with_equal_texts :
  exists e : HistoryEntry.t,
    e ∈ history (taskUpdate sampleClock sampleUuid "A"
                   (TaskUpdateRequest.mk "Pagar contas" (Some "null") None None
                      Alta)
                   (storeOf [sampleTask "A" None None Pendente])).2
    /\ HistoryEntry.tipoAlteracao e = "Edição"
    /\ HistoryEntry.valorAnterior e = HistoryEntry.valorNovo e.
Proof.
  eexists. split; [apply list_elem_of_singleton; reflexivity|].
  split; reflexivity.
Qed.

(** ** The history handler *)

Lemma taskGetHistory_matching (idTarefa : string)
    (filterTipo filterOrigem : option string) (w : World) :
  exists out : list HistoryEntry.t,
    taskGetHistory idTarefa filterTipo filterOrigem w = (Returned out, w)
    /\ Permutation out
         (List.filter (historyMatches idTarefa filterTipo filterOrigem)
            (history w))
    /\ StronglySorted
         (fun a b => HistoryEntry.dataAlteracao b <= HistoryEntry.dataAlteracao a)
         out.
Proof.
  unfold taskGetHistory, bind, getHistory, ret; simpl.
  rewrite (optional_filter_stage filterTipo HistoryEntry.tipoAlteracao).
  rewrite (optional_filter_stage filterOrigem HistoryEntry.origemAlteracao).
  rewrite !filter_filter_andb.
  rewrite (List.filter_ext _ (historyMatches idTarefa filterTipo filterOrigem))
    by (intros e; unfold historyMatches; apply andb_assoc).
  eexists. split; [reflexivity|]. split; [apply sort_Permutation|].
  eapply StronglySorted_ind with
    (P := fun l => StronglySorted
                     (fun a b => HistoryEntry.dataAlteracao b
                                 <= HistoryEntry.dataAlteracao a) l);
    [constructor| |apply (sort_ranked _ (fun e => - HistoryEntry.dataAlteracao e))].
  - intros a l _ IH Ha. constructor; [exact IH|].
    eapply Forall_impl; [exact Ha|]. intros b Hb. simpl in Hb. lia.
  - intros x y. unfold comesAfter.
    apply eq_iff_eq_true. rewrite !Z.ltb_lt. lia.
Qed.

(** X22. For a stored task whose identifier is a uuid, [getHistoryHandler]
    answers an admitted query with 200 and exactly the log entries of the
    task that pass the two filters, absent filters counting as 'Todas',
    latest first, and changes nothing. *)
Theorem getHistoryHandler_returns_the_task_entries
    (isUuid : string -> bool) (id : string) (query : HistoryQuery.t)
    (w : World) (t : TaskEntity.t) (filterTipo filterOrigem : string) :
  isUuid id = true ->
  (taskGet id w).1 = Returned (Some t) ->
  parseHistoryQuery query = Some (filterTipo, filterOrigem) ->
  exists out : list HistoryEntry.t,
    getHistoryHandler isUuid id query w = (Sent 200 out, w)
    /\ Permutation out
         (List.filter (historyMatches id (Some filterTipo) (Some filterOrigem))
            (history w))
    /\ StronglySorted
         (fun a b => HistoryEntry.dataAlteracao b <= HistoryEntry.dataAlteracao a)
         out
    /\ (HistoryQuery.filterTipo query = None -> filterTipo = "Todas")
    /\ (HistoryQuery.filterOrigem query = None -> filterOrigem = "Todas")
    /\ (filterTipo = "Todas" -> filterOrigem = "Todas" ->
        Permutation out
          (List.filter (fun e => String.eqb (HistoryEntry.idTarefa e) id)
             (history w))).
Proof.
  intros Hid Hget Hparse.
  destruct (taskGetHistory_matching id (Some filterTipo) (Some filterOrigem) w)
    as (out & Hrun & Hperm & Hsorted).
  exists out. split.
  { assert (Hstored : taskGet id w = (Returned (Some t), w)).
    { apply taskGet_found in Hget as [i Hfind].
      unfold taskGet, bind, getTasks, ret; simpl. rewrite Hfind. reflexivity. }
    unfold getHistoryHandler. rewrite Hid, Hparse, Hstored. simpl negb.
    cbv iota. unfold settle. rewrite Hrun. reflexivity. }
  split; [exact Hperm|]. split; [exact Hsorted|].
  unfold parseHistoryQuery in Hparse. split; [|split].
  - intros Hn. rewrite Hn in Hparse. simpl in Hparse.
    destruct (enumOrDefault _ _ (HistoryQuery.filterOrigem query));
      [|discriminate].
    injection Hparse as <- _. reflexivity.
  - intros Hn. rewrite Hn in Hparse.
    destruct (enumOrDefault _ _ (HistoryQuery.filterTipo query));
      [|discriminate].
    simpl in Hparse. injection Hparse as _ <-. reflexivity.
  - intros -> ->. rewrite Hperm.
    rewrite (List.filter_ext (historyMatches id (Some "Todas") (Some "Todas"))
               (fun e => String.eqb (HistoryEntry.idTarefa e) id));
      [reflexivity|].
    intros e. unfold historyMatches, filterPasses; simpl.
    rewrite !andb_true_r. reflexivity.
Qed.

Lemma getHistoryHandler_returns_the_task_entries_witness :
  let created := HistoryEntry.mk "h0" "A" 1793000000000 "Criação" None None None
                   "Manual" in
  let other := HistoryEntry.mk "h1" "B" 1793000000001 "Criação" None None None
                 "Manual" in
  exists out : list HistoryEntry.t,
    getHistoryHandler (fun _ => true) "A" (HistoryQuery.mk None None)
      (mkWorld [sampleTask "A" None None Pendente] [created; other] 0 0)
    = (Sent 200 out,
       mkWorld [sampleTask "A" None None Pendente] [created; other] 0 0)
    /\ Permutation out [created].
Proof.
  intros created other.
  destruct (getHistoryHandler_returns_the_task_entries (fun _ => true) "A"
              (HistoryQuery.mk None None)
              (mkWorld [sampleTask "A" None None Pendente] [created; other] 0 0)
              (sampleTask "A" None None Pendente) "Todas" "Todas"
              eq_refl eq_refl eq_refl)
    as (out & Hrun & _ & _ & _ & _ & Hall).
  exists out. split; [exact Hrun|]. apply Hall; reflexivity.
Defined.

(** ** Blank titles *)

Lemma stripSpace_bytes (s r : string) :
  Js.stripSpace s = Some r ->
  exists prefix : list ascii,
    list_ascii_of_string s = prefix ++ list_ascii_of_string r
    /\ Forall (fun c => asciiVisible c = false) prefix.
Proof.
  unfold Js.stripSpace. destruct s as [|c s]; [discriminate|].
  destruct (((9 <=? nat_of_ascii c) && (nat_of_ascii c <=? 13)
             || (nat_of_ascii c =? 32))%nat) eqn:Hc.
  { intros [= <-]. exists [c]. split; [reflexivity|].
    constructor; [|constructor]. unfold asciiVisible, asciiSpace.
    rewrite Hc. apply andb_false_r. }
  assert (Hhigh : forall x : ascii,
            (128 <= nat_of_ascii x)%nat -> asciiVisible x = false).
  { intros x Hx. unfold asciiVisible.
    apply andb_false_iff. left. apply Nat.ltb_ge, Hx. }
  destruct s as [|d s]; [discriminate|].
  destruct (((nat_of_ascii c =? 194) && (nat_of_ascii d =? 160))%nat) eqn:H2.
  { intros [= <-]. exists [c; d]. split; [reflexivity|].
    apply andb_true_iff in H2 as [Hn Hm]. apply Nat.eqb_eq in Hn, Hm.
    repeat constructor; apply Hhigh; lia. }
  destruct s as [|e s]; [discriminate|].
  match goal with |- (if ?b then _ else _) = _ -> _ => destruct b eqn:H3 end;
    [|discriminate].
  intros [= <-]. exists [c; d; e]. split; [reflexivity|].
  rewrite !orb_true_iff, !andb_true_iff, !orb_true_iff, !Nat.eqb_eq,
    !Nat.leb_le in H3.
  repeat constructor; apply Hhigh; lia.
Qed.

Lemma blankWithin_no_visible (fuel : nat) (s : string) :
  Js.blankWithin fuel s = true ->
  Forall (fun c => asciiVisible c = false) (list_ascii_of_string s).
Proof.
  revert s. induction fuel as [|fuel IH]; intros s; simpl.
  - destruct s; [constructor|discriminate].
  - destruct s as [|c s]; [constructor|].
    destruct (Js.stripSpace (String c s)) as [r|] eqn:Hs; [|discriminate].
    intros Hr. destruct (stripSpace_bytes _ _ Hs) as (prefix & -> & Hp).
    apply Forall_app. split; [exact Hp|apply IH, Hr].
Qed.

Lemma stripSpace_space (c : ascii) (r : string) :
  asciiSpace c = true -> Js.stripSpace (String c r) = Some r.
Proof.
  unfold asciiSpace, Js.stripSpace. cbv zeta. intros ->. reflexivity.
Qed.

Lemma blankWithin_spaces (s : string) :
  Forall (fun c => asciiSpace c = true) (list_ascii_of_string s) ->
  Js.blankWithin (String.length s) s = true.
Proof.
  induction s as [|c s IH]; [reflexivity|].
  intros H. apply Forall_cons in H as [Hc Hs].
  change (match Js.stripSpace (String c s) with
          | Some r => Js.blankWithin (String.length s) r
          | None => false
          end = true).
  rewrite (stripSpace_space c s Hc). apply IH, Hs.
Qed.

Lemma jsLength_ascii (s : string) :
  isAscii s -> Js.jsLength s = String.length s.
Proof.
  unfold isAscii. induction s as [|c s IH]; [reflexivity|].
  intros H. apply Forall_cons in H as [Hc Hs]. simpl.
  unfold Js.isContinuation, Js.isAstralLead.
  assert (H1 : (128 <=? nat_of_ascii c)%nat = false) by (apply Nat.leb_gt; lia).
  assert (H2 : (240 <=? nat_of_ascii c)%nat = false) by (apply Nat.leb_gt; lia).
  rewrite H1, H2. simpl. rewrite (IH Hs). reflexivity.
Qed.

(** X23. What the title checks mean for plain text. A title made of
    ASCII white space only (the empty title included) is refused as
    'tituloObrigatorio'. A title that contains a visible ASCII character
    is never refused as blank; if moreover the title is ASCII, it is
    refused as 'tituloMuitoLongo' exactly when it has more than 100
    characters, and with at most 100 characters and no description it
    passes validation. *)
Theorem title_checks_on_plain_text (titulo : string) (descricao : option string) :
  (Forall (fun c => asciiSpace c = true) (list_ascii_of_string titulo) ->
   validationError titulo descricao = Some "tituloObrigatorio")
  /\ (Exists (fun c => asciiVisible c = true) (list_ascii_of_string titulo) ->
      validationError titulo descricao <> Some "tituloObrigatorio"
      /\ (isAscii titulo ->
          (validationError titulo descricao = Some "tituloMuitoLongo"
           <-> (100 < String.length titulo)%nat)
          /\ ((String.length titulo <= 100)%nat ->
              validationError titulo None = None))).
Proof.
  split.
  - intros Hws. unfold validationError, Js.trimIsEmpty.
    rewrite (blankWithin_spaces titulo Hws), orb_true_r. reflexivity.
  - intros Hvis.
    assert (Hblank : Js.trimIsEmpty titulo = false).
    { apply not_true_is_false. intros Hb.
      apply blankWithin_no_visible in Hb.
      apply Exists_exists in Hvis as (c & Hc & Hv).
      rewrite Forall_forall in Hb. specialize (Hb c Hc). congruence. }
    assert (Htruthy : negb (Js.truthy (Some titulo)) = false).
    { destruct titulo; [discriminate Hblank|reflexivity]. }
    unfold validationError. rewrite Htruthy, Hblank. simpl.
    split.
    + destruct (100 <? Js.jsLength titulo)%nat; [discriminate|].
      destruct (present descricao) as [d|]; [|discriminate].
      destruct (500 <? Js.jsLength d)%nat; discriminate.
    + intros Hascii. rewrite (jsLength_ascii titulo Hascii). split.
      * destruct (100 <? String.length titulo)%nat eqn:Hlong.
        -- apply Nat.ltb_lt in Hlong. split; [intros _; exact Hlong|reflexivity].
        -- apply Nat.ltb_ge in Hlong. split; [|intros H; lia].
           destruct (present descricao) as [d|]; [|discriminate].
           destruct (500 <? Js.jsLength d)%nat; discriminate.
      * intros Hle.
        assert (Hlong : (100 <? String.length titulo)%nat = false)
          by (apply Nat.ltb_ge; exact Hle).
        rewrite Hlong. reflexivity.
Qed.

Lemma title_checks_on_plain_text_witness :
  validationError (String (ascii_of_nat 9) " ") None = Some "tituloObrigatorio"
  /\ validationError " Pagar contas " None = None.
Proof.
  split.
  - apply (title_checks_on_plain_text (String (ascii_of_nat 9) " ") None).
    repeat constructor.
  - destruct (title_checks_on_plain_text " Pagar contas " None) as [_ H].
    destruct H as [_ H].
    + apply Exists_cons_tl, Exists_cons_hd. reflexivity.
    + apply H.
      * repeat constructor.
      * simpl. lia.
Defined.

(** ** A task from creation to deletion, through the handlers *)

Lemma createHandler_sent
    (clock : nat -> Z) (uuid : nat -> string) (body : TaskBody.t)
    (w w' : World) (code : Z) (t : TaskEntity.t) :
  createHandler clock uuid body w = (Sent code t, w') ->
  code = 201 /\ tasks w' = tasks w ++ [t].
Proof.
  unfold createHandler.
  destruct (parseTaskBody body) as [data|]; [|discriminate].
  destruct (dueDateInPast_runs clock (ParsedBody.dataVencimento data) w)
    as (past & w1 & Hrun & Htasks & _).
  rewrite Hrun. destruct past; [discriminate|].
  unfold taskCreate; simpl.
  destruct (validationError _ _); simpl; [discriminate|].
  intros [= <- <- <-]. simpl. rewrite Htasks. split; reflexivity.
Qed.

Lemma list_find_last_fresh {A} (P : A -> Prop) `{forall x, Decision (P x)}
    (l : list A) (x : A) :
  Forall (fun y => ~ P y) l -> P x ->
  list_find P (l ++ [x]) = Some (length l, x).
Proof.
  intros Hl Hx. apply list_find_Some. split; [|split].
  - rewrite lookup_app_r by lia. rewrite Nat.sub_diag. reflexivity.
  - exact Hx.
  - intros j y Hj Hlt. rewrite lookup_app_l in Hj by exact Hlt.
    rewrite Forall_forall in Hl. apply Hl. eapply list_elem_of_lookup_2, Hj.
Qed.

Lemma delete_last {A} (l : list A) (x : A) : delete (length l) (l ++ [x]) = l.
Proof. induction l as [|y l IH]; [reflexivity|]. simpl. f_equal. exact IH. Qed.

(** X24. A task from creation to deletion, through the handlers. When
    [createHandler] answers with a task whose identifier is a uuid that
    no stored task had, [getHandler] serves that very task under its
    identifier; [deleteHandler] then answers 200 and leaves the store as
    it was before the creation, and [getHandler] answers 404
    'tarefaNaoEncontrada' from then on. *)
Theorem created_task_is_served_until_deleted
    (clock : nat -> Z) (uuid : nat -> string) (isUuid : string -> bool)
    (body : TaskBody.t) (w w' : World) (code : Z) (t : TaskEntity.t) :
  createHandler clock uuid body w = (Sent code t, w') ->
  isUuid (TaskEntity.id t) = true ->
  (forall t0, t0 ∈ tasks w -> TaskEntity.id t0 <> TaskEntity.id t) ->
  code = 201
  /\ getHandler isUuid (TaskEntity.id t) w' = (Sent 200 t, w')
  /\ exists w'' : World,
       deleteHandler clock uuid isUuid (TaskEntity.id t) w' = (Sent 200 true, w'')
       /\ tasks w'' = tasks w
       /\ getHandler isUuid (TaskEntity.id t) w''
          = (Refused 404 "tarefaNaoEncontrada", w'').
Proof.
  intros Hrun Hid Hfresh.
  destruct (createHandler_sent _ _ _ _ _ _ _ Hrun) as [-> Htasks].
  assert (Hfind : list_find (fun x => TaskEntity.id x = TaskEntity.id t)
                    (tasks w') = Some (length (tasks w), t)).
  { rewrite Htasks. apply list_find_last_fresh; [|reflexivity].
    apply Forall_forall. exact Hfresh. }
  split; [reflexivity|]. split.
  { unfold getHandler. rewrite Hid. simpl negb. cbv iota.
    unfold taskGet, bind, getTasks, ret; simpl. rewrite Hfind. reflexivity. }
  eexists. split.
  { unfold deleteHandler. rewrite Hid. simpl negb. cbv iota.
    rewrite (taskDelete_runs clock uuid _ w' _ t Hfind). reflexivity. }
  simpl. rewrite Htasks, delete_last. split; [reflexivity|].
  unfold getHandler. rewrite Hid. simpl negb. cbv iota.
  unfold taskGet, bind, getTasks, ret; simpl.
  assert (Hnone : list_find (fun x => TaskEntity.id x = TaskEntity.id t)
                    (tasks w) = None).
  { apply list_find_None, Forall_forall. exact Hfresh. }
  rewrite Hnone. reflexivity.
Qed.

Lemma created_task_is_served_until_deleted_witness :
  let created :=
    createHandler sampleClock sampleUuid
      (TaskBody.mk (Some "Pagar contas") None (Some "03/11/2026") None
         (Some "Alta"))
      (storeOf [sampleTask "Z" None None Pendente]) in
  exists t : TaskEntity.t,
    created.1 = Sent 201 t
    /\ getHandler (fun _ => true) (TaskEntity.id t) created.2
       = (Sent 200 t, created.2).
Proof.
  intros created.
  destruct created as [reply w'] eqn:Hrun.
  destruct reply as [code t|code reason|e|];
    try (vm_compute in Hrun; discriminate Hrun).
  assert (Hid : TaskEntity.id t = "A").
  { pose proof Hrun as Hval. vm_compute in Hval.
    injection Hval as _ <- _. reflexivity. }
  destruct (created_task_is_served_until_deleted sampleClock sampleUuid
              (fun _ => true) _ _ w' code t Hrun eq_refl)
    as (-> & Hget & _).
  - intros t0 Ht0. apply list_elem_of_singleton in Ht0 as ->.
    rewrite Hid. discriminate.
  - exists t. split; [reflexivity|exact Hget].
Defined.
